(** * SwapX trading bot: strategy engine and runner registry

    A shallow embedding of the strategy execution engine of the bot:
    - [BuySell]  : [BuySellStrategy], the threshold strategy
    - [DCA]      : [DCAStrategy], the version with a total budget
    - [Grid]     : [GridStrategy], the version with arithmetic and geometric grids
    - [BotRunner]: the process-wide registry (services/BotRunner.js)
    - [BuySellReport], [Logger], [Storage]: what the threshold strategy
      reports, the log store and the trade history
    - [GridStrategy], [DCAStrategy], [Runner]: the tick of the grid strategy
      with its cooldown, the resets, the listing and the cleanup of the
      registry
    - [DCA64], [Grid64]: the budget accounting of [DCAStrategy] and the
      arithmetic levels of [GridStrategy] over binary64 numbers, and a tick
      of [DCAStrategy] cut at its [await]s, for ticks that overlap

    Modelling conventions.
    - A method of a strategy object is a computation in the monad [Eff S]:
      it reads and writes the fields of [this] (the state [S]), appends the
      side effects it performs to a trace of [event]s (log entries, timer
      calls, swap calls, saved trades) and either returns or throws.  A
      [throw] keeps the state reached so far, as a JavaScript exception keeps
      the mutations done before it.
    - An [async] evaluation (one tick) is modelled as one atomic step.  The
      values produced by the awaited collaborators (spot price, swap result)
      are given to the step as a [world] record.  Statements about a tick
      are about a tick that runs on its own; [DCA64] also has the tick as a
      task that is suspended at each [await], and a scheduler over the
      ticks in flight.
    - JavaScript numbers that hold money amounts and prices are exact in
      [BuySell], [DCA] (rationals [Q]: the code only adds, multiplies,
      divides and compares, and the definitions compute) and in [Grid]
      (reals [R]: the geometric mode takes a fractional power).  Rounding of
      binary floating point, NaN and infinities (hence a division by zero)
      are outside these modules: their statements follow the operations of
      the code one by one, and say so where they read a value as an exact
      number.  [DCA64] and [Grid64] compute with the binary64 numbers of
      JavaScript.  Counters are natural numbers. *)

From Stdlib Require Import ZArith QArith Reals Lra Lia.
From stdpp Require Import gmap strings list.

Close Scope Q_scope.
Close Scope R_scope.

(** ** Effects shared by the three strategies *)

(** [LOG_LEVELS] of utils/logger.js. *)
Inductive level := info | success | warning | error | debug.

(** A timer handle, as returned by [setInterval]: a non-zero number in a
    browser, hence truthy. *)
Definition handle := positive.

(** A transaction hash ([result.hash]). *)
Definition txhash := string.

(** What a [throw] carries. *)
Inductive exn :=
| AlreadyRunning                 (* new Error('策略已在运行中') *)
| BudgetExhausted                (* new Error('预算已用尽，无法启动') *)
| GridAmountTooSmall (a : R)     (* new Error(`单格金额过小 (${a} USDT)，...`) *)
| External (message : string).   (* an error raised by the price or swap collaborator *)

(** The text of a log entry.  One constructor per template string of the
    source; the arguments are the interpolated values the proofs look at. *)
Inductive message :=
(* BuySellStrategy *)
| BSAlreadyRunning                                   (* '策略已在运行中' *)
| BSStarted                                          (* '🤖 低买高卖策略启动 ...' *)
| BSTimerStarted                                     (* '✅ 策略定时器已启动，开始持续监控...' *)
| BSStopped (reason : string) (buys sells failed : nat) (* '⛔ 低买高卖策略停止 ...' *)
| BSNotRunning                                       (* '⚠️ 策略未运行，跳过检查' *)
| BSBuySignal (price : Q)                            (* '🔔 触发买入信号! ...' *)
| BSSellSignal (price : Q)                           (* '🔔 触发卖出信号! ...' *)
| BSMonitoring (price : Q)                           (* '⏳ 监控中... 价格: ...' *)
| BSPriceCheckFailed (e : exn)                       (* '❌ 检查价格失败: ...' *)
| BSBuyBegin (usdt : Q)                              (* '🔄 开始执行买入操作: ...' *)
| BSBuySuccess (h : txhash)                          (* '✅ 买入成功! ...' *)
| BSBuyInsufficient                                  (* '⚠️ 买入失败：资金不足 ...' *)
| BSBuyFailed (e : exn) (failed : nat)               (* '❌ 买入失败: ... 失败次数: ...' *)
| BSSellBegin (xoc : Q)                              (* '🔄 开始执行卖出操作: ...' *)
| BSSellSuccess (h : txhash)                         (* '✅ 卖出成功! ...' *)
| BSSellInsufficient                                 (* '⚠️ 卖出失败：XOC余额不足 ...' *)
| BSSellFailed (e : exn) (failed : nat)              (* '❌ 卖出失败: ... 失败次数: ...' *)
| BSTimerError (e : exn)                             (* '定时检查出错: ...' *)
(* DCAStrategy *)
| DCAStarted                                         (* 'DCA策略启动: ...' *)
| DCAStopped (times : nat) (spent budget : Q)        (* 'DCA策略停止: 已执行..次, 总投入../.. USDT' *)
| DCACompleted (spent : Q)                           (* 'DCA策略完成: 预算已用尽 (已投 .. USDT)' *)
| DCAPriceAboveMax (price : Q)                       (* '当前价格 .. 高于设定上限 ..，本次跳过' *)
| DCACheckFailed (e : exn)                           (* 'DCA检查失败: ...' *)
| DCAExecuting (n : nat) (usdt : Q)                  (* '执行第..次定投: .. USDT' *)
| DCABuySuccess (h : txhash)                         (* '定投买入成功: ...' *)
| DCABuyFailed (e : exn)                             (* '买入失败: ...' *)
(* GridStrategy *)
| GridInitialized (points : nat)                     (* '网格初始化完成 (..): ..个价格点, ...' *)
| GridStarted                                        (* '网格策略已启动，开始监控价格...' *)
| GridStartFailed (e : exn)                          (* '启动失败: ...' *)
| GridStopped                                        (* '网格策略停止' *)
(* BotRunner *)
| RunnerRegistered (botId : string)                  (* '策略已注册' *)
| RunnerStarted (botId : string)                     (* '策略已启动' *)
| RunnerStopped (botId reason : string).             (* '策略已停止' *)

Inductive side := BUY | SELL.

(** The record handed to [saveTrade]. *)
Record trade := Trade {
  trade_type : side;
  amountIn : Q;
  amountOut : Q;
  trade_price : Q;
  txHash : txhash
}.

(** Side effects, in the order the code performs them.  A call to a
    collaborator is recorded with the answer it gave.  What a collaborator
    writes to the logs while it runs (the swap service logs its own
    failures before it rejects) is part of the call: [Log] and [SysLog] are
    the entries the strategies and the runner write themselves. *)
Inductive event :=
| Log (lv : level) (m : message)              (* tradeLog.<lv>(m) *)
| SysLog (lv : level) (m : message)           (* log.<lv>(m) *)
| SetInterval (h : handle)                    (* h = setInterval(tick, period) *)
| ClearInterval (h : handle)                  (* clearInterval(h) *)
| FirstEvaluation                             (* the un-awaited first tick, left running *)
| GetPrice (answer : exn + Q)                 (* await getXOCPrice(..) / getWXOCPrice(..) *)
| BuyXOC (usdt : Q) (answer : exn + txhash)   (* await buyXOC(wallet, usdt, 0.5) *)
| SellXOC (xoc : Q) (answer : exn + txhash)   (* await sellXOC(wallet, xoc, 0.5) *)
| SaveTrade (t : trade).                      (* saveTrade(t) *)

(** ** The monad of methods: state of [this], trace of effects, exceptions *)

Record outcome (S A : Type) := Outcome {
  final : S;
  trace : list event;
  result : A + exn
}.
Arguments Outcome {S A}.
Arguments final {S A}.
Arguments trace {S A}.
Arguments result {S A}.

Definition Eff (S A : Type) : Type := S -> outcome S A.

Definition eff_ret {S A} (a : A) : Eff S A :=
  fun s => Outcome s [] (inl a).

Definition eff_bind {S A B} (k : A -> Eff S B) (m : Eff S A) : Eff S B :=
  fun s =>
    match m s with
    | Outcome s1 tr1 (inl a) =>
        match k a s1 with
        | Outcome s2 tr2 r => Outcome s2 (tr1 ++ tr2) r
        end
    | Outcome s1 tr1 (inr e) => Outcome s1 tr1 (inr e)
    end.

#[global] Instance eff_mret {S} : MRet (Eff S) := @eff_ret S.
#[global] Instance eff_mbind {S} : MBind (Eff S) := @eff_bind S.

Definition throw {S A} (e : exn) : Eff S A :=
  fun s => Outcome s [] (inr e).

(** [try { m } catch (e) { handler e }]. *)
Definition try_catch {S A} (m : Eff S A) (handler : exn -> Eff S A) : Eff S A :=
  fun s =>
    match m s with
    | Outcome s1 tr1 (inl a) => Outcome s1 tr1 (inl a)
    | Outcome s1 tr1 (inr e) =>
        match handler e s1 with
        | Outcome s2 tr2 r => Outcome s2 (tr1 ++ tr2) r
        end
    end.

Definition emit {S} (ev : event) : Eff S unit :=
  fun s => Outcome s [ev] (inl tt).

Definition get {S} : Eff S S :=
  fun s => Outcome s [] (inl s).

Definition modify {S} (f : S -> S) : Eff S unit :=
  fun s => Outcome (f s) [] (inl tt).

(** [await f(..)] of a collaborator whose answer is [r]: a rejected promise
    throws at the [await]. *)
Definition await {S A} (call : exn + A -> event) (r : exn + A) : Eff S A :=
  fun s => Outcome s [call r] (match r with inl e => inr e | inr a => inl a end).

(** Comparisons of JavaScript numbers ([>], [>=], [<=]) on rationals. *)
Definition Qgtb (a b : Q) : bool := negb (Qle_bool a b).
Definition Qgeb (a b : Q) : bool := Qle_bool b a.
Definition Qleb (a b : Q) : bool := Qle_bool a b.

(** Counting events of a trace. *)
Definition is_buy (ev : event) : bool :=
  match ev with BuyXOC _ _ => true | _ => false end.
Definition is_sell (ev : event) : bool :=
  match ev with SellXOC _ _ => true | _ => false end.
Definition is_buy_ok (ev : event) : bool :=
  match ev with BuyXOC _ (inr _) => true | _ => false end.
Definition is_log (ev : event) : bool :=
  match ev with Log _ _ | SysLog _ _ => true | _ => false end.
Definition is_timer_call (ev : event) : bool :=
  match ev with SetInterval _ | ClearInterval _ => true | _ => false end.

Fixpoint count (p : event -> bool) (tr : list event) : nat :=
  match tr with
  | [] => 0
  | ev :: tr' => (if p ev then 1 else 0) + count p tr'
  end.

(** ** DCAStrategy (periodic fixed buy with a budget cap) *)

Module DCA.

(** [config: { amount, interval, totalBudget, maxPrice }]; [maxPrice] may be
    left unset. *)
Record config_t := Config {
  amount : Q;
  interval : Q;
  totalBudget : Q;
  maxPrice : option Q
}.

(** The fields of a [DCAStrategy] instance. *)
Record state := State {
  config : config_t;
  isRunning : bool;
  totalSpent : Q;
  executedTimes : nat;
  timer : option handle
}.

(** [new DCAStrategy(config, wallet, swapService)]. *)
Definition new (c : config_t) : state :=
  State c false 0%Q 0 None.

Definition set_isRunning (b : bool) (s : state) : state :=
  State (config s) b (totalSpent s) (executedTimes s) (timer s).
Definition set_timer (t : option handle) (s : state) : state :=
  State (config s) (isRunning s) (totalSpent s) (executedTimes s) t.
Definition record_buy (s : state) : state :=
  State (config s) (isRunning s) (totalSpent s + amount (config s))%Q
        (S (executedTimes s)) (timer s).

(** What the awaited collaborators answer during one tick. *)
Record world := World {
  guardPrice : exn + Q;     (* getXOCPrice(provider), asked only when maxPrice is set *)
  tradePrice : exn + Q;     (* getWXOCPrice(provider) in executeTrade *)
  buyAnswer : exn + txhash  (* buyXOC(wallet, amount, 0.5) *)
}.

(** [if (this.config.maxPrice)]: set and non-zero. *)
Definition maxPrice_set (c : config_t) : option Q :=
  match maxPrice c with
  | Some m => if Qeq_bool m 0 then None else Some m
  | None => None
  end.

(** [stop()] *)
Definition stop : Eff state unit :=
  s ← get;
  match timer s with
  | Some h => emit (ClearInterval h);; modify (set_timer None)
  | None => mret tt
  end;;
  modify (set_isRunning false);;
  s ← get;
  emit (Log info (DCAStopped (executedTimes s) (totalSpent s) (totalBudget (config s)))).

(** [executeTrade()] *)
Definition executeTrade (w : world) : Eff state txhash :=
  try_catch
    (s ← get;
     emit (Log info (DCAExecuting (S (executedTimes s)) (amount (config s))));;
     currentPrice ← await GetPrice (tradePrice w);
     h ← await (BuyXOC (amount (config s))) (buyAnswer w);
     modify record_buy;;
     emit (SaveTrade (Trade BUY (amount (config s)) (amount (config s) / currentPrice)%Q
                            currentPrice h));;
     emit (Log success (DCABuySuccess h));;
     mret h)
    (fun e => emit (Log error (DCABuyFailed e));; throw e).

(** The budget pre-check of [checkAndExecute]:
    [this.totalSpent + this.config.amount > this.config.totalBudget]. *)
Definition over_budget (s : state) : bool :=
  Qgtb (totalSpent s + amount (config s))%Q (totalBudget (config s)).

(** [checkAndExecute()], one tick. *)
Definition checkAndExecute (w : world) : Eff state unit :=
  try_catch
    (s ← get;
     if over_budget s then
       stop;;
       s ← get;
       emit (Log success (DCACompleted (totalSpent s)))
     else
       skip ← match maxPrice_set (config s) with
              | Some m =>
                  currentPrice ← await GetPrice (guardPrice w);
                  if Qgtb currentPrice m
                  then emit (Log warning (DCAPriceAboveMax currentPrice));; mret true
                  else mret false
              | None => mret false
              end;
       if skip : bool then mret tt
       else executeTrade w;; mret tt)
    (fun e => emit (Log error (DCACheckFailed e))).

(** [start()].  [h] is the handle [setInterval] returns.  The call
    [this.checkAndExecute()] is not awaited: its body runs up to its first
    [await], which is after the budget pre-check, so a pre-check that fires
    stops the strategy inside [start]; otherwise the rest of the first
    evaluation is left running ([FirstEvaluation]). *)
Definition start (h : handle) : Eff state unit :=
  s ← get;
  if isRunning s then throw AlreadyRunning
  else if Qgeb (totalSpent s) (totalBudget (config s)) then throw BudgetExhausted
  else
    modify (set_isRunning true);;
    emit (Log info DCAStarted);;
    (s ← get;
     if over_budget s then
       stop;;
       s ← get;
       emit (Log success (DCACompleted (totalSpent s)))
     else emit FirstEvaluation);;
    modify (set_timer (Some h));;
    emit (SetInterval h).

(** Ticks one after the other, each with its own answers. *)
Fixpoint run (ws : list world) : Eff state unit :=
  match ws with
  | [] => mret tt
  | w :: ws' => checkAndExecute w;; run ws'
  end.

End DCA.


(** ** BuySellStrategy (threshold buy-low / sell-high) *)

(** [String.prototype.includes]: [needle] occurs somewhere in [hay]. *)
Fixpoint starts_with (needle hay : string) : bool :=
  match needle, hay with
  | EmptyString, _ => true
  | String a needle', String b hay' => Ascii.eqb a b && starts_with needle' hay'
  | String _ _, EmptyString => false
  end.

Fixpoint includes (needle hay : string) : bool :=
  starts_with needle hay ||
  match hay with
  | EmptyString => false
  | String _ hay' => includes needle hay'
  end.

Module BuySell.

(** [config: { buyThreshold, sellThreshold, tradeAmount, checkInterval }] *)
Record config_t := Config {
  buyThreshold : Q;
  sellThreshold : Q;
  tradeAmount : Q;
  checkInterval : Q
}.

(** [this.stats] *)
Record statistics := Stats {
  totalBuyCount : nat;
  totalSellCount : nat;
  totalBuyAmount : Q;
  totalSellAmount : Q;
  totalXOCBought : Q;
  totalXOCSold : Q;
  failedTrades : nat
}.

(** The fields of a [BuySellStrategy] instance.  Times are [Date.now()]
    values; [None] is [null]. *)
Record state := State {
  config : config_t;
  isRunning : bool;
  timer : option handle;
  startTime : option Z;
  lastTradeTime : option Z;
  lastPrice : option Q;
  stats : statistics
}.

(** [new BuySellStrategy(config, wallet, swapService)] *)
Definition new (c : config_t) : state :=
  State c false None None None None (Stats 0 0 0%Q 0%Q 0%Q 0%Q 0).

Definition set_isRunning (b : bool) (s : state) : state :=
  State (config s) b (timer s) (startTime s) (lastTradeTime s) (lastPrice s) (stats s).
Definition set_timer (t : option handle) (s : state) : state :=
  State (config s) (isRunning s) t (startTime s) (lastTradeTime s) (lastPrice s) (stats s).
Definition set_startTime (t : option Z) (s : state) : state :=
  State (config s) (isRunning s) (timer s) t (lastTradeTime s) (lastPrice s) (stats s).
Definition set_lastTradeTime (t : option Z) (s : state) : state :=
  State (config s) (isRunning s) (timer s) (startTime s) t (lastPrice s) (stats s).
Definition set_lastPrice (p : option Q) (s : state) : state :=
  State (config s) (isRunning s) (timer s) (startTime s) (lastTradeTime s) p (stats s).
Definition set_stats (f : statistics -> statistics) (s : state) : state :=
  State (config s) (isRunning s) (timer s) (startTime s) (lastTradeTime s) (lastPrice s)
        (f (stats s)).

(** [this.stats.failedTrades++] *)
Definition incr_failedTrades (st : statistics) : statistics :=
  Stats (totalBuyCount st) (totalSellCount st) (totalBuyAmount st) (totalSellAmount st)
        (totalXOCBought st) (totalXOCSold st) (S (failedTrades st)).

(** The three updates of [stats] after a successful buy. *)
Definition count_buy (usdt xoc : Q) (st : statistics) : statistics :=
  Stats (S (totalBuyCount st)) (totalSellCount st)
        (totalBuyAmount st + usdt)%Q (totalSellAmount st)
        (totalXOCBought st + xoc)%Q (totalXOCSold st) (failedTrades st).

(** The three updates of [stats] after a successful sell. *)
Definition count_sell (usdt xoc : Q) (st : statistics) : statistics :=
  Stats (totalBuyCount st) (S (totalSellCount st))
        (totalBuyAmount st) (totalSellAmount st + usdt)%Q
        (totalXOCBought st) (totalXOCSold st + xoc)%Q (failedTrades st).

(** What the awaited collaborators and the clock answer during one tick. *)
Record world := World {
  priceAnswer : exn + Q;       (* getXOCPrice(provider) *)
  buyAnswer : exn + txhash;    (* buyXOC(wallet, tradeAmount, 0.5) *)
  sellAnswer : exn + txhash;   (* sellXOC(wallet, xocToSell, 0.5) *)
  now : Z                      (* Date.now() *)
}.

(** The test of the two [catch] blocks:
    [error.message && (error.message.includes('insufficient funds') ||
     error.message.includes('余额不足') || error.message.includes('balance') ||
     error.message.includes('INSUFFICIENT'))].
    The errors the strategies throw themselves carry none of the markers. *)
Definition insufficient_funds (e : exn) : bool :=
  match e with
  | External m =>
      negb (String.eqb m "") &&
      (includes "insufficient funds" m || includes "余额不足" m ||
       includes "balance" m || includes "INSUFFICIENT" m)
  | _ => false
  end.

(** [start()].  [h] is the handle [setInterval] returns, [t] is [Date.now()].
    The un-awaited [this.checkAndTrade()] passes its [isRunning] test and
    suspends at the price fetch ([FirstEvaluation]). *)
Definition start (h : handle) (t : Z) : Eff state unit :=
  s ← get;
  if isRunning s then emit (Log warning BSAlreadyRunning)
  else
    modify (set_isRunning true);;
    modify (set_startTime (Some t));;
    emit (Log success BSStarted);;
    modify (set_timer (Some h));;
    emit (SetInterval h);;
    emit FirstEvaluation;;
    emit (Log info BSTimerStarted).

(** [stop(reason)] *)
Definition stop (reason : string) : Eff state unit :=
  s ← get;
  match timer s with
  | Some h => emit (ClearInterval h);; modify (set_timer None)
  | None => mret tt
  end;;
  modify (set_isRunning false);;
  s ← get;
  emit (Log info (BSStopped reason (totalBuyCount (stats s)) (totalSellCount (stats s))
                            (failedTrades (stats s)))).

(** [executeBuy(price)]: returns the swap result, or [null] after a failure. *)
Definition executeBuy (w : world) (price : Q) : Eff state (option txhash) :=
  try_catch
    (s ← get;
     emit (Log info (BSBuyBegin (tradeAmount (config s))));;
     let expectedXOC := (tradeAmount (config s) / price)%Q in
     h ← await (BuyXOC (tradeAmount (config s))) (buyAnswer w);
     modify (set_stats (count_buy (tradeAmount (config s)) expectedXOC));;
     modify (set_lastTradeTime (Some (now w)));;
     emit (SaveTrade (Trade BUY (tradeAmount (config s)) expectedXOC price h));;
     emit (Log success (BSBuySuccess h));;
     mret (Some h))
    (fun e =>
       modify (set_stats incr_failedTrades);;
       s ← get;
       (if insufficient_funds e
        then emit (Log warning BSBuyInsufficient)
        else emit (Log error (BSBuyFailed e (failedTrades (stats s)))));;
       mret None).

(** [executeSell(price)] *)
Definition executeSell (w : world) (price : Q) : Eff state (option txhash) :=
  try_catch
    (s ← get;
     let xocToSell := (tradeAmount (config s) / price)%Q in
     emit (Log info (BSSellBegin xocToSell));;
     let expectedUSDT := (xocToSell * price)%Q in
     h ← await (SellXOC xocToSell) (sellAnswer w);
     modify (set_stats (count_sell expectedUSDT xocToSell));;
     modify (set_lastTradeTime (Some (now w)));;
     emit (SaveTrade (Trade SELL xocToSell expectedUSDT price h));;
     emit (Log success (BSSellSuccess h));;
     mret (Some h))
    (fun e =>
       modify (set_stats incr_failedTrades);;
       s ← get;
       (if insufficient_funds e
        then emit (Log warning BSSellInsufficient)
        else emit (Log error (BSSellFailed e (failedTrades (stats s)))));;
       mret None).

(** [checkAndTrade()], one evaluation. *)
Definition checkAndTrade (w : world) : Eff state unit :=
  s ← get;
  if negb (isRunning s) then emit (Log warning BSNotRunning)
  else
    try_catch
      (price ← await GetPrice (priceAnswer w);
       modify (set_lastPrice (Some price));;
       s ← get;
       if Qleb price (buyThreshold (config s)) then
         emit (Log warning (BSBuySignal price));;
         executeBuy w price;;
         mret tt
       else if Qgeb price (sellThreshold (config s)) then
         emit (Log warning (BSSellSignal price));;
         executeSell w price;;
         mret tt
       else
         let totalChecks := totalBuyCount (stats s) + totalSellCount (stats s) in
         if totalChecks mod 10 =? 0
         then emit (Log info (BSMonitoring price))
         else mret tt)
      (fun e =>
         modify (set_stats incr_failedTrades);;
         emit (Log error (BSPriceCheckFailed e))).

(** The callback given to [setInterval]: one tick. *)
Definition tick (w : world) : Eff state unit :=
  try_catch
    (checkAndTrade w)
    (fun e =>
       emit (Log error (BSTimerError e));;
       modify (set_stats incr_failedTrades)).

(** Ticks one after the other, each with its own answers. *)
Fixpoint run (ws : list world) : Eff state unit :=
  match ws with
  | [] => mret tt
  | w :: ws' => tick w;; run ws'
  end.

End BuySell.

(** ** GridStrategy (ranged grid trading) *)

(** [for (const a of l) body(a)] *)
Fixpoint for_each {S A} (l : list A) (body : A -> Eff S unit) : Eff S unit :=
  match l with
  | [] => mret tt
  | a :: l' => body a;; for_each l' body
  end.

Module Grid.

Local Open Scope R_scope.

(** [parseFloat(x.toFixed(2))]: [x] rounded to two decimals, a tie going away
    from zero ([toFixed] rounds the absolute value, the larger candidate on a
    tie, and keeps the sign). *)
Definition toFixed2 (x : R) : R :=
  if Rlt_dec x 0
  then - (IZR (Int_part (- x * 100 + / 2)) / 100)
  else IZR (Int_part (x * 100 + / 2)) / 100.

(** [config.gridType]: ['geometric'], or anything else for the default. *)
Inductive grid_type := arithmetic | geometric.

(** [config: { gridType, totalInvestment, gridCount, lowerPrice, upperPrice }];
    [gridCount] is a whole number. *)
Record config_t := Config {
  gridType : grid_type;
  totalInvestment : R;
  gridCount : nat;
  lowerPrice : R;
  upperPrice : R
}.

(** [grid.status]: ['pending'], ['bought'] or ['sold']. *)
Inductive grid_status := pending | bought | sold.

(** One element of [this.grids]. *)
Record grid := Level {
  price : R;
  status : grid_status;
  amount : R;
  buyTxHash : option txhash;
  sellTxHash : option txhash
}.

(** The fields of a [GridStrategy] instance. *)
Record state := State {
  config : config_t;
  isRunning : bool;
  grids : list grid;
  currentPrice : R;
  timer : option handle;
  amountPerGrid : R
}.

(** [new GridStrategy(config, wallet, swapService)] *)
Definition new (c : config_t) : state :=
  State c false [] 0 None 0.

Definition set_isRunning (b : bool) (s : state) : state :=
  State (config s) b (grids s) (currentPrice s) (timer s) (amountPerGrid s).
Definition set_grids (g : list grid) (s : state) : state :=
  State (config s) (isRunning s) g (currentPrice s) (timer s) (amountPerGrid s).
Definition set_timer (t : option handle) (s : state) : state :=
  State (config s) (isRunning s) (grids s) (currentPrice s) t (amountPerGrid s).
Definition set_amountPerGrid (a : R) (s : state) : state :=
  State (config s) (isRunning s) (grids s) (currentPrice s) (timer s) a.

(** [pushGrid(price)] *)
Definition pushGrid (p : R) : Eff state unit :=
  modify (fun s => set_grids (grids s ++ [Level p pending (amountPerGrid s) None None]) s).

(** [Math.pow(upperPrice / lowerPrice, 1 / gridCount)] *)
Definition ratio (c : config_t) : R :=
  Rpower (upperPrice c / lowerPrice c) (1 / INR (gridCount c)).

(** [(upperPrice - lowerPrice) / gridCount] *)
Definition priceStep (c : config_t) : R :=
  (upperPrice c - lowerPrice c) / INR (gridCount c).

(** [initializeGrids()] *)
Definition initializeGrids : Eff state unit :=
  s ← get;
  let c := config s in
  modify (set_amountPerGrid (toFixed2 (totalInvestment c / INR (gridCount c))));;
  s ← get;
  if Rlt_dec (amountPerGrid s) 1 then throw (GridAmountTooSmall (amountPerGrid s))
  else
    modify (set_grids []);;
    match gridType c with
    | geometric =>
        let ratio := ratio c in
        for_each (seq 0 (S (gridCount c)))
                 (fun i => pushGrid (lowerPrice c * ratio ^ i))
    | arithmetic =>
        let priceStep := priceStep c in
        for_each (seq 0 (S (gridCount c)))
                 (fun i => pushGrid (lowerPrice c + priceStep * INR i))
    end;;
    emit (Log info (GridInitialized (gridCount c + 1))).

(** [start()].  [h] is the handle [setInterval] returns.  The un-awaited
    [this.checkAndTrade()] suspends at its first statement
    ([FirstEvaluation]). *)
Definition start (h : handle) : Eff state unit :=
  s ← get;
  if isRunning s then throw AlreadyRunning
  else
    try_catch
      (initializeGrids;;
       modify (set_isRunning true);;
       emit (Log info GridStarted);;
       emit FirstEvaluation;;
       modify (set_timer (Some h));;
       emit (SetInterval h))
      (fun e =>
         modify (set_isRunning false);;
         emit (Log error (GridStartFailed e));;
         throw e).

(** [stop()] *)
Definition stop : Eff state unit :=
  s ← get;
  match timer s with
  | Some h => emit (ClearInterval h);; modify (set_timer None)
  | None => mret tt
  end;;
  modify (set_isRunning false);;
  emit (Log info GridStopped).

End Grid.

(** ** BotRunner (the registry of live strategies) *)

(** A strategy object of one of the three classes. *)
Inductive strategy :=
| SBuySell (s : BuySell.state)
| SDCA (s : DCA.state)
| SGrid (s : Grid.state).

(** Runs a method of one class on the object and wraps the object again. *)
Definition on_variant {X A} (wrap : X -> strategy) (m : Eff X A) (x : X)
  : outcome strategy A :=
  let o := m x in Outcome (wrap (final o)) (trace o) (result o).

(** [strategy.start()]; [h] and [t] are the answers of [setInterval] and
    [Date.now()]. *)
Definition strategy_start (h : handle) (t : Z) : Eff strategy unit :=
  fun st =>
    match st with
    | SBuySell s => on_variant SBuySell (BuySell.start h t) s
    | SDCA s => on_variant SDCA (DCA.start h) s
    | SGrid s => on_variant SGrid (Grid.start h) s
    end.

(** [strategy.stop(reason)]; only [BuySellStrategy.stop] reads its argument. *)
Definition strategy_stop (reason : string) : Eff strategy unit :=
  fun st =>
    match st with
    | SBuySell s => on_variant SBuySell (BuySell.stop reason) s
    | SDCA s => on_variant SDCA DCA.stop s
    | SGrid s => on_variant SGrid Grid.stop s
    end.

(** [strategy.isRunning] and [strategy.timer] *)
Definition strategy_isRunning (st : strategy) : bool :=
  match st with
  | SBuySell s => BuySell.isRunning s
  | SDCA s => DCA.isRunning s
  | SGrid s => Grid.isRunning s
  end.

Definition strategy_timer (st : strategy) : option handle :=
  match st with
  | SBuySell s => BuySell.timer s
  | SDCA s => DCA.timer s
  | SGrid s => Grid.timer s
  end.

(** The values [isStrategyRunning] can return. *)
Inductive jsvalue :=
| undefined
| null
| boolean (b : bool)
| timer_handle (h : handle).

(** [ToBoolean] *)
Definition truthy (v : jsvalue) : bool :=
  match v with
  | undefined | null => false
  | boolean b => b
  | timer_handle _ => true
  end.

Module BotRunner.

(** A reference to a strategy object. *)
Definition ref := nat.

(** The two maps of the runner, [this.strategies] and [this.timers], and the
    strategy objects they refer to. *)
Record state := State {
  objects : gmap ref strategy;
  strategies : gmap string ref;
  timers : gmap string handle
}.

(** [new BotRunner()] *)
Definition new : state := State ∅ ∅ ∅.

Definition set_objects (f : gmap ref strategy -> gmap ref strategy) (r : state) : state :=
  State (f (objects r)) (strategies r) (timers r).
Definition set_strategies (f : gmap string ref -> gmap string ref) (r : state) : state :=
  State (objects r) (f (strategies r)) (timers r).
Definition set_timers (f : gmap string handle -> gmap string handle) (r : state) : state :=
  State (objects r) (strategies r) (f (timers r)).

(** [this.strategies.get(botId)], dereferenced. *)
Definition getStrategy (botId : string) (r : state) : option strategy :=
  strategies r !! botId ≫= λ p, objects r !! p.

(** Calls a method of the object at [p]. *)
Definition call {A} (p : ref) (m : Eff strategy A) (default : A) : Eff state A :=
  fun r =>
    match objects r !! p with
    | Some st => let o := m st in
                 Outcome (set_objects <[p := final o]> r) (trace o) (result o)
    | None => Outcome r [] (inl default)
    end.

(** [registerStrategy(botId, strategy)] *)
Definition registerStrategy (botId : string) (p : ref) : Eff state unit :=
  modify (set_strategies <[botId := p]>);;
  emit (SysLog info (RunnerRegistered botId)).

(** [startStrategy(botId)] *)
Definition startStrategy (botId : string) (h : handle) (t : Z) : Eff state bool :=
  r ← get;
  match strategies r !! botId with
  | Some p =>
      match objects r !! p with
      | Some _ =>
          call p (strategy_start h t) tt;;
          emit (SysLog info (RunnerStarted botId));;
          mret true
      | None => mret false
      end
  | None => mret false
  end.

(** [stopStrategy(botId, reason)] *)
Definition stopStrategy (botId : string) (reason : string) : Eff state unit :=
  r ← get;
  match strategies r !! botId with
  | Some p =>
      match objects r !! p with
      | Some _ =>
          call p (strategy_stop reason) tt;;
          emit (SysLog info (RunnerStopped botId reason))
      | None => mret tt
      end
  | None => mret tt
  end;;
  modify (set_strategies (delete botId));;
  r ← get;
  match timers r !! botId with
  | Some t => emit (ClearInterval t);; modify (set_timers (delete botId))
  | None => mret tt
  end.

(** [registerTimer(botId, timer)] *)
Definition registerTimer (botId : string) (t : handle) : Eff state unit :=
  modify (set_timers <[botId := t]>).

(** [isStrategyRunning(botId)]:
    [strategy && strategy.isRunning && strategy.timer]. *)
Definition isStrategyRunning (botId : string) (r : state) : jsvalue :=
  match getStrategy botId r with
  | None => undefined
  | Some st =>
      if strategy_isRunning st
      then match strategy_timer st with
           | Some h => timer_handle h
           | None => null
           end
      else boolean false
  end.

End BotRunner.

(** ** Observations on traces *)

Definition level_eqb (a b : level) : bool :=
  match a, b with
  | info, info | success, success | warning, warning | error, error | debug, debug => true
  | _, _ => false
  end.

(** A log entry of level [lv], on either channel. *)
Definition logged_at (lv : level) (ev : event) : bool :=
  match ev with
  | Log l _ | SysLog l _ => level_eqb l lv
  | _ => false
  end.

(** The heartbeat entry of an idle [BuySellStrategy] tick. *)
Definition is_heartbeat (ev : event) : bool :=
  match ev with
  | Log info (BSMonitoring _) => true
  | _ => false
  end.

(** ** Sample configurations and answers *)

(** amount 10, every 60 s, budget 25, no price guard. *)
Definition dca_sample : DCA.config_t := DCA.Config 10%Q 60%Q 25%Q None.

(** A tick in which the price fetch and the swap succeed. *)
Definition dca_fill : DCA.world :=
  DCA.World (inr (1 # 10)%Q) (inr (1 # 10)%Q) (inr "0xd1").

(** A running strategy that has spent its whole budget (20 of 20), as it is
    between its last buy and the next tick. *)
Definition dca_spent_running : DCA.state :=
  DCA.State (DCA.Config 10%Q 60%Q 20%Q None) true 20%Q 2 (Some 1%positive).

(** A stopped strategy that has spent its whole budget (20 of 20). *)
Definition dca_spent_stopped : DCA.state :=
  DCA.State (DCA.Config 10%Q 60%Q 20%Q None) false 20%Q 2 None.

(** buyThreshold 0.08, sellThreshold 0.15, tradeAmount 1, every 30 s. *)
Definition bs_sample : BuySell.config_t :=
  BuySell.Config (8 # 100)%Q (15 # 100)%Q 1%Q 30%Q.

(** Overlapping thresholds: buy at or below 0.20, sell at or above 0.10. *)
Definition bs_overlap : BuySell.config_t :=
  BuySell.Config (20 # 100)%Q (10 # 100)%Q 1%Q 30%Q.

(** A strategy just started: [start()] on a new instance. *)
Definition bs_started (c : BuySell.config_t) : BuySell.state :=
  final (BuySell.start 1%positive 0%Z (BuySell.new c)).

(** A tick at price [p] in which both swaps would succeed. *)
Definition bs_quiet (p : Q) : BuySell.world :=
  BuySell.World (inr p) (inr "0xb1") (inr "0xs1") 1000%Z.

(** A tick at price [p] in which the buy is rejected for lack of funds. *)
Definition bs_broke (p : Q) : BuySell.world :=
  BuySell.World (inr p) (inl (External "insufficient funds for gas * price + value"))
                (inr "0xs1") 1000%Z.

(** A tick at price [p] in which the sell is rejected by the router. *)
Definition bs_reverted (p : Q) : BuySell.world :=
  BuySell.World (inr p) (inr "0xb1") (inl (External "execution reverted")) 1000%Z.

(** A runner that holds the started threshold strategy under ["bot-1"], with
    its statistics timer. *)
Definition runner_sample : BotRunner.state :=
  BotRunner.State {[ 1 := SBuySell (bs_started bs_sample) ]}
                  {[ "bot-1" := 1 ]}
                  {[ "bot-1" := 9%positive ]}.

(** The price the loops of [initializeGrids] give to level [i]. *)
Definition level_price (c : Grid.config_t) (i : nat) : R :=
  match Grid.gridType c with
  | Grid.geometric => (Grid.lowerPrice c * Grid.ratio c ^ i)%R
  | Grid.arithmetic => (Grid.lowerPrice c + Grid.priceStep c * INR i)%R
  end.

(** 49.9 USDT over 50 grids: 0.998 USDT a grid. *)
Definition grid_thin : Grid.config_t :=
  Grid.Config Grid.arithmetic (499 / 10)%R 50 1%R 2%R.

(** 10 USDT over 50 grids: 0.2 USDT a grid. *)
Definition grid_starved : Grid.config_t :=
  Grid.Config Grid.arithmetic 10%R 50 1%R 2%R.


(** ** More observations on traces *)

Definition is_sell_ok (ev : event) : bool :=
  match ev with SellXOC _ (inr _) => true | _ => false end.

(** A collaborator call that was rejected: a price fetch or a swap. *)
Definition is_failure (ev : event) : bool :=
  match ev with
  | GetPrice (inl _) | BuyXOC _ (inl _) | SellXOC _ (inl _) => true
  | _ => false
  end.

Definition is_save (ev : event) : bool :=
  match ev with SaveTrade _ => true | _ => false end.

(** Any call to a collaborator: price fetch or swap. *)
Definition is_call (ev : event) : bool :=
  match ev with GetPrice _ | BuyXOC _ _ | SellXOC _ _ => true | _ => false end.

(** The first-evaluation marker. *)
Definition is_first_evaluation (ev : event) : bool :=
  match ev with FirstEvaluation => true | _ => false end.


(** The sample strategy with a price guard at 0.12. *)
Definition dca_guarded : DCA.state :=
  DCA.new (DCA.Config 10%Q 60%Q 25%Q (Some (12 # 100)%Q)).

(** A tick in which the guard price is 0.15. *)
Definition dca_pricey : DCA.world :=
  DCA.World (inr (15 # 100)%Q) (inr (15 # 100)%Q) (inr "0xd1").

(** A tick in which the swap is rejected. *)
Definition dca_rejected : DCA.world :=
  DCA.World (inr (1 # 10)%Q) (inr (1 # 10)%Q) (inl (External "execution reverted")).

(** The sample runner with a second, unregistered object. *)
Definition runner_two : BotRunner.state :=
  BotRunner.State {[ 1 := SBuySell (bs_started bs_sample); 2 := SDCA (DCA.new dca_sample) ]}
                  {[ "bot-1" := 1 ]}
                  {[ "bot-1" := 9%positive ]}.

Definition is_set_interval (ev : event) : bool :=
  match ev with SetInterval _ => true | _ => false end.


(** ** What BuySellStrategy reports: running time and statistics *)

From Stdlib Require Import Qround Qabs.
From Stdlib Require Lqa.
From stdpp Require Import pretty.

Close Scope Q_scope.

(** [Number.prototype.toFixed(digits)] on an exact number: the absolute
    value is rounded to [digits] decimals, the larger candidate on a tie,
    and printed with the sign of [x] (so a small negative number prints as
    [-0.00]).  The exponent form of numbers from 1e21 on is not modelled. *)
Fixpoint pad_zeros (width : nat) (digits : string) : string :=
  match width with
  | 0 => digits
  | S width' =>
      if (String.length digits <? S width')%nat
      then pad_zeros width' ("0" +:+ digits)
      else digits
  end.

Definition toFixed (digits : nat) (x : Q) : string :=
  let scale := (10 ^ Z.of_nat digits)%Z in
  let n := Qfloor (Qabs x * inject_Z scale + (1 # 2))%Q in
  (if Qlt_le_dec x 0 then "-" else "") +:+
  pretty (n / scale)%Z +:+
  (if (digits =? 0)%nat then "" else "." +:+ pad_zeros digits (pretty (n mod scale)%Z)).

Module BuySellReport.

Import BuySell.

(** [getRunningTime()] at the instant [t] of [Date.now()]; a [startTime]
    that is [null] or [0] is falsy. *)
Definition getRunningTime (t : Z) (s : state) : Z :=
  match startTime s with
  | None => 0
  | Some t0 => if (t0 =? 0)%Z then 0 else ((t - t0) / 1000)%Z
  end.

(** The three numbers [formatTime(seconds)] prints: [Math.floor(seconds /
    3600)], [Math.floor((seconds % 3600) / 60)] and [seconds % 60]; [%] is
    the remainder that takes the sign of the dividend. *)
Definition time_parts (seconds : Z) : Z * Z * Z :=
  ((seconds / 3600)%Z, (Z.rem seconds 3600 / 60)%Z, Z.rem seconds 60).

(** [formatTime(seconds)] *)
Definition formatTime (seconds : Z) : string :=
  let '(h, m, s) := time_parts seconds in
  pretty h +:+ "小时 " +:+ pretty m +:+ "分钟 " +:+ pretty s +:+ "秒".

(** The object [getStats()] returns. *)
Record report := Report {
  base : statistics;              (* ...this.stats *)
  netXOC : Q;
  netUSDT : Q;
  profit : Q;
  avgBuyPrice : Q;
  avgSellPrice : Q;
  totalTrades : nat;
  successRate : string + Z;       (* the text of toFixed(2), or the number 0 *)
  runningTime : Z;
  report_lastPrice : option Q;
  report_lastTradeTime : option Z
}.

(** The number [getStats()] formats as [successRate]:
    [(totalTrades - this.stats.failedTrades) / totalTrades * 100]. *)
Definition successRatio (st : statistics) : Q :=
  let totalTrades := inject_Z (Z.of_nat (totalBuyCount st + totalSellCount st)) in
  ((totalTrades - inject_Z (Z.of_nat (failedTrades st))) / totalTrades * 100)%Q.

(** [getStats()] at the instant [t]. *)
Definition getStats (t : Z) (s : state) : report :=
  let st := stats s in
  let netXOC := (totalXOCBought st - totalXOCSold st)%Q in
  let netUSDT := (totalSellAmount st - totalBuyAmount st)%Q in
  let avgBuyPrice :=
    if Qgtb (totalXOCBought st) 0 then (totalBuyAmount st / totalXOCBought st)%Q else 0%Q in
  let avgSellPrice :=
    if Qgtb (totalXOCSold st) 0 then (totalSellAmount st / totalXOCSold st)%Q else 0%Q in
  let totalTrades := totalBuyCount st + totalSellCount st in
  let successRate :=
    if (0 <? totalTrades)%nat then inl (toFixed 2 (successRatio st)) else inr 0%Z in
  Report st netXOC netUSDT netUSDT avgBuyPrice avgSellPrice totalTrades successRate
         (getRunningTime t s) (lastPrice s) (lastTradeTime s).

End BuySellReport.

(** ** The log store (utils/logger.js over utils/storage.js) *)

(** What [localStorage] holds under a key: the JSON text of a value, or a
    text that [JSON.parse] rejects. *)
Inductive item (A : Type) :=
| Json (value : A)
| Garbage.
Arguments Json {A}.
Arguments Garbage {A}.

(** [getFromStorage(key, defaultValue)]: a missing key and a text that does
    not parse both give the default. *)
Definition getFromStorage {A} (key : string) (defaultValue : A)
    (ls : gmap string (item A)) : A :=
  match ls !! key with
  | Some (Json value) => value
  | Some Garbage => defaultValue
  | None => defaultValue
  end.

(** [saveToStorage(key, data)].  [writable] tells whether
    [localStorage.setItem] accepts the write (it throws when the quota is
    exceeded); the function returns that flag. *)
Definition saveToStorage {A} (writable : bool) (key : string) (data : A)
    (ls : gmap string (item A)) : bool * gmap string (item A) :=
  if writable then (true, <[key := Json data]> ls) else (false, ls).

Module Logger.

(** [LOG_TYPES] *)
Inductive log_type := SYSTEM | TRADE.

Definition LOG_KEY : string := "swapx_logs".
Definition TRADE_LOG_KEY : string := "swapx_trade_logs".
Definition MAX_LOGS : nat := 1000.

(** One log entry.  [id] is [Date.now() + Math.random()], [timestamp] the
    instant of [new Date()]. *)
Record log := Entry {
  id : Q;
  timestamp : Z;
  lvl : level;
  type : log_type;
  text : string;
  data : option string
}.

(** The answers of the environment during one call. *)
Record world := World {
  now : Z;            (* Date.now(), new Date() *)
  random : Q;         (* Math.random() *)
  writable : bool     (* does localStorage.setItem accept the write *)
}.

(** The console method a call prints with. *)
Inductive console := console_error | console_warn | console_log.

(** [addLogInternal(level, message, data, type, silent)]: the entry it
    returns, the store it leaves, and the console method it prints with
    unless [silent]. *)
Definition addLogInternal (w : world) (level_ : level) (message_ : string)
    (data_ : option string) (type_ : log_type) (silent : bool)
    (ls : gmap string (item (list log))) :
    log * gmap string (item (list log)) * option console :=
  let entry := Entry (inject_Z (now w) + random w)%Q (now w) level_ type_ message_ data_ in
  let storageKey := match type_ with TRADE => TRADE_LOG_KEY | SYSTEM => LOG_KEY end in
  let logs := getFromStorage storageKey [] ls in
  let logs := logs ++ [entry] in
  let logs := if (MAX_LOGS <? length logs)%nat
              then drop (length logs - MAX_LOGS) logs   (* logs.slice(-MAX_LOGS) *)
              else logs in
  let '(_, ls') := saveToStorage (writable w) storageKey logs ls in
  let printed :=
    if silent then None
    else Some (match level_ with
               | error => console_error
               | warning => console_warn
               | _ => console_log
               end) in
  (entry, ls', printed).

(** [tradeLog.info], [.success], [.warning], [.error]: the trade channel. *)
Definition tradeLog (w : world) (level_ : level) (message_ : string)
    (data_ : option string) (ls : gmap string (item (list log))) :=
  addLogInternal w level_ message_ data_ TRADE false ls.

(** [getLogs(type)] for one channel. *)
Definition getLogs (type_ : log_type) (ls : gmap string (item (list log))) : list log :=
  match type_ with
  | TRADE => getFromStorage TRADE_LOG_KEY [] ls
  | SYSTEM => getFromStorage LOG_KEY [] ls
  end.

End Logger.

(** ** The trade history (utils/storage.js) *)

Module Storage.

Definition TRADES : string := "swapx_trades".

(** A stored trade: the record the strategy handed over, stamped by
    [saveTrade] with [timestamp] and [id]. *)
Record stored_trade := Stored {
  tradeData : trade;
  timestamp : Z;   (* new Date().toISOString() *)
  id : Z           (* Date.now() *)
}.

(** [getTrades()] *)
Definition getTrades (ls : gmap string (item (list stored_trade))) : list stored_trade :=
  getFromStorage TRADES [] ls.

(** [saveTrade(tradeData)] at the instant [t]; returns what [saveToStorage]
    returns. *)
Definition saveTrade (writable : bool) (t : Z) (tradeData_ : trade)
    (ls : gmap string (item (list stored_trade))) :
    bool * gmap string (item (list stored_trade)) :=
  let trades := getTrades ls in
  let trades := trades ++ [Stored tradeData_ t t] in
  saveToStorage writable TRADES trades ls.

(** [clearTrades()] *)
Definition clearTrades (writable : bool) (ls : gmap string (item (list stored_trade))) :=
  saveToStorage writable TRADES ([] : list stored_trade) ls.

End Storage.

(** A threshold strategy with one successful trade and three failures. *)
Definition bs_unlucky : BuySell.statistics :=
  BuySell.Stats 1 0 1%Q 0%Q (100 # 7)%Q 0%Q 3.

(** Trades saved one after the other, each at its own instant. *)
Fixpoint saveTrades (stamped : list (Z * trade))
    (ls : gmap string (item (list Storage.stored_trade))) :
    gmap string (item (list Storage.stored_trade)) :=
  match stamped with
  | [] => ls
  | (t, td) :: rest => saveTrades rest (Storage.saveTrade true t td ls).2
  end.

(** ** Further methods: their log texts and their calls *)

(** The texts logged by the methods modelled below, one constructor per
    template string of the source. *)
Inductive note :=
| GridBuyTriggered (price amount : R)          (* `触发买入: 价格 .., 数量 ..` *)
| GridBuyDone (i : nat) (amount price : R)     (* `网格[i]买入成功: .. USDT @ ..` *)
| GridBuyFailed (i : nat) (e : exn)            (* `网格[i]买入失败: ..` *)
| GridSellTriggered (i : nat) (xoc : R)        (* `触发卖出: 网格[i], 数量 .. XOC` *)
| GridSellDone (i : nat) (xoc price : R)       (* `网格[i]卖出成功: .. WXOC @ ..` *)
| GridSellFailed (i : nat) (e : exn)           (* `网格[i]卖出失败: ..` *)
| GridCheckFailed (e : exn)                    (* `网格检查异常: ..` *)
| GridLevelReset (i : nat)                     (* `网格[i]状态重置，等待下次机会` *)
| GridWasReset                                 (* '网格策略已重置' *)
| DCAWasReset                                  (* 'DCA策略已重置' *)
| RunnerCleanup (reason : string) (count : nat). (* '清理所有策略', { reason, count } *)

(** Their side effects, in the order the code performs them. *)
Inductive effect :=
| Earlier (ev : event)                          (* an effect of a method modelled above *)
| TradeLog (lv : level) (n : note)              (* tradeLog.<lv>(n) *)
| SystemLog (lv : level) (n : note)             (* log.<lv>(n) *)
| GetWXOCPrice (answer : exn + R)               (* await getWXOCPrice(provider) *)
| GridBuy (usdt : R) (answer : exn + txhash)    (* await buyXOC(wallet, usdt, 0.5) *)
| GridSell (xoc : R) (answer : exn + txhash)    (* await sellXOC(wallet, xoc, 0.5) *)
| GridSave (sd : side) (amountIn amountOut price : R) (h : txhash)  (* saveTrade({..}) *)
| SetTimeout (i : nat).                         (* setTimeout(reset of level i, 2000) *)

(** ** GridStrategy: the tick, the cooldown and the reset *)

Module GridStrategy.

Import Grid.
Local Open Scope R_scope.

Definition set_currentPrice (p : R) (s : state) : state :=
  State (config s) (isRunning s) (grids s) p (timer s) (amountPerGrid s).

(** A method that catches every error it meets: the instance it leaves and
    the calls it made, in order. *)
Definition proc : Type := state -> state * list effect.

Definition skip : proc := fun s => (s, []).

Definition and_then (f g : proc) : proc :=
  fun s =>
    match f s with
    | (s1, tr1) =>
        match g s1 with
        | (s2, tr2) => (s2, tr1 ++ tr2)
        end
    end.

(** What the awaited collaborators answer during one tick.  The loop of a
    tick visits each index once, so it asks for at most one buy and one sell
    of each level: the answers are given by level. *)
Record world := World {
  priceAnswer : exn + R;              (* getWXOCPrice(provider) *)
  buyAnswer : nat -> exn + txhash;    (* buyXOC(wallet, grid.amount, 0.5) for level i *)
  sellAnswer : nat -> exn + txhash    (* sellXOC(wallet, xocAmount, 0.5) for level i *)
}.

(** The [try] block of [executeBuy(gridIndex)] and its [catch], on the level
    object [g]: the object as it is left, and the calls. *)
Definition buying (w : world) (gridIndex : nat) (g : grid) : grid * list effect :=
  let triggered := TradeLog info (GridBuyTriggered (price g) (amount g)) in
  match buyAnswer w gridIndex with
  | inr h =>
      (Level (price g) bought (amount g) (Some h) (sellTxHash g),
       [triggered;
        GridBuy (amount g) (inr h);
        GridSave BUY (amount g) (amount g / price g) (price g) h;
        TradeLog success (GridBuyDone gridIndex (amount g) (price g))])
  | inl e =>
      (g, [triggered;
           GridBuy (amount g) (inl e);
           TradeLog error (GridBuyFailed gridIndex e)])
  end.

(** The [try] block of [executeSell(gridIndex)] and its [catch]. *)
Definition selling (w : world) (gridIndex : nat) (g : grid) : grid * list effect :=
  let xocAmount := amount g / price g in
  let triggered := TradeLog info (GridSellTriggered gridIndex xocAmount) in
  match sellAnswer w gridIndex with
  | inr h =>
      (Level (price g) sold (amount g) (buyTxHash g) (Some h),
       [triggered;
        GridSell xocAmount (inr h);
        GridSave SELL xocAmount (xocAmount * price g) (price g) h;
        TradeLog success (GridSellDone gridIndex xocAmount (price g));
        SetTimeout gridIndex])
  | inl e =>
      (g, [triggered;
           GridSell xocAmount (inl e);
           TradeLog error (GridSellFailed gridIndex e)])
  end.

(** [const grid = this.grids[gridIndex]], then the body on that object.
    With no such level the first property access of the body throws a
    TypeError, which the [catch] of the method logs. *)
Definition on_level (gridIndex : nat) (body : grid -> grid * list effect)
    (failed : exn -> note) : proc :=
  fun s =>
    match grids s !! gridIndex with
    | Some g =>
        match body g with
        | (g', tr) => (set_grids (<[gridIndex := g']> (grids s)) s, tr)
        end
    | None => (s, [TradeLog error (failed (External "TypeError"))])
    end.

(** [executeBuy(gridIndex)] *)
Definition executeBuy (w : world) (gridIndex : nat) : proc :=
  on_level gridIndex (buying w gridIndex) (GridBuyFailed gridIndex).

(** [executeSell(gridIndex)] *)
Definition executeSell (w : world) (gridIndex : nat) : proc :=
  on_level gridIndex (selling w gridIndex) (GridSellFailed gridIndex).

(** The first [if] of the loop body:
    [currentPrice <= grid.price && grid.status === 'pending']. *)
Definition buy_check (w : world) (i : nat) : proc :=
  fun s =>
    match grids s !! i with
    | Some g =>
        if Rle_dec (currentPrice s) (price g)
        then match status g with
             | pending => executeBuy w i s
             | _ => skip s
             end
        else skip s
    | None => skip s
    end.

(** The second [if] of the loop body, for [i > 0]:
    [currentPrice >= grid.price && prevGrid.status === 'bought']. *)
Definition sell_check (w : world) (i : nat) : proc :=
  fun s =>
    match i with
    | O => skip s
    | S j =>
        match grids s !! i, grids s !! j with
        | Some g, Some prevGrid =>
            if Rge_dec (currentPrice s) (price g)
            then match status prevGrid with
                 | bought => executeSell w j s
                 | _ => skip s
                 end
            else skip s
        | _, _ => skip s
        end
    end.

(** [for (let i = 0; i < this.grids.length; i++) { .. }] over the indices
    [indices]. *)
Fixpoint loop (w : world) (indices : list nat) : proc :=
  match indices with
  | [] => skip
  | i :: rest => and_then (and_then (buy_check w i) (sell_check w i)) (loop w rest)
  end.

(** [checkAndTrade()].  No statement of the loop changes the length of
    [this.grids], so the bound of the loop is the length at its entry. *)
Definition checkAndTrade (w : world) : proc :=
  fun s =>
    match priceAnswer w with
    | inr p =>
        match loop w (seq 0 (length (grids s))) (set_currentPrice p s) with
        | (s', tr) => (s', GetWXOCPrice (inr p) :: tr)
        end
    | inl e => (s, [GetWXOCPrice (inl e); TradeLog error (GridCheckFailed e)])
    end.

(** A level as the callback of [setTimeout] leaves it, which is also how
    [pushGrid] creates it. *)
Definition freed (g : grid) : grid :=
  Level (price g) pending (amount g) None None.

(** The callback [executeSell(i)] hands to [setTimeout]: the level is free
    again. *)
Definition resetLevel (i : nat) : proc :=
  fun s =>
    (set_grids (alter freed i (grids s)) s, [TradeLog info (GridLevelReset i)]).

(** [reset()] *)
Definition reset : proc :=
  fun s =>
    match stop s with
    | Outcome s1 tr _ =>
        (State (config s1) (isRunning s1) [] 0 (timer s1) (amountPerGrid s1),
         map Earlier tr ++ [TradeLog info GridWasReset])
    end.

(** The life of a started strategy: ticks, and between them the timeouts of
    the levels sold, which fire in the order they were set (they all wait
    2000 ms).  A timeout that fires while a tick is suspended touches a
    level the loop is not looking at, and has the effect of one that fires
    just before or just after that tick. *)
Inductive action :=
| Tick (w : world)
| Timeout.

(** The levels whose reset a trace has scheduled. *)
Definition scheduled (tr : list effect) : list nat :=
  omap (fun c => match c with SetTimeout i => Some i | _ => None end) tr.

(** One action on the instance and the queue of scheduled resets. *)
Definition act (a : action) (r : state * list nat) : state * list nat * list effect :=
  match a with
  | Tick w =>
      match checkAndTrade w r.1 with
      | (s', tr) => (s', r.2 ++ scheduled tr, tr)
      end
  | Timeout =>
      match r.2 with
      | i :: queue =>
          match resetLevel i r.1 with
          | (s', tr) => (s', queue, tr)
          end
      | [] => (r, [])
      end
  end.

Fixpoint run (acts : list action) (r : state * list nat) : state * list nat :=
  match acts with
  | [] => r
  | a :: rest => run rest (act a r).1
  end.

(** *** A tick, level by level *)

(** What the buy test of a tick at price [p] does to level [i]. *)
Definition buy_part (w : world) (p : R) (i : nat) (g : grid) : grid * list effect :=
  if Rle_dec p (price g)
  then match status g with
       | pending => buying w i g
       | _ => (g, [])
       end
  else (g, []).

(** What the sell test does to level [j], the level above it being priced
    [up]. *)
Definition sell_part (w : world) (p up : R) (j : nat) (g : grid) : grid * list effect :=
  if Rge_dec p up
  then match status g with
       | bought => selling w j g
       | _ => (g, [])
       end
  else (g, []).

(** Level [j] of the level list [gs] after a tick at price [p], had the loop
    dealt with each level alone: a free level is bought at or above [p], a
    held level is sold when [p] has reached the level above. *)
Definition level_after (w : world) (p : R) (gs : list grid) (j : nat) (g : grid) : grid :=
  match status g with
  | pending => (buy_part w p j g).1
  | _ =>
      match gs !! S j with
      | Some above => (sell_part w p (price above) j g).1
      | None => g
      end
  end.

(** The calls of iteration [i], read off the level list at its entry. *)
Definition calls_at (w : world) (p : R) (gs : list grid) (i : nat) : list effect :=
  match gs !! i with
  | Some g =>
      (buy_part w p i g).2 ++
      match i with
      | S j =>
          match gs !! j with
          | Some prevGrid => (sell_part w p (price g) j prevGrid).2
          | None => []
          end
      | O => []
      end
  | None => []
  end.

(** Level [j] once the iterations below [k] are done. *)
Definition level_during (w : world) (p : R) (gs : list grid) (k j : nat) (g : grid) : grid :=
  if decide (S j < k)%nat then level_after w p gs j g
  else if decide (j < k)%nat then (buy_part w p j g).1
  else g.

(** Strictly ascending prices, as [initializeGrids] leaves them. *)
Definition ascending (gs : list grid) : Prop :=
  forall (i j : nat) (a b : grid),
    (i < j)%nat -> gs !! i = Some a -> gs !! j = Some b -> price a < price b.

(** A level never goes back within a tick: price and amount stay, a level
    that is sold is left alone, and a level that is free afterwards was not
    touched. *)
Definition forward (g g' : grid) : Prop :=
  price g' = price g /\ amount g' = amount g /\
  (status g = sold -> g' = g) /\
  (status g' = pending -> g' = g).

(** What the loop of a tick keeps, from the instance [s] to the instance
    [s'] with the calls [tr]: the fields but [grids], the number of levels,
    each level moving [forward], the top level when it is held, and no
    timeout for the top level. *)
Definition steady (s s' : state) (tr : list effect) : Prop :=
  config s' = config s /\ isRunning s' = isRunning s /\ timer s' = timer s /\
  amountPerGrid s' = amountPerGrid s /\ currentPrice s' = currentPrice s /\
  length (grids s') = length (grids s) /\
  (forall (j : nat) (g : grid), grids s !! j = Some g ->
     exists g', grids s' !! j = Some g' /\ forward g g' /\
                (S j = length (grids s) -> status g = bought -> g' = g)) /\
  (forall i : nat, SetTimeout i ∈ tr -> (S i < length (grids s))%nat).

(** The USDT handed to [buyXOC] by the calls of a trace that succeeded. *)
Fixpoint spent (tr : list effect) : R :=
  match tr with
  | [] => 0
  | GridBuy usdt (inr _) :: rest => usdt + spent rest
  | _ :: rest => spent rest
  end.

Fixpoint tally (p : effect -> bool) (tr : list effect) : nat :=
  match tr with
  | [] => 0
  | c :: rest => (if p c then 1 else 0) + tally p rest
  end.

Definition is_grid_buy (c : effect) : bool :=
  match c with GridBuy _ _ => true | _ => false end.
Definition is_grid_sell (c : effect) : bool :=
  match c with GridSell _ _ => true | _ => false end.

(** A tick at price [p] in which every swap succeeds. *)
Definition all_fill (p : R) : world :=
  World (inr p) (fun _ => inr "0xb") (fun _ => inr "0xs").

End GridStrategy.


(** Two levels at 1 and 2, both held. *)
Definition grid_held : Grid.state :=
  Grid.State (Grid.Config Grid.arithmetic 20%R 1 1%R 2%R) true
             [Grid.Level 1%R Grid.bought 20%R (Some "0xb0") None;
              Grid.Level 2%R Grid.bought 20%R (Some "0xb1") None]
             2%R (Some 1%positive) 20%R.

(** ** DCAStrategy: the reset *)

Module DCAStrategy.

Import DCA.

(** [reset()] *)
Definition reset (s : state) : state * list effect :=
  match stop s with
  | Outcome s1 tr _ =>
      (State (config s1) (isRunning s1) 0%Q 0 (timer s1),
       map Earlier tr ++ [TradeLog info DCAWasReset])
  end.

End DCAStrategy.

(** ** BotRunner: the listing and the final cleanup *)

Module Runner.

Import BotRunner.

(** [getRunningStrategies()].  [forEach] visits a [Map] in the order its
    keys were first inserted, which the maps of the model do not record:
    [ids] is that order. *)
Definition getRunningStrategies (ids : list string) (r : state) : list (string * strategy) :=
  omap (fun botId =>
          st ← getStrategy botId r;
          if strategy_isRunning st then Some (botId, st) else None)
       ids.

(** The body of the first loop of [cleanupAll]:
    [if (strategy && strategy.stop) strategy.stop(reason)]. *)
Definition stop_entry (reason botId : string) : Eff state unit :=
  r ← get;
  match strategies r !! botId with
  | Some p => call p (strategy_stop reason) tt
  | None => mret tt
  end.

(** The body of the second loop: [clearInterval(timer)]. *)
Definition clear_entry (botId : string) : Eff state unit :=
  r ← get;
  match timers r !! botId with
  | Some t => emit (ClearInterval t)
  | None => mret tt
  end.

(** The two loops of [cleanupAll] and the two [clear()]. *)
Definition sweep (reason : string) (ids timer_ids : list string) : Eff state unit :=
  for_each ids (stop_entry reason);;
  modify (set_strategies (fun _ => ∅));;
  for_each timer_ids clear_entry;;
  modify (set_timers (fun _ => ∅)).

(** [cleanupAll(reason)]; [ids] and [timer_ids] are the key orders of
    [this.strategies] and [this.timers]. *)
Definition cleanupAll (reason : string) (ids timer_ids : list string) (r : state)
    : state * list effect * (unit + exn) :=
  match sweep reason ids timer_ids r with
  | Outcome r' tr res =>
      (r', SystemLog warning (RunnerCleanup reason (size (strategies r))) :: map Earlier tr, res)
  end.

End Runner.

(** ** The entries a threshold strategy writes for a failed swap *)

(** The warning of the [catch] blocks of [executeBuy] and [executeSell] for
    an insufficient-funds error. *)
Definition is_insufficient_entry (ev : event) : bool :=
  match ev with
  | Log warning BSBuyInsufficient | Log warning BSSellInsufficient => true
  | _ => false
  end.

(** Their error entry for any other error. *)
Definition is_failed_entry (ev : event) : bool :=
  match ev with
  | Log error (BSBuyFailed _ _) | Log error (BSSellFailed _ _) => true
  | _ => false
  end.

(** ** DCAStrategy in binary64, the arithmetic of JavaScript numbers *)

From Stdlib Require Floats.

Module DCA64.

Import PrimFloat.
Local Open Scope float_scope.

(** [config: { amount, interval, totalBudget, maxPrice }]: JavaScript
    numbers; [maxPrice] may be left unset. *)
Record config_t := Config {
  amount : float;
  interval : float;
  totalBudget : float;
  maxPrice : option float
}.

(** The fields of a [DCAStrategy] instance. *)
Record state := State {
  config : config_t;
  isRunning : bool;
  totalSpent : float;
  executedTimes : nat;
  timer : option handle
}.

(** [new DCAStrategy(config, wallet, swapService)] *)
Definition new (c : config_t) : state := State c false 0 0 None.

(** The log entries of the class, one constructor per template string. *)
Inductive text :=
| Stopped                (* `DCA策略停止: 已执行..次, 总投入../.. USDT` *)
| Completed              (* `DCA策略完成: 预算已用尽 (已投 .. USDT)` *)
| PriceAboveMax          (* `当前价格 .. 高于设定上限 ..，本次跳过` *)
| CheckFailed (e : exn)  (* `DCA检查失败: ..` *)
| Executing (n : nat)    (* `执行第n次定投: .. USDT` *)
| BuySuccess (h : txhash) (* `定投买入成功: ..` *)
| BuyFailed (e : exn).   (* `买入失败: ..` *)

(** Side effects, in the order the code performs them. *)
Inductive call :=
| TradeLog (lv : level) (t : text)                        (* tradeLog.<lv>(t) *)
| ClearInterval (h : handle)                              (* clearInterval(h) *)
| GetPrice (answer : exn + float)                         (* await getXOCPrice(..) / getWXOCPrice(..) *)
| BuyXOC (usdt : float) (answer : exn + txhash)           (* await buyXOC(wallet, usdt, 0.5) *)
| SaveTrade (amountIn amountOut price : float) (h : txhash). (* saveTrade({..}) *)

(** What the awaited collaborators answer during one tick. *)
Record world := World {
  guardPrice : exn + float;   (* getXOCPrice(provider), asked only when maxPrice is set *)
  tradePrice : exn + float;   (* getWXOCPrice(provider) in executeTrade *)
  buyAnswer : exn + txhash    (* buyXOC(wallet, amount, 0.5) *)
}.

(** [ToBoolean] of a number: [0], [-0] and [NaN] are falsy. *)
Definition truthy (x : float) : bool := negb (x =? 0) && negb (is_nan x).

(** [if (this.config.maxPrice)] *)
Definition maxPrice_set (c : config_t) : option float :=
  match maxPrice c with
  | Some m => if truthy m then Some m else None
  | None => None
  end.

(** [stop()] *)
Definition stop (s : state) : state * list call :=
  (State (config s) false (totalSpent s) (executedTimes s) None,
   match timer s with
   | Some h => [ClearInterval h]
   | None => []
   end ++ [TradeLog info Stopped]).

(** The budget pre-check of [checkAndExecute]:
    [this.totalSpent + this.config.amount > this.config.totalBudget]. *)
Definition over_budget (s : state) : bool :=
  totalBudget (config s) <? totalSpent s + amount (config s).

(** [this.executedTimes++; this.totalSpent += this.config.amount] *)
Definition record_buy (s : state) : state :=
  State (config s) (isRunning s) (totalSpent s + amount (config s))
        (S (executedTimes s)) (timer s).

(** [executeTrade()]: the instance it leaves, its calls, and the hash it
    returns or the error it throws again. *)
Definition executeTrade (w : world) (s : state) : state * list call * (exn + txhash) :=
  let a := amount (config s) in
  let executing := TradeLog info (Executing (S (executedTimes s))) in
  match tradePrice w with
  | inl e => (s, [executing; GetPrice (inl e); TradeLog error (BuyFailed e)], inl e)
  | inr currentPrice =>
      match buyAnswer w with
      | inl e =>
          (s, [executing; GetPrice (inr currentPrice); BuyXOC a (inl e);
               TradeLog error (BuyFailed e)], inl e)
      | inr h =>
          (record_buy s,
           [executing; GetPrice (inr currentPrice); BuyXOC a (inr h);
            SaveTrade a (a / currentPrice) currentPrice h;
            TradeLog success (BuySuccess h)], inr h)
      end
  end.

(** [await this.executeTrade()] inside the [try] of [checkAndExecute], whose
    [catch] logs what [executeTrade] throws. *)
Definition tradeOrLog (w : world) (s : state) : state * list call :=
  match executeTrade w s with
  | (s1, tr, inr _) => (s1, tr)
  | (s1, tr, inl e) => (s1, tr ++ [TradeLog error (CheckFailed e)])
  end.

(** [checkAndExecute()], one tick that runs from its start to its end with
    nothing else in between. *)
Definition checkAndExecute (w : world) (s : state) : state * list call :=
  if over_budget s then
    match stop s with
    | (s1, tr) => (s1, tr ++ [TradeLog success Completed])
    end
  else
    match maxPrice_set (config s) with
    | Some m =>
        match guardPrice w with
        | inl e => (s, [GetPrice (inl e); TradeLog error (CheckFailed e)])
        | inr currentPrice =>
            if m <? currentPrice
            then (s, [GetPrice (inr currentPrice); TradeLog warning PriceAboveMax])
            else match tradeOrLog w s with
                 | (s1, tr) => (s1, GetPrice (inr currentPrice) :: tr)
                 end
        end
    | None => tradeOrLog w s
    end.

(** Ticks one after the other, each finished before the next begins. *)
Fixpoint run (ws : list world) (s : state) : state * list call :=
  match ws with
  | [] => (s, [])
  | w :: ws' =>
      match checkAndExecute w s with
      | (s1, tr1) =>
          match run ws' s1 with
          | (s2, tr2) => (s2, tr1 ++ tr2)
          end
      end
  end.

(** *** A tick as the event loop runs it

    An [async] method runs until it awaits an answer of the network, and
    is resumed, on the fields as they are by then, when the answer is
    there.  A task is what is left of a tick: nothing, or the function that
    resumes it. *)
Inductive task :=
| Finished
| Suspended (resume : state -> turn)
with turn :=
| Turn (s : state) (tr : list call) (rest : task).

(** [buyXOC] has answered: the rest of [executeTrade], and the [catch] of
    [checkAndExecute]. *)
Definition bought (w : world) (currentPrice : float) : state -> turn :=
  fun s =>
    let a := amount (config s) in
    match buyAnswer w with
    | inr h =>
        Turn (record_buy s)
             [BuyXOC a (inr h); SaveTrade a (a / currentPrice) currentPrice h;
              TradeLog success (BuySuccess h)]
             Finished
    | inl e =>
        Turn s [BuyXOC a (inl e); TradeLog error (BuyFailed e);
                TradeLog error (CheckFailed e)]
             Finished
    end.

(** [getWXOCPrice] has answered; [buyXOC] is called next. *)
Definition priced (w : world) : state -> turn :=
  fun s =>
    match tradePrice w with
    | inr currentPrice => Turn s [GetPrice (inr currentPrice)] (Suspended (bought w currentPrice))
    | inl e =>
        Turn s [GetPrice (inl e); TradeLog error (BuyFailed e); TradeLog error (CheckFailed e)]
             Finished
    end.

(** The head of [executeTrade], up to the call of [getWXOCPrice]. *)
Definition trading (w : world) : state -> turn :=
  fun s => Turn s [TradeLog info (Executing (S (executedTimes s)))] (Suspended (priced w)).

(** [getXOCPrice] has answered: the guard. *)
Definition guarded (w : world) (m : float) : state -> turn :=
  fun s =>
    match guardPrice w with
    | inl e => Turn s [GetPrice (inl e); TradeLog error (CheckFailed e)] Finished
    | inr currentPrice =>
        if m <? currentPrice
        then Turn s [GetPrice (inr currentPrice); TradeLog warning PriceAboveMax] Finished
        else match trading w s with
             | Turn s1 tr t => Turn s1 (GetPrice (inr currentPrice) :: tr) t
             end
    end.

(** The timer fires: [checkAndExecute] from its start to its first call of
    the network. *)
Definition fired (w : world) : state -> turn :=
  fun s =>
    if over_budget s then
      match stop s with
      | (s1, tr) => Turn s1 (tr ++ [TradeLog success Completed]) Finished
      end
    else
      match maxPrice_set (config s) with
      | Some m => Turn s [] (Suspended (guarded w m))
      | None => trading w s
      end.

(** A task resumed until it is finished, with nothing else in between. *)
Fixpoint alone (t : task) (s : state) : state * list call :=
  match t with
  | Finished => (s, [])
  | Suspended resume =>
      match resume s with
      | Turn s1 tr t' =>
          match alone t' s1 with
          | (s2, tr2) => (s2, tr ++ tr2)
          end
      end
  end.

(** The event loop over the ticks in flight: [picks] names, turn after
    turn, the task that is resumed. *)
Fixpoint schedule (picks : list nat) (pool : list task) (s : state) : state * list call :=
  match picks with
  | [] => (s, [])
  | i :: picks' =>
      match pool !! i with
      | Some (Suspended resume) =>
          match resume s with
          | Turn s1 tr t' =>
              match schedule picks' (<[i := t']> pool) s1 with
              | (s2, tr2) => (s2, tr ++ tr2)
              end
          end
      | _ => schedule picks' pool s
      end
  end.

(** Counting calls of a trace. *)
Fixpoint tally (p : call -> bool) (tr : list call) : nat :=
  match tr with
  | [] => 0
  | c :: rest => (if p c then 1 else 0) + tally p rest
  end.

Definition is_buy (c : call) : bool :=
  match c with BuyXOC _ _ => true | _ => false end.
Definition is_buy_ok (c : call) : bool :=
  match c with BuyXOC _ (inr _) => true | _ => false end.

(** [amount] added [n] times to [spent], one addition after the other. *)
Definition added (n : nat) (a spent : float) : float :=
  Nat.iter n (fun x => x + a) spent.

(** A tick in which the price fetches and the swap succeed. *)
Definition fill : world :=
  World (inr 0x1.999999999999ap-4) (inr 0x1.999999999999ap-4) (inr "0xd1").

(** amount 0.1, every 60 s, budget 100, no price guard. *)
Definition dimes : config_t := Config 0x1.999999999999ap-4 60 100 None.

(** amount 0.1, every 60 s, budget 0.5, no price guard. *)
Definition half : config_t := Config 0x1.999999999999ap-4 60 0x1p-1 None.

(** A running strategy with amount 10 and budget 25 that has bought once. *)
Definition once : state := State (Config 10 60 25 None) true 10 1 (Some 1%positive).

End DCA64.

(** ** The arithmetic grid in binary64 *)

Module Grid64.

Import PrimFloat.
Local Open Scope float_scope.

(** A whole number as a JavaScript number. *)
Definition of_nat (n : nat) : float := of_uint63 (Uint63.of_Z (Z.of_nat n)).

(** [(upperPrice - lowerPrice) / gridCount] *)
Definition priceStep (lowerPrice upperPrice : float) (gridCount : nat) : float :=
  (upperPrice - lowerPrice) / of_nat gridCount.


End Grid64.

(** Two free levels at 1 and 2, after a price of 3. *)
Definition grid_free : Grid.state :=
  Grid.State (Grid.Config Grid.arithmetic 20%R 1 1%R 2%R) true
             [Grid.Level 1%R Grid.pending 20%R None None;
              Grid.Level 2%R Grid.pending 20%R None None]
             3%R (Some 1%positive) 20%R.

(** * Properties *)

(** ** The monad *)

Lemma count_app (p : event -> bool) (a b : list event) :
  count p (a ++ b) = count p a + count p b.
Proof. induction a as [|ev a IH]; cbn [count app]; [reflexivity | rewrite IH; lia]. Qed.

Lemma Qgtb_true (a b : Q) : Qgtb a b = true <-> (b < a)%Q.
Proof.
  unfold Qgtb. rewrite negb_true_iff, <- not_true_iff_false, Qle_bool_iff.
  split; [apply Qnot_le_lt | apply Qlt_not_le].
Qed.

Lemma Qgtb_false (a b : Q) : Qgtb a b = false <-> (a <= b)%Q.
Proof. unfold Qgtb. rewrite negb_false_iff. apply Qle_bool_iff. Qed.

Lemma Qgeb_true (a b : Q) : Qgeb a b = true <-> (b <= a)%Q.
Proof. apply Qle_bool_iff. Qed.

Lemma Qleb_true (a b : Q) : Qleb a b = true <-> (a <= b)%Q.
Proof. apply Qle_bool_iff. Qed.

(** ** DCAStrategy *)

Section DCA_facts.

Import DCA.

Ltac eff_unfold :=
  cbv beta iota zeta delta
    [checkAndExecute executeTrade stop start try_catch mbind mret eff_mbind eff_mret
     eff_bind eff_ret emit modify get throw await final trace result].

Ltac eff_simpl :=
  cbn [app count is_buy is_buy_ok is_timer_call Nat.add
       config isRunning totalSpent executedTimes timer set_isRunning set_timer record_buy].


(** A tick whose budget pre-check fires stops the strategy and trades
    nothing. *)
Lemma checkAndExecute_over_budget (w : world) (s : state) :
  over_budget s = true ->
  let o := checkAndExecute w s in
  isRunning (final o) = false /\ timer (final o) = None /\
  count is_buy (trace o) = 0 /\ totalSpent (final o) = totalSpent s.
Proof.
  intros Hover. eff_unfold. rewrite Hover.
  destruct (timer s) eqn:Htimer; eff_unfold; eff_simpl; auto 10.
Qed.


(** End-to-end scenario 2 of the specification: amount 10, budget 25; two
    ticks buy, the third finds 20 + 10 > 25 and stops before trading. *)
Example dca_scenario_2 :
  let o := run [dca_fill; dca_fill; dca_fill] (new dca_sample) in
  totalSpent (final o) = 20%Q /\ executedTimes (final o) = 2 /\
  isRunning (final o) = false /\ count is_buy (trace o) = 2.
Proof. vm_compute. repeat split. Qed.

(** A [start()] that returns leaves [totalSpent] below the budget, so the
    ticks that follow begin within it. *)
Lemma start_within_budget (h : handle) (s : state) :
  result (start h s) = inl tt ->
  (totalSpent (final (start h s)) <= totalBudget (config (final (start h s))))%Q.
Proof.
  eff_unfold. destruct (isRunning s); [discriminate|].
  destruct (Qgeb (totalSpent s) (totalBudget (config s))) eqn:Hge; [discriminate|].
  assert (Hlt : (totalSpent s < totalBudget (config s))%Q).
  { apply Qnot_le_lt. rewrite <- Qgeb_true. congruence. }
  intros _. eff_simpl.
  destruct (over_budget _); eff_unfold; eff_simpl;
    [destruct (timer _) |]; eff_unfold; eff_simpl; by apply Qlt_le_weak.
Qed.

(** C10. [start()] with [totalSpent >= totalBudget] throws: nothing is
    scheduled, nothing is traded or logged and no field changes.  On a
    strategy that is not running the error is the budget one and [isRunning]
    is still false afterwards. *)
Theorem dca_start_budget_exhausted (h : handle) (s : state) :
  (totalBudget (config s) <= totalSpent s)%Q ->
  let o := start h s in
  (exists e, result o = inr e) /\ final o = s /\ trace o = [] /\
  (isRunning s = false ->
   result o = inr BudgetExhausted /\ isRunning (final o) = false).
Proof.
  intros Hge. apply Qgeb_true in Hge. eff_unfold.
  destruct (isRunning s) eqn:Hrun.
  - repeat split; eauto. discriminate.
  - rewrite Hge. repeat split; eauto.
Qed.

(** Witness of C10: a stopped strategy that has spent 20 of 20. *)
Lemma dca_start_budget_exhausted_witness :
  (totalBudget (config dca_spent_stopped) <= totalSpent dca_spent_stopped)%Q /\
  result (start 3%positive dca_spent_stopped) = inr BudgetExhausted /\
  isRunning (final (start 3%positive dca_spent_stopped)) = false.
Proof.
  assert (Hge : (totalBudget (config dca_spent_stopped) <= totalSpent dca_spent_stopped)%Q)
    by (vm_compute; discriminate).
  split; [exact Hge|].
  destruct (dca_start_budget_exhausted 3%positive dca_spent_stopped Hge)
    as (_ & _ & _ & Hstopped).
  exact (Hstopped eq_refl).
Defined.

End DCA_facts.

(** ** DCAStrategy: the budget, in the arithmetic of the code *)

Section DCA64_facts.

Import PrimFloat DCA64.
Local Open Scope float_scope.

Lemma tally64_app (p : call -> bool) (a b : list call) :
  tally p (a ++ b) = (tally p a + tally p b)%nat.
Proof. induction a as [|c a IH]; cbn [app tally]; [reflexivity | rewrite IH; lia]. Qed.

(** What one tick does to the budget: nothing, or one booking, which it
    makes only after its pre-check has passed. *)
Lemma tick64_cases (w : world) (s : state) :
  let r := checkAndExecute w s in
  config r.1 = config s /\
  ((tally is_buy_ok r.2 = 0%nat /\ totalSpent r.1 = totalSpent s /\
    executedTimes r.1 = executedTimes s) \/
   (over_budget s = false /\ tally is_buy_ok r.2 = 1%nat /\
    totalSpent r.1 = totalSpent s + amount (config s) /\
    executedTimes r.1 = S (executedTimes s))).
Proof.
  unfold checkAndExecute, tradeOrLog, executeTrade, stop.
  destruct (over_budget s) eqn:Hover.
  { cbn. rewrite tally64_app. destruct (timer s); cbn; auto. }
  destruct (maxPrice_set (config s)) as [m|].
  - destruct (guardPrice w) as [e|currentPrice]; [cbn; auto|].
    destruct (m <? currentPrice); [cbn; auto|].
    destruct (tradePrice w) as [e|p]; [cbn; auto|].
    destruct (buyAnswer w) as [e|h]; cbn; auto 10.
  - destruct (tradePrice w) as [e|p]; [cbn; auto|].
    destruct (buyAnswer w) as [e|h]; cbn; auto 10.
Qed.

(** A tick whose pre-check fires. *)
Lemma tick64_over_budget (w : world) (s : state) :
  over_budget s = true ->
  let r := checkAndExecute w s in
  isRunning r.1 = false /\ timer r.1 = None /\ tally is_buy r.2 = 0%nat /\
  totalSpent r.1 = totalSpent s /\ executedTimes r.1 = executedTimes s.
Proof.
  intros Hover. unfold checkAndExecute, stop. rewrite Hover. cbn.
  rewrite tally64_app. destruct (timer s); cbn; auto.
Qed.

Lemma run64_cons (w : world) (ws : list world) (s : state) :
  run (w :: ws) s =
  match checkAndExecute w s with
  | (s1, tr1) =>
      match run ws s1 with
      | (s2, tr2) => (s2, tr1 ++ tr2)
      end
  end.
Proof. reflexivity. Qed.

(** A tick that the event loop resumes until it is finished, with nothing
    in between, is [checkAndExecute] in one piece. *)
Lemma alone_fired (w : world) (s : state) :
  alone (Suspended (fired w)) s = checkAndExecute w s.
Proof.
  unfold checkAndExecute, tradeOrLog, executeTrade.
  cbn [alone]. unfold fired.
  destruct (over_budget s).
  { destruct (stop s) as [s1 tr]. cbn [alone]. by rewrite app_nil_r. }
  destruct (maxPrice_set (config s)) as [m|].
  - cbn [alone app]. unfold guarded.
    destruct (guardPrice w) as [e|currentPrice]; [reflexivity|].
    destruct (m <? currentPrice); [reflexivity|].
    unfold trading. cbn [alone]. unfold priced.
    destruct (tradePrice w) as [e|p]; [reflexivity|].
    cbn [alone]. unfold bought.
    destruct (buyAnswer w) as [e|h]; reflexivity.
  - unfold trading. cbn [alone]. unfold priced.
    destruct (tradePrice w) as [e|p]; [reflexivity|].
    cbn [alone]. unfold bought.
    destruct (buyAnswer w) as [e|h]; reflexivity.
Qed.

(** C1, as the code has it.  The numbers are the binary64 numbers of
    JavaScript and the comparisons are the code's own.  For ticks that run
    one after the other, [totalSpent > totalBudget] stays false once it is
    false.  A tick whose pre-check [totalSpent + amount > totalBudget] fires
    stops the strategy (flag off, timer cleared) without calling the swap
    and without booking anything.  A tick buys only after its pre-check has
    passed, and then leaves in [totalSpent] the very sum the pre-check
    compared, [totalSpent + amount], and one more in [executedTimes].  After
    N successful buys [totalSpent] is what N additions of [amount] give. *)
Theorem dca_totalSpent_within_budget (s : state) (ws : list world) :
  (totalBudget (config s) <? totalSpent s) = false ->
  let r := run ws s in
  let N := tally is_buy_ok r.2 in
  (totalBudget (config s) <? totalSpent r.1) = false /\
  totalSpent r.1 = added N (amount (config s)) (totalSpent s) /\
  executedTimes r.1 = (executedTimes s + N)%nat /\
  (forall (s' : state) (w : world),
      over_budget s' = true ->
      let r' := checkAndExecute w s' in
      isRunning r'.1 = false /\ timer r'.1 = None /\
      tally is_buy r'.2 = 0%nat /\ totalSpent r'.1 = totalSpent s') /\
  (forall (s' : state) (w : world),
      let r' := checkAndExecute w s' in
      tally is_buy_ok r'.2 = 1%nat ->
      over_budget s' = false /\
      totalSpent r'.1 = totalSpent s' + amount (config s') /\
      executedTimes r'.1 = S (executedTimes s')).
Proof.
  intros Hinv. cbv zeta.
  assert (Hrun : (totalBudget (config s) <? totalSpent (run ws s).1) = false /\
                 totalSpent (run ws s).1 =
                 added (tally is_buy_ok (run ws s).2) (amount (config s)) (totalSpent s) /\
                 executedTimes (run ws s).1 =
                 (executedTimes s + tally is_buy_ok (run ws s).2)%nat).
  { revert s Hinv. induction ws as [|w ws IH]; intros s Hinv.
    - cbn. repeat split; [assumption | lia].
    - rewrite run64_cons.
      destruct (tick64_cases w s) as (Hcfg & Hcase).
      destruct (checkAndExecute w s) as [s1 tr1]. cbn [fst snd] in *.
      assert (Hinv1 : (totalBudget (config s1) <? totalSpent s1) = false).
      { rewrite Hcfg. destruct Hcase as [(_ & -> & _) | (Hover & _ & -> & _)];
          [assumption | exact Hover]. }
      destruct (IH s1 Hinv1) as (Hle & Hsum & Htimes).
      destruct (run ws s1) as [s2 tr2]. cbn [fst snd] in *.
      rewrite Hcfg in Hle, Hsum. rewrite tally64_app.
      split; [exact Hle|].
      destruct Hcase as [(-> & Hspent & Hexec) | (_ & -> & Hspent & Hexec)];
        rewrite Hspent in Hsum; rewrite Hexec in Htimes.
      + split; [exact Hsum | exact Htimes].
      + split; [|lia].
        rewrite Hsum. unfold added.
        change (1 + tally is_buy_ok tr2)%nat with (S (tally is_buy_ok tr2)).
        by rewrite Nat.iter_succ_r. }
  destruct Hrun as (H1 & H2 & H3).
  split; [exact H1|]. split; [exact H2|]. split; [exact H3|]. split.
  - intros s' w Hover.
    destruct (tick64_over_budget w s' Hover) as (Hr & Ht & Hb & Hs & _). auto.
  - intros s' w Hok.
    destruct (tick64_cases w s') as (_ & [(H0 & _) | (Hpass & _ & Hs & He)]); [|auto].
    rewrite H0 in Hok. discriminate.
Qed.

(** Witness of C1: amount 0.1 and budget 0.5, six ticks that could all
    fill; five do, and the sixth finds the budget used up. *)
Lemma dca_totalSpent_within_budget_witness :
  (totalBudget (config (new half)) <? totalSpent (new half)) = false /\
  (totalBudget (config (new half)) <? totalSpent (run (repeat fill 6) (new half)).1) = false /\
  executedTimes (run (repeat fill 6) (new half)).1 = 5%nat.
Proof.
  assert (Hinv : (totalBudget (config (new half)) <? totalSpent (new half)) = false)
    by (vm_compute; reflexivity).
  split; [exact Hinv|].
  destruct (dca_totalSpent_within_budget (new half) (repeat fill 6) Hinv)
    as (Hle & _ & Htimes & _).
  split; [exact Hle|]. rewrite Htimes. vm_compute. reflexivity.
Defined.

(** C1, counterexample.  Ten successful buys of 0.1 leave
    0.9999999999999999 in [totalSpent], which is not ten times the amount:
    ten times 0.1 is 1. *)
Lemma dca_ten_buys_are_not_ten_amounts :
  let r := run (repeat fill 10) (new dimes) in
  tally is_buy_ok r.2 = 10%nat /\
  totalSpent r.1 = 0x1.fffffffffffffp-1 /\
  10 * amount dimes = 1 /\
  (totalSpent r.1 =? 10 * amount dimes) = false.
Proof. vm_compute. repeat split. Qed.

(** Ticks that overlap.  With amount 10 and budget 25, and 10 spent, a
    tick is waiting for the exchange when the timer fires again: the second
    tick passes the pre-check on the same [totalSpent], both buys are
    booked, and [totalSpent] is 30. *)
Example dca_overlapping_ticks_exceed_budget :
  let r := schedule [0; 0; 1; 1; 0; 1]%nat
                    [Suspended (fired fill); Suspended (fired fill)] once in
  (totalBudget (config once) <? totalSpent once) = false /\
  tally is_buy_ok r.2 = 2%nat /\
  totalSpent r.1 = 30 /\
  (totalBudget (config once) <? totalSpent r.1) = true.
Proof. vm_compute. repeat split. Qed.

End DCA64_facts.

(** ** BuySellStrategy *)

Section BuySell_facts.

Import BuySell.

Ltac eff_unfold :=
  cbv beta iota zeta delta
    [tick checkAndTrade executeBuy executeSell start stop try_catch mbind mret eff_mbind
     eff_mret eff_bind eff_ret emit modify get throw await final trace result negb].

Ltac eff_simpl :=
  cbn [app count is_buy is_sell is_heartbeat logged_at level_eqb Nat.add In
       config isRunning timer startTime lastTradeTime lastPrice stats
       set_isRunning set_timer set_startTime set_lastTradeTime set_lastPrice set_stats
       incr_failedTrades count_buy count_sell
       totalBuyCount totalSellCount totalBuyAmount totalSellAmount totalXOCBought
       totalXOCSold failedTrades].

(** The trace of a tick shows a fetched price only when the strategy was
    running and the price collaborator answered with that price. *)
Lemma tick_fetched (w : world) (s : state) (p : Q) :
  In (GetPrice (inr p)) (trace (tick w s)) ->
  isRunning s = true /\ priceAnswer w = inr p.
Proof.
  eff_unfold. destruct (isRunning s) eqn:Hrun; eff_unfold; eff_simpl.
  2: { intros [H|[]]. discriminate. }
  destruct (priceAnswer w) as [e|q]; eff_unfold; eff_simpl.
  { intros [H|[H|[]]]; discriminate. }
  intros Hin. split; [reflexivity|]. revert Hin.
  repeat match goal with
         | |- context [if ?c then _ else _] => destruct c; eff_unfold; eff_simpl
         | |- context [match ?x with inl _ => _ | inr _ => _ end] =>
             destruct x; eff_unfold; eff_simpl
         end;
    intros Hin;
    repeat match goal with
           | H : _ \/ _ |- _ => destruct H as [H|H]
           | H : False |- _ => destruct H
           end;
    congruence.
Qed.

(** C2.  On a tick whose fetched price [p] is at or below [buyThreshold],
    the swap is asked for exactly one buy, of [tradeAmount], and for no
    sell, whatever [sellThreshold] is. *)
Theorem buysell_buy_wins_tick (w : world) (s : state) (p : Q) :
  In (GetPrice (inr p)) (trace (tick w s)) ->
  (p <= buyThreshold (config s))%Q ->
  let o := tick w s in
  result o = inl tt /\
  count is_buy (trace o) = 1 /\
  count is_sell (trace o) = 0 /\
  In (BuyXOC (tradeAmount (config s)) (buyAnswer w)) (trace o).
Proof.
  intros Hin Hle. destruct (tick_fetched w s p Hin) as [Hrun Hprice].
  clear Hin. apply Qleb_true in Hle.
  eff_unfold. rewrite Hrun, Hprice. eff_unfold. eff_simpl. rewrite Hle.
  destruct (buyAnswer w) as [e|h]; eff_unfold.
  - destruct (insufficient_funds e); eff_simpl; auto 10.
  - eff_simpl; auto 10.
Qed.

(** C6, as the code has it.  A failed buy or sell adds one to
    [stats.failedTrades] whatever the error is, and the strategy keeps
    running.  The class of the error only chooses the entry the [catch]
    block of the strategy writes for it: its warning for an
    insufficient-funds error, its error entry otherwise, one of the two
    and never both.  (What the swap service logs inside the rejected call
    is part of the call.) *)
Theorem buysell_failed_trade_counted (w : world) (s : state) (p : Q) (e : exn) :
  isRunning s = true ->
  priceAnswer w = inr p ->
  ((p <= buyThreshold (config s))%Q /\ buyAnswer w = inl e) \/
  (~ (p <= buyThreshold (config s))%Q /\ (sellThreshold (config s) <= p)%Q /\
   sellAnswer w = inl e) ->
  let o := tick w s in
  failedTrades (stats (final o)) = S (failedTrades (stats s)) /\
  isRunning (final o) = true /\
  (insufficient_funds e = true ->
   count is_insufficient_entry (trace o) = 1 /\
   count is_failed_entry (trace o) = 0 /\
   (In (Log warning BSBuyInsufficient) (trace o) \/
    In (Log warning BSSellInsufficient) (trace o))) /\
  (insufficient_funds e = false ->
   count is_failed_entry (trace o) = 1 /\
   count is_insufficient_entry (trace o) = 0 /\
   (In (Log error (BSBuyFailed e (S (failedTrades (stats s))))) (trace o) \/
    In (Log error (BSSellFailed e (S (failedTrades (stats s))))) (trace o))).
Proof.
  intros Hrun Hprice [[Hle Hans] | (Hnle & Hge & Hans)].
  - apply Qleb_true in Hle.
    eff_unfold. rewrite Hrun, Hprice. eff_unfold. eff_simpl. rewrite Hle, Hans.
    eff_unfold.
    destruct (insufficient_funds e); eff_simpl; repeat split; auto 10; discriminate.
  - apply Qgeb_true in Hge.
    assert (Hle : Qleb p (buyThreshold (config s)) = false).
    { apply not_true_iff_false. by rewrite Qleb_true. }
    eff_unfold. rewrite Hrun, Hprice. eff_unfold. eff_simpl. rewrite Hle, Hge, Hans.
    eff_unfold.
    destruct (insufficient_funds e); eff_simpl; repeat split; auto 10; discriminate.
Qed.

(** An idle tick (price strictly between the thresholds) of a running
    strategy writes the heartbeat exactly when the number of completed
    trades, [totalBuyCount + totalSellCount], is a multiple of 10, and
    leaves [stats] as it was. *)
Lemma buysell_idle_tick (w : world) (s : state) (p : Q) :
  isRunning s = true ->
  priceAnswer w = inr p ->
  (buyThreshold (config s) < p)%Q -> (p < sellThreshold (config s))%Q ->
  let o := tick w s in
  stats (final o) = stats s /\ isRunning (final o) = true /\ config (final o) = config s /\
  count is_heartbeat (trace o) =
  (if (totalBuyCount (stats s) + totalSellCount (stats s)) mod 10 =? 0 then 1 else 0).
Proof.
  intros Hrun Hprice Hlo Hhi.
  assert (Hle : Qleb p (buyThreshold (config s)) = false).
  { apply not_true_iff_false. rewrite Qleb_true. by apply Qlt_not_le. }
  assert (Hge : Qgeb p (sellThreshold (config s)) = false).
  { apply not_true_iff_false. rewrite Qgeb_true. by apply Qlt_not_le. }
  eff_unfold. rewrite Hrun, Hprice. eff_unfold. eff_simpl. rewrite Hle, Hge.
  destruct (_ =? 0); eff_simpl; auto 10.
Qed.

(** Witness of C2 with overlapping thresholds: at price 0.15 both tests
    hold, and the tick buys. *)
Lemma buysell_buy_wins_tick_witness :
  (15 # 100 <= buyThreshold bs_overlap)%Q /\
  (sellThreshold bs_overlap <= 15 # 100)%Q /\
  count is_buy (trace (tick (bs_quiet (15 # 100)) (bs_started bs_overlap))) = 1 /\
  count is_sell (trace (tick (bs_quiet (15 # 100)) (bs_started bs_overlap))) = 0.
Proof.
  assert (Hle : (15 # 100 <= buyThreshold bs_overlap)%Q) by (vm_compute; discriminate).
  split; [exact Hle|]. split; [vm_compute; discriminate|].
  assert (Hin : In (GetPrice (inr (15 # 100)%Q))
                   (trace (tick (bs_quiet (15 # 100)) (bs_started bs_overlap))))
    by (vm_compute; auto).
  destruct (buysell_buy_wins_tick (bs_quiet (15 # 100)) (bs_started bs_overlap) (15 # 100)
              Hin Hle) as (_ & Hbuy & Hsell & _).
  split; [exact Hbuy | exact Hsell].
Defined.

(** C6, counterexample.  A buy rejected with an insufficient-funds error is
    logged as a warning and does add one to [stats.failedTrades]. *)
Lemma buysell_insufficient_funds_is_counted :
  let s := bs_started bs_sample in
  let o := tick (bs_broke (7 # 100)) s in
  buyAnswer (bs_broke (7 # 100)) =
    inl (External "insufficient funds for gas * price + value") /\
  insufficient_funds (External "insufficient funds for gas * price + value") = true /\
  trace o = [GetPrice (inr (7 # 100)%Q); Log warning (BSBuySignal (7 # 100));
             Log info (BSBuyBegin 1);
             BuyXOC 1 (inl (External "insufficient funds for gas * price + value"));
             Log warning BSBuyInsufficient] /\
  failedTrades (stats s) = 0 /\
  failedTrades (stats (final o)) = 1.
Proof. vm_compute. repeat split. Qed.

(** Witness of the amended C6: a sell reverted by the router at price 0.16
    is counted and logged as an error. *)
Lemma buysell_failed_trade_counted_witness :
  failedTrades (stats (final (tick (bs_reverted (16 # 100)) (bs_started bs_sample)))) = 1 /\
  count is_failed_entry
        (trace (tick (bs_reverted (16 # 100)) (bs_started bs_sample))) = 1.
Proof.
  assert (Hnle : ~ (16 # 100 <= buyThreshold (config (bs_started bs_sample)))%Q)
    by (vm_compute; intros H; apply H; reflexivity).
  assert (Hge : (sellThreshold (config (bs_started bs_sample)) <= 16 # 100)%Q)
    by (vm_compute; discriminate).
  destruct (buysell_failed_trade_counted (bs_reverted (16 # 100)) (bs_started bs_sample)
              (16 # 100) (External "execution reverted") eq_refl eq_refl
              (or_intror (conj Hnle (conj Hge eq_refl))))
    as (Hfailed & _ & _ & Herr).
  split; [exact Hfailed | exact (proj1 (Herr eq_refl))].
Defined.

(** C7, on the code.  Ten idle ticks in a row of a strategy that has not
    traded yet write ten heartbeat entries, not one: the counter the code
    takes modulo 10 is the number of completed trades, which idle ticks do
    not advance. *)
Theorem buysell_heartbeat_on_every_idle_tick :
  let s := bs_started bs_sample in
  let o := run (repeat (bs_quiet (10 # 100)) 10) s in
  totalBuyCount (stats s) + totalSellCount (stats s) = 0 /\
  count is_heartbeat (trace o) = 10 /\
  totalBuyCount (stats (final o)) + totalSellCount (stats (final o)) = 0.
Proof. vm_compute. repeat split. Qed.

(** The same ten idle ticks after one completed buy write no heartbeat at
    all. *)
Example buysell_no_heartbeat_after_one_trade :
  let s := final (tick (bs_quiet (7 # 100)) (bs_started bs_sample)) in
  let o := run (repeat (bs_quiet (10 # 100)) 10) s in
  totalBuyCount (stats s) = 1 /\ count is_heartbeat (trace o) = 0.
Proof. vm_compute. repeat split. Qed.

(** End-to-end scenario 1 of the specification: prices 0.07, 0.10, 0.16
    give one buy of 1 USDT, nothing, one sell of 6.25 XOC. *)
Example buysell_scenario_1 :
  filter (fun ev => is_buy ev || is_sell ev = true)
         (trace (run [bs_quiet (7 # 100); bs_quiet (10 # 100); bs_quiet (16 # 100)]
                     (bs_started bs_sample))) =
  [BuyXOC 1 (inr "0xb1"); SellXOC (1 / (16 # 100)) (inr "0xs1")].
Proof. vm_compute. reflexivity. Qed.

End BuySell_facts.

(** ** The contract shared by the three classes *)

Section Contract.

Ltac eff_unfold :=
  cbv beta iota zeta delta
    [strategy_start strategy_stop on_variant strategy_isRunning strategy_timer
     BuySell.start BuySell.stop DCA.start DCA.stop Grid.start Grid.stop
     try_catch mbind mret eff_mbind eff_mret eff_bind eff_ret emit modify get throw
     final trace result].

Ltac eff_simpl :=
  cbn [app count length is_log is_timer_call Nat.add
       BuySell.isRunning BuySell.timer BuySell.set_isRunning BuySell.set_timer
       DCA.isRunning DCA.timer DCA.set_isRunning DCA.set_timer
       Grid.isRunning Grid.timer Grid.set_isRunning Grid.set_timer].

(** C4, counterexample.  [start()] on a running [BuySellStrategy] returns
    normally. *)
Lemma buysell_start_twice_returns :
  strategy_isRunning (SBuySell (bs_started bs_sample)) = true /\
  result (strategy_start 2%positive 5%Z (SBuySell (bs_started bs_sample))) = inl tt.
Proof. vm_compute. split; reflexivity. Qed.

(** C4, as the code has it.  [start()] on a running strategy changes no field
    and touches no timer.  [DCAStrategy] and [GridStrategy] throw the
    already-running error and log nothing; [BuySellStrategy] logs a warning
    and returns. *)
Theorem start_while_running (h : handle) (t : Z) (st : strategy) :
  strategy_isRunning st = true ->
  let o := strategy_start h t st in
  final o = st /\
  count is_timer_call (trace o) = 0 /\
  match st with
  | SBuySell _ => result o = inl tt /\ trace o = [Log warning BSAlreadyRunning]
  | SDCA _ | SGrid _ => result o = inr AlreadyRunning /\ trace o = []
  end.
Proof.
  intros Hrun. destruct st as [s|s|s]; cbn [strategy_isRunning] in Hrun;
    eff_unfold; rewrite Hrun; eff_simpl; auto.
Qed.

(** Witness of the amended C4: [start()] on a running [DCAStrategy]. *)
Lemma start_while_running_witness :
  result (strategy_start 2%positive 5%Z (SDCA dca_spent_running)) = inr AlreadyRunning /\
  final (strategy_start 2%positive 5%Z (SDCA dca_spent_running)) = SDCA dca_spent_running.
Proof.
  destruct (start_while_running 2%positive 5%Z (SDCA dca_spent_running) eq_refl)
    as (Hfinal & _ & Hres & _).
  split; [exact Hres | exact Hfinal].
Defined.

(** C5, counterexample.  The second of two [stop()] calls on a new
    [DCAStrategy] writes the stop entry again, the same one as the first. *)
Lemma dca_stop_twice_logs_twice :
  let o1 := strategy_stop "" (SDCA (DCA.new dca_sample)) in
  let o2 := strategy_stop "" (final o1) in
  trace o1 = [Log info (DCAStopped 0 0 25)] /\
  trace o2 = [Log info (DCAStopped 0 0 25)] /\
  count is_log (trace o2) = 1.
Proof. vm_compute. repeat split. Qed.

(** C5, as the code has it.  A second [stop()] right after a first one
    returns normally, changes no field (the flag stays false, the timer stays
    cleared), calls no timer function, and writes one log entry, the stop
    summary, once more. *)
Theorem stop_twice (r1 r2 : string) (st : strategy) :
  let o1 := strategy_stop r1 st in
  let o2 := strategy_stop r2 (final o1) in
  result o1 = inl tt /\
  result o2 = inl tt /\
  final o2 = final o1 /\
  strategy_isRunning (final o2) = false /\
  strategy_timer (final o2) = None /\
  count is_timer_call (trace o2) = 0 /\
  count is_log (trace o2) = 1 /\
  length (trace o2) = 1.
Proof.
  destruct st as [s|s|s]; destruct s; eff_unfold; eff_simpl;
    match goal with
    | |- context [match ?t with Some _ => _ | None => _ end] => destruct t
    end;
    eff_unfold; eff_simpl; auto 10.
Qed.

End Contract.

(** ** BotRunner *)

Section Runner_facts.

Import BotRunner.

Ltac eff_unfold :=
  cbv beta iota zeta delta
    [stopStrategy registerStrategy call try_catch mbind mret eff_mbind eff_mret eff_bind
     eff_ret emit modify get throw final trace result].

Ltac eff_simpl :=
  cbn [app count is_log Nat.add objects strategies timers
       set_objects set_strategies set_timers].

Lemma strategy_stop_returns (reason : string) (st : strategy) :
  result (strategy_stop reason st) = inl tt.
Proof.
  destruct st as [s|s|s];
    cbv beta iota zeta delta
      [strategy_stop on_variant BuySell.stop DCA.stop Grid.stop mbind mret eff_mbind
       eff_mret eff_bind eff_ret emit modify get final trace result].
  - by destruct (BuySell.timer s).
  - by destruct (DCA.timer s).
  - by destruct (Grid.timer s).
Qed.

(** What [stopStrategy] leaves: it never throws, the id is in neither map
    afterwards, and the maps are otherwise as before. *)
Lemma stopStrategy_final (botId reason : string) (r : state) :
  let o := stopStrategy botId reason r in
  result o = inl tt /\
  strategies (final o) = delete botId (strategies r) /\
  timers (final o) = delete botId (timers r) /\
  (strategies r !! botId = None ->
   objects (final o) = objects r /\ count is_log (trace o) = 0 /\
   (timers r !! botId = None -> trace o = [])).
Proof.
  destruct r as [objs strats tims]. eff_unfold. eff_simpl.
  destruct (strats !! botId) as [p|] eqn:Hp.
  - destruct (objs !! p) as [st|] eqn:Hst; eff_unfold; eff_simpl.
    + rewrite Hst. pose proof (strategy_stop_returns reason st) as Hres.
      destruct (strategy_stop reason st) as [st' tr' res']. cbn [result] in Hres.
      subst res'. eff_simpl.
      destruct (tims !! botId) as [t|] eqn:Ht; eff_unfold; eff_simpl;
        repeat split; try congruence; by rewrite delete_id.
    + destruct (tims !! botId) as [t|] eqn:Ht; eff_unfold; eff_simpl;
        repeat split; try congruence; by rewrite delete_id.
  - eff_unfold. eff_simpl.
    destruct (tims !! botId) as [t|] eqn:Ht; eff_unfold; eff_simpl;
      repeat split; try congruence; by rewrite delete_id.
Qed.

(** C9.  Right after [stopStrategy(id)], [isStrategyRunning(id)] is falsy
    (the entry is gone, the value is [undefined]); [registerStrategy] with
    the same id then succeeds as it is, and the runner holds the new
    strategy under that id; [stopStrategy] of an id that holds no strategy
    stops nothing, logs nothing and leaves the strategies as they are, and
    when the id has no statistics timer either it changes nothing at all. *)
Theorem runner_stop_then_register (botId reason : string) (r : state) :
  let o := stopStrategy botId reason r in
  result o = inl tt /\
  truthy (isStrategyRunning botId (final o)) = false /\
  strategies (final o) !! botId = None /\
  timers (final o) !! botId = None /\
  (forall p : ref,
      let o' := registerStrategy botId p (final o) in
      result o' = inl tt /\
      strategies (final o') !! botId = Some p /\
      getStrategy botId (final o') = objects (final o) !! p) /\
  (strategies r !! botId = None ->
   strategies (final o) = strategies r /\ objects (final o) = objects r /\
   count is_log (trace o) = 0 /\
   (timers r !! botId = None -> final o = r /\ trace o = [])).
Proof.
  cbn zeta.
  destruct (stopStrategy_final botId reason r) as (Hres & Hstrat & Htim & Hnone).
  assert (Hgone : strategies (final (stopStrategy botId reason r)) !! botId = None).
  { rewrite Hstrat. apply lookup_delete_eq. }
  split; [exact Hres|]. split.
  { unfold isStrategyRunning, getStrategy. by rewrite Hgone. }
  split; [exact Hgone|]. split.
  { rewrite Htim. apply lookup_delete_eq. }
  split.
  - intros p. unfold getStrategy. eff_unfold. eff_simpl.
    rewrite lookup_insert_eq. auto.
  - intros Hs. destruct (Hnone Hs) as (Hobj & Hlog & Htrace).
    split; [rewrite Hstrat; by apply delete_id|].
    split; [exact Hobj|]. split; [exact Hlog|].
    intros Ht. split; [| by apply Htrace].
    destruct (final (stopStrategy botId reason r)) as [o' s' t'], r as [o0 s0 t0].
    cbn [objects strategies timers] in *. subst. by rewrite !delete_id.
Qed.

(** Witness of C9: a runner holding one started strategy under ["bot-1"];
    ["bot-2"] is in neither map. *)
Lemma runner_stop_then_register_witness :
  truthy (isStrategyRunning "bot-1" runner_sample) = true /\
  truthy (isStrategyRunning "bot-1"
            (final (stopStrategy "bot-1" "user" runner_sample))) = false /\
  final (stopStrategy "bot-2" "user" runner_sample) = runner_sample.
Proof.
  split; [vm_compute; reflexivity|].
  split.
  - by destruct (runner_stop_then_register "bot-1" "user" runner_sample) as (_ & H & _).
  - destruct (runner_stop_then_register "bot-2" "user" runner_sample)
      as (_ & _ & _ & _ & _ & H).
    destruct (H eq_refl) as (_ & _ & _ & Hnoop).
    by destruct (Hnoop eq_refl).
Defined.


End Runner_facts.

(** ** GridStrategy *)

Section Grid_facts.

Import Grid.
Local Open Scope R_scope.

Ltac eff_unfold :=
  cbv beta iota zeta delta
    [initializeGrids start stop try_catch mbind mret eff_mbind eff_mret eff_bind
     eff_ret emit modify get throw final trace result].

Ltac eff_simpl :=
  cbn [app count is_timer_call Nat.add
       config isRunning grids currentPrice timer amountPerGrid
       set_isRunning set_grids set_timer set_amountPerGrid].

(** The per-grid amount passes the minimum exactly from 0.995 on: rounded to
    two decimals it is then 1.00 or more. *)
Lemma toFixed2_lt_1 (x : R) : toFixed2 x < 1 <-> x < 199 / 200.
Proof.
  unfold toFixed2. destruct (Rlt_dec x 0) as [Hneg|Hpos].
  - destruct (base_Int_part (- x * 100 + / 2)) as [_ Hup].
    assert (Hk : (0 <= Int_part (- x * 100 + / 2))%Z).
    { apply Z.lt_succ_r, lt_IZR. rewrite succ_IZR. lra. }
    apply IZR_le in Hk. split; intros _; lra.
  - destruct (base_Int_part (x * 100 + / 2)) as [Hlo Hup].
    split; intros H.
    + assert (Hk : (Int_part (x * 100 + / 2) < 100)%Z) by (apply lt_IZR; lra).
      assert (Hk' : (Int_part (x * 100 + / 2) + 1 <= 100)%Z) by lia.
      apply IZR_le in Hk'. rewrite plus_IZR in Hk'. lra.
    + lra.
Qed.

Lemma for_each_pushGrid (f : nat -> R) (l : list nat) (s : state) :
  for_each l (fun i => pushGrid (f i)) s =
  Outcome (set_grids (grids s ++ map (fun i => Level (f i) pending (amountPerGrid s) None None) l) s)
          [] (inl tt).
Proof.
  revert s. induction l as [|i l IH]; intros s.
  - cbn [for_each map]. eff_unfold. destruct s. eff_simpl. by rewrite app_nil_r.
  - cbn [for_each map]. cbv beta iota zeta delta [mbind eff_mbind eff_bind].
    change (pushGrid (f i) s)
      with (Outcome (set_grids (grids s ++ [Level (f i) pending (amountPerGrid s) None None]) s)
                    [] (inl tt)).
    cbv beta iota. rewrite IH. eff_simpl. by rewrite <- app_assoc.
Qed.

(** [initializeGrids()] when the amount check passes. *)
Lemma initializeGrids_ok (s : state) :
  let c := config s in
  let a := toFixed2 (totalInvestment c / INR (gridCount c)) in
  ~ a < 1 ->
  initializeGrids s =
  Outcome (State c (isRunning s)
                 (map (fun i => Level (level_price c i) pending a None None)
                      (seq 0 (S (gridCount c))))
                 (currentPrice s) (timer s) a)
          [Log info (GridInitialized (gridCount c + 1))] (inl tt).
Proof.
  intros c a Ha. subst c a.
  eff_unfold. eff_simpl.
  destruct (Rlt_dec _ 1) as [Hlt|_]; [contradiction|].
  unfold level_price.
  destruct (gridType (config s)); rewrite for_each_pushGrid; eff_simpl; reflexivity.
Qed.

(** [initializeGrids()] when the amount check fails. *)
Lemma initializeGrids_too_small (s : state) :
  let a := toFixed2 (totalInvestment (config s) / INR (gridCount (config s))) in
  a < 1 ->
  initializeGrids s =
  Outcome (set_amountPerGrid a s) [] (inr (GridAmountTooSmall a)).
Proof.
  intros a Ha. subst a.
  eff_unfold. eff_simpl.
  destruct (Rlt_dec _ 1) as [_|Hge]; [reflexivity | contradiction].
Qed.







(** [start()] on a strategy that is not running, when the amount check
    passes. *)
Lemma start_ok (h : handle) (s : state) :
  isRunning s = false ->
  ~ toFixed2 (totalInvestment (config s) / INR (gridCount (config s))) < 1 ->
  let o := start h s in
  result o = inl tt /\ isRunning (final o) = true /\ timer (final o) = Some h /\
  count is_timer_call (trace o) = 1%nat.
Proof.
  intros Hrun Hamount.
  cbv beta iota zeta delta [start try_catch mbind eff_mbind eff_bind get].
  rewrite Hrun, (initializeGrids_ok s Hamount).
  eff_unfold. eff_simpl. auto.
Qed.

(** C8, counterexample.  With 49.9 USDT over 50 grids the per-grid amount,
    0.998, is below 1, and [start()] succeeds: the amount is rounded to 1.00
    before it is compared. *)
Lemma grid_start_accepts_rounded_amount :
  totalInvestment grid_thin / INR (gridCount grid_thin) < 1 /\
  result (start 1%positive (new grid_thin)) = inl tt /\
  isRunning (final (start 1%positive (new grid_thin))) = true.
Proof.
  assert (Hx : totalInvestment grid_thin / INR (gridCount grid_thin) = 499 / 500).
  { unfold grid_thin. cbn [totalInvestment gridCount]. rewrite INR_IZR_INZ.
    change (Z.of_nat 50) with 50%Z. field. }
  split; [rewrite Hx; lra|].
  assert (Hamount : ~ toFixed2 (totalInvestment (config (new grid_thin)) /
                                INR (gridCount (config (new grid_thin)))) < 1).
  { cbn [new config]. rewrite toFixed2_lt_1, Hx. lra. }
  destruct (start_ok 1%positive (new grid_thin) eq_refl Hamount) as (Hres & Hrunning & _).
  split; assumption.
Qed.

(** C8, as the code has it.  [start()] on a strategy that is not running is
    refused when [totalInvestment / gridCount] is below 0.995, that is when
    the amount rounded to two decimals is below 1: the error reaches the
    caller, [isRunning] is false afterwards, no timer function is called,
    the timer field and the grid list are as they were, and the failure is
    logged as an error.  The statement is for at least one grid (with none
    the JavaScript quotient is infinite or NaN). *)
Theorem grid_start_refused (h : handle) (s : state) :
  let c := config s in
  let a := toFixed2 (totalInvestment c / INR (gridCount c)) in
  isRunning s = false ->
  (1 <= gridCount c)%nat ->
  totalInvestment c / INR (gridCount c) < 199 / 200 ->
  let o := start h s in
  a < 1 /\
  result o = inr (GridAmountTooSmall a) /\
  isRunning (final o) = false /\
  timer (final o) = timer s /\
  grids (final o) = grids s /\
  count is_timer_call (trace o) = 0%nat /\
  trace o = [Log error (GridStartFailed (GridAmountTooSmall a))].
Proof.
  intros c a Hrun _ Hsmall o. subst c a o.
  apply toFixed2_lt_1 in Hsmall.
  split; [exact Hsmall|].
  cbv beta iota zeta delta [start try_catch mbind eff_mbind eff_bind get].
  rewrite Hrun, (initializeGrids_too_small s Hsmall).
  eff_unfold. eff_simpl. auto 10.
Qed.

(** Witness of the amended C8: 10 USDT over 50 grids, 0.2 USDT a grid. *)
Lemma grid_start_refused_witness :
  isRunning (final (start 1%positive (new grid_starved))) = false /\
  timer (final (start 1%positive (new grid_starved))) = None /\
  grids (final (start 1%positive (new grid_starved))) = [].
Proof.
  assert (Hn : (1 <= gridCount (config (new grid_starved)))%nat) by (cbn; lia).
  assert (Hsmall : totalInvestment (config (new grid_starved)) /
                   INR (gridCount (config (new grid_starved))) < 199 / 200).
  { cbn [new config grid_starved totalInvestment gridCount]. rewrite INR_IZR_INZ.
    change (Z.of_nat 50) with 50%Z. lra. }
  destruct (grid_start_refused 1%positive (new grid_starved) eq_refl Hn Hsmall)
    as (_ & _ & Hrun & Htimer & Hgrids & _).
  split; [exact Hrun|]. split; [exact Htimer | exact Hgrids].
Defined.

End Grid_facts.

(** ** The arithmetic grid, in the arithmetic of the code *)

Section Grid64_facts.

Import PrimFloat Grid64.
Local Open Scope float_scope.


End Grid64_facts.

(** * Further properties of the modelled code *)

(** ** BuySellStrategy: ticks and bookkeeping *)

Section BuySell_more.

Import BuySell.

Ltac eff_unfold :=
  cbv beta iota zeta delta
    [tick checkAndTrade executeBuy executeSell start stop try_catch mbind mret eff_mbind
     eff_mret eff_bind eff_ret emit modify get throw await final trace result negb].

Ltac eff_simpl :=
  cbn [app count is_buy is_sell is_buy_ok is_sell_ok is_failure is_save is_call
       is_timer_call Nat.add In
       config isRunning timer startTime lastTradeTime lastPrice stats
       set_isRunning set_timer set_startTime set_lastTradeTime set_lastPrice set_stats
       incr_failedTrades count_buy count_sell
       totalBuyCount totalSellCount totalBuyAmount totalSellAmount totalXOCBought
       totalXOCSold failedTrades].

Ltac eff_cases :=
  repeat match goal with
         | |- context [priceAnswer ?w] => destruct (priceAnswer w) eqn:?; eff_unfold; eff_simpl
         | |- context [buyAnswer ?w] => destruct (buyAnswer w) eqn:?; eff_unfold; eff_simpl
         | |- context [sellAnswer ?w] => destruct (sellAnswer w) eqn:?; eff_unfold; eff_simpl
         | |- context [if ?c then _ else _] => destruct c eqn:?; eff_unfold; eff_simpl
         end.

(** X1.  A tick always returns normally and never touches the running flag,
    the timer, the configuration or the start time: no failure inside a tick
    stops the strategy. *)
Theorem buysell_tick_keeps_running (w : world) (s : state) :
  let o := tick w s in
  result o = inl tt /\
  isRunning (final o) = isRunning s /\
  timer (final o) = timer s /\
  config (final o) = config s /\
  startTime (final o) = startTime s /\
  count is_timer_call (trace o) = 0.
Proof.
  eff_unfold. destruct (isRunning s) eqn:Hrun; eff_unfold; eff_simpl; [|auto 10].
  eff_cases; rewrite ?Hrun; auto 10.
Qed.

(** X2.  A successful buy is booked once: one more buy, [tradeAmount] more
    quote currency spent, [tradeAmount / p] more base currency bought, the
    sell side and the failure counter untouched, and exactly one trade
    record saved, a BUY of [tradeAmount] at price [p] with the hash of the
    swap. *)
Theorem buysell_buy_booked (w : world) (s : state) (p : Q) (h : txhash) :
  isRunning s = true ->
  priceAnswer w = inr p ->
  (p <= buyThreshold (config s))%Q ->
  buyAnswer w = inr h ->
  let o := tick w s in
  let a := tradeAmount (config s) in
  totalBuyCount (stats (final o)) = S (totalBuyCount (stats s)) /\
  totalBuyAmount (stats (final o)) = (totalBuyAmount (stats s) + a)%Q /\
  totalXOCBought (stats (final o)) = (totalXOCBought (stats s) + a / p)%Q /\
  totalSellCount (stats (final o)) = totalSellCount (stats s) /\
  totalSellAmount (stats (final o)) = totalSellAmount (stats s) /\
  totalXOCSold (stats (final o)) = totalXOCSold (stats s) /\
  failedTrades (stats (final o)) = failedTrades (stats s) /\
  lastPrice (final o) = Some p /\
  lastTradeTime (final o) = Some (now w) /\
  count is_save (trace o) = 1 /\
  In (SaveTrade (Trade BUY a (a / p) p h)) (trace o).
Proof.
  intros Hrun Hprice Hle Hans. apply Qleb_true in Hle.
  eff_unfold. rewrite Hrun, Hprice. eff_unfold. eff_simpl. rewrite Hle, Hans.
  eff_unfold. eff_simpl. auto 20.
Qed.

Lemma buysell_buy_booked_witness :
  totalBuyCount (stats (final (tick (bs_quiet (7 # 100)) (bs_started bs_sample)))) = 1 /\
  count is_save (trace (tick (bs_quiet (7 # 100)) (bs_started bs_sample))) = 1.
Proof.
  assert (Hle : (7 # 100 <= buyThreshold (config (bs_started bs_sample)))%Q)
    by (vm_compute; discriminate).
  destruct (buysell_buy_booked (bs_quiet (7 # 100)) (bs_started bs_sample) (7 # 100) "0xb1"
              eq_refl eq_refl Hle eq_refl)
    as (Hcount & _ & _ & _ & _ & _ & _ & _ & _ & Hsave & _).
  split; [exact Hcount | exact Hsave].
Defined.

(** X3.  A successful sell asks the swap for [xocToSell = tradeAmount / p]
    base units and books them at the fetched price: the quote amount added
    to [totalSellAmount] is the product [xocToSell * p] as the code
    computes it, not [tradeAmount] itself.  One SELL record is saved, with
    the same two amounts; the buy side and the failure counter are
    untouched. *)
Theorem buysell_sell_booked (w : world) (s : state) (p : Q) (h : txhash) :
  isRunning s = true ->
  priceAnswer w = inr p ->
  ~ (p <= buyThreshold (config s))%Q ->
  (sellThreshold (config s) <= p)%Q ->
  sellAnswer w = inr h ->
  let o := tick w s in
  let xoc := (tradeAmount (config s) / p)%Q in
  In (SellXOC xoc (inr h)) (trace o) /\
  count is_sell (trace o) = 1 /\
  count is_buy (trace o) = 0 /\
  totalSellCount (stats (final o)) = S (totalSellCount (stats s)) /\
  totalSellAmount (stats (final o)) = (totalSellAmount (stats s) + xoc * p)%Q /\
  totalXOCSold (stats (final o)) = (totalXOCSold (stats s) + xoc)%Q /\
  totalBuyCount (stats (final o)) = totalBuyCount (stats s) /\
  totalBuyAmount (stats (final o)) = totalBuyAmount (stats s) /\
  failedTrades (stats (final o)) = failedTrades (stats s) /\
  count is_save (trace o) = 1 /\
  In (SaveTrade (Trade SELL xoc (xoc * p) p h)) (trace o).
Proof.
  intros Hrun Hprice Hnle Hge Hans. apply Qgeb_true in Hge.
  assert (Hle : Qleb p (buyThreshold (config s)) = false).
  { apply not_true_iff_false. by rewrite Qleb_true. }
  eff_unfold. rewrite Hrun, Hprice. eff_unfold. eff_simpl. rewrite Hle, Hge, Hans.
  eff_unfold. eff_simpl.
  auto 20.
Qed.

Lemma buysell_sell_booked_witness :
  totalSellCount (stats (final (tick (bs_quiet (16 # 100)) (bs_started bs_sample)))) = 1 /\
  count is_save (trace (tick (bs_quiet (16 # 100)) (bs_started bs_sample))) = 1.
Proof.
  assert (Hnle : ~ (16 # 100 <= buyThreshold (config (bs_started bs_sample)))%Q)
    by (vm_compute; intros H; apply H; reflexivity).
  assert (Hge : (sellThreshold (config (bs_started bs_sample)) <= 16 # 100)%Q)
    by (vm_compute; discriminate).
  destruct (buysell_sell_booked (bs_quiet (16 # 100)) (bs_started bs_sample) (16 # 100) "0xs1"
              eq_refl eq_refl Hnle Hge eq_refl)
    as (_ & _ & _ & Hcount & _ & _ & _ & _ & _ & Hsave & _).
  split; [exact Hcount | exact Hsave].
Defined.

(** X4.  When the price cannot be fetched, the tick asks for no swap and
    saves nothing; it counts one failure, writes its own error entry for
    the failed check and leaves the other statistics and the last known
    price as they were. *)
Theorem buysell_price_failure (w : world) (s : state) (e : exn) :
  isRunning s = true ->
  priceAnswer w = inl e ->
  let o := tick w s in
  count is_buy (trace o) = 0 /\ count is_sell (trace o) = 0 /\
  count is_save (trace o) = 0 /\
  In (Log error (BSPriceCheckFailed e)) (trace o) /\
  failedTrades (stats (final o)) = S (failedTrades (stats s)) /\
  totalBuyCount (stats (final o)) = totalBuyCount (stats s) /\
  totalSellCount (stats (final o)) = totalSellCount (stats s) /\
  totalBuyAmount (stats (final o)) = totalBuyAmount (stats s) /\
  totalSellAmount (stats (final o)) = totalSellAmount (stats s) /\
  lastPrice (final o) = lastPrice s /\
  lastTradeTime (final o) = lastTradeTime s.
Proof.
  intros Hrun Hprice.
  eff_unfold. rewrite Hrun, Hprice. eff_unfold. eff_simpl.
  repeat split; auto.
Qed.

Lemma buysell_price_failure_witness :
  failedTrades
    (stats (final (tick (World (inl (External "timeout")) (inr "0xb1") (inr "0xs1") 0%Z)
                        (bs_started bs_sample)))) = 1.
Proof.
  destruct (buysell_price_failure
              (World (inl (External "timeout")) (inr "0xb1") (inr "0xs1") 0%Z)
              (bs_started bs_sample) (External "timeout") eq_refl eq_refl)
    as (_ & _ & _ & _ & Hfailed & _).
  exact Hfailed.
Defined.

(** What one tick does to the counters, read off its trace. *)
Lemma tick_accounting (w : world) (s : state) :
  let o := tick w s in
  result o = inl tt /\
  config (final o) = config s /\
  totalBuyCount (stats (final o)) = totalBuyCount (stats s) + count is_buy_ok (trace o) /\
  totalSellCount (stats (final o)) = totalSellCount (stats s) + count is_sell_ok (trace o) /\
  failedTrades (stats (final o)) = failedTrades (stats s) + count is_failure (trace o) /\
  count is_save (trace o) = count is_buy_ok (trace o) + count is_sell_ok (trace o).
Proof.
  eff_unfold. destruct (isRunning s) eqn:Hrun; eff_unfold; eff_simpl.
  2: { repeat split; first [reflexivity | lia]. }
  eff_cases; repeat split; first [reflexivity | lia].
Qed.

Lemma buysell_run_cons (w : world) (ws : list world) (s : state) :
  run (w :: ws) s =
  let o := tick w s in
  let o' := run ws (final o) in
  Outcome (final o') (trace o ++ trace o') (result o').
Proof.
  cbn [run]. unfold mbind, eff_mbind, eff_bind.
  destruct (tick_accounting w s) as [Hres _]. cbn zeta in *.
  destruct (tick w s) as [s1 tr1 r1]. cbn [result] in Hres. subst r1.
  cbn [final trace]. by destruct (run ws s1).
Qed.

(** X5.  Over any sequence of ticks the counters are an exact account of
    the trace: [totalBuyCount] and [totalSellCount] grow by the numbers of
    accepted buys and sells, [failedTrades] by the number of rejected calls
    (price fetches and swaps alike), and one trade record is saved per
    accepted swap and none otherwise. *)
Theorem buysell_run_accounting (ws : list world) (s : state) :
  let o := run ws s in
  result o = inl tt /\
  totalBuyCount (stats (final o)) = totalBuyCount (stats s) + count is_buy_ok (trace o) /\
  totalSellCount (stats (final o)) = totalSellCount (stats s) + count is_sell_ok (trace o) /\
  failedTrades (stats (final o)) = failedTrades (stats s) + count is_failure (trace o) /\
  count is_save (trace o) = count is_buy_ok (trace o) + count is_sell_ok (trace o).
Proof.
  cbn zeta. revert s. induction ws as [|w ws IH]; intros s.
  - cbn [run]. unfold mret, eff_mret, eff_ret. cbn [final trace result count].
    repeat split; first [reflexivity | lia].
  - rewrite buysell_run_cons. cbn zeta. cbn [final trace result]. rewrite !count_app.
    destruct (tick_accounting w s) as (_ & Hcfg & Hb & Hs & Hf & Hsave).
    destruct (IH (final (tick w s))) as (Hres & Hb' & Hs' & Hf' & Hsave').
    split; [exact Hres|].
    repeat split; lia.
Qed.

(** X6.  After [stop()], evaluations that still come in do nothing: they
    call no collaborator, save nothing and leave every field as [stop] left
    it. *)
Theorem buysell_stopped_ticks_idle (reason : string) (ws : list world) (s : state) :
  let s' := final (stop reason s) in
  let o := run ws s' in
  final o = s' /\ result o = inl tt /\
  count is_call (trace o) = 0 /\ count is_save (trace o) = 0.
Proof.
  cbn zeta.
  assert (Hstopped : isRunning (final (stop reason s)) = false).
  { eff_unfold. destruct (timer s); reflexivity. }
  generalize dependent (final (stop reason s)). intros s' Hstopped.
  induction ws as [|w ws IH].
  - cbn. auto.
  - rewrite buysell_run_cons. cbn zeta.
    assert (Htick : tick w s' = Outcome s' [Log warning BSNotRunning] (inl tt)).
    { eff_unfold. rewrite Hstopped. reflexivity. }
    rewrite Htick. cbn [final trace result app count is_call is_save Nat.add].
    exact IH.
Qed.

End BuySell_more.

(** ** DCAStrategy: skipped, failed and late ticks *)

Section DCA_more.

Import DCA.

Ltac eff_unfold :=
  cbv beta iota zeta delta
    [checkAndExecute executeTrade stop start try_catch mbind mret eff_mbind eff_mret
     eff_bind eff_ret emit modify get throw await final trace result].

Ltac eff_simpl :=
  cbn [app count is_buy is_buy_ok is_failure is_call is_save is_first_evaluation
       is_timer_call logged_at level_eqb Nat.add In
       config isRunning totalSpent executedTimes timer set_isRunning set_timer record_buy].

Ltac eff_cases :=
  repeat match goal with
         | |- context [guardPrice ?w] => destruct (guardPrice w) eqn:?; eff_unfold; eff_simpl
         | |- context [tradePrice ?w] => destruct (tradePrice w) eqn:?; eff_unfold; eff_simpl
         | |- context [buyAnswer ?w] => destruct (buyAnswer w) eqn:?; eff_unfold; eff_simpl
         | |- context [match ?t with Some _ => _ | None => _ end] =>
             destruct t eqn:?; eff_unfold; eff_simpl
         | |- context [if ?c then _ else _] => destruct c eqn:?; eff_unfold; eff_simpl
         end.

(** X7.  With a price guard set (a non-zero [maxPrice]) and budget left, a
    tick whose fetched price is above the guard buys nothing: it calls no
    swap, changes no field, logs one warning and leaves the strategy
    running. *)
Theorem dca_price_guard_skips (w : world) (s : state) (m p : Q) :
  maxPrice (config s) = Some m ->
  ~ (m == 0)%Q ->
  (totalSpent s + amount (config s) <= totalBudget (config s))%Q ->
  guardPrice w = inr p ->
  (m < p)%Q ->
  let o := checkAndExecute w s in
  final o = s /\ result o = inl tt /\
  trace o = [GetPrice (inr p); Log warning (DCAPriceAboveMax p)].
Proof.
  intros Hmax Hnz Hbudget Hguard Hlt.
  assert (Hset : maxPrice_set (config s) = Some m).
  { unfold maxPrice_set. rewrite Hmax.
    destruct (Qeq_bool m 0) eqn:Heq; [|reflexivity].
    apply Qeq_bool_iff in Heq. contradiction. }
  apply Qgtb_false in Hbudget. apply Qgtb_true in Hlt.
  eff_unfold. unfold over_budget. rewrite Hbudget, Hset. eff_unfold.
  rewrite Hguard. eff_unfold. rewrite Hlt. eff_unfold. eff_simpl. auto.
Qed.

Lemma dca_price_guard_skips_witness :
  final (checkAndExecute dca_pricey dca_guarded) = dca_guarded /\
  count is_buy (trace (checkAndExecute dca_pricey dca_guarded)) = 0.
Proof.
  assert (Hnz : ~ (12 # 100 == 0)%Q) by (vm_compute; discriminate).
  assert (Hbudget : (totalSpent dca_guarded + amount (config dca_guarded) <=
                     totalBudget (config dca_guarded))%Q) by (vm_compute; discriminate).
  assert (Hlt : (12 # 100 < 15 # 100)%Q) by (vm_compute; reflexivity).
  destruct (dca_price_guard_skips dca_pricey dca_guarded (12 # 100) (15 # 100)
              eq_refl Hnz Hbudget eq_refl Hlt) as (Hfinal & _ & Htrace).
  split; [exact Hfinal|]. rewrite Htrace. reflexivity.
Defined.

(** X8.  A tick in which a collaborator rejects a call (the guard price, the
    trade price or the swap) changes no field at all: nothing is counted
    against the budget, the strategy is not stopped and its timer is not
    cleared.  The tick still returns normally and logs the error. *)
Theorem dca_failed_tick_changes_nothing (w : world) (s : state) :
  let o := checkAndExecute w s in
  1 <= count is_failure (trace o) ->
  final o = s /\ result o = inl tt /\
  count is_buy_ok (trace o) = 0 /\
  1 <= count (logged_at error) (trace o).
Proof.
  eff_unfold. destruct s as [c r sp n t]. eff_simpl.
  eff_cases; intros Hfail; try lia; auto 10.
Qed.

Lemma dca_failed_tick_changes_nothing_witness :
  final (checkAndExecute dca_rejected (new dca_sample)) = new dca_sample /\
  count is_buy_ok (trace (checkAndExecute dca_rejected (new dca_sample))) = 0.
Proof.
  assert (Hfail : 1 <= count is_failure (trace (checkAndExecute dca_rejected (new dca_sample))))
    by (vm_compute; lia).
  destruct (dca_failed_tick_changes_nothing dca_rejected (new dca_sample) Hfail)
    as (Hfinal & _ & Hok & _).
  split; [exact Hfinal | exact Hok].
Defined.






End DCA_more.

(** ** The shared contract: starting and stopping *)

Section Contract_more.

Ltac eff_unfold :=
  cbv beta iota zeta delta
    [strategy_start strategy_stop on_variant strategy_isRunning strategy_timer
     BuySell.start BuySell.stop DCA.start DCA.stop Grid.start Grid.stop
     try_catch mbind mret eff_mbind eff_mret eff_bind eff_ret emit modify get throw
     final trace result].

Ltac eff_simpl :=
  cbn [app count length is_log is_timer_call is_set_interval Nat.add In
       BuySell.isRunning BuySell.timer BuySell.set_isRunning BuySell.set_timer
       BuySell.set_startTime BuySell.config
       DCA.isRunning DCA.timer DCA.set_isRunning DCA.set_timer DCA.config DCA.totalSpent
       DCA.executedTimes
       Grid.isRunning Grid.timer Grid.set_isRunning Grid.set_timer Grid.set_grids
       Grid.set_amountPerGrid Grid.config Grid.grids Grid.amountPerGrid].

(** What [stop()] does, for the three classes: it clears the interval the
    strategy holds, if any, and logs once. *)
Lemma strategy_stop_spec (reason : string) (st : strategy) :
  let o := strategy_stop reason st in
  result o = inl tt /\
  strategy_isRunning (final o) = false /\
  strategy_timer (final o) = None /\
  count is_set_interval (trace o) = 0 /\
  match strategy_timer st with
  | Some h => In (ClearInterval h) (trace o) /\ count is_timer_call (trace o) = 1
  | None => count is_timer_call (trace o) = 0
  end.
Proof.
  destruct st as [s|s|s]; destruct s; eff_unfold; eff_simpl;
    match goal with
    | |- context [match ?t with Some _ => _ | None => _ end] => destruct t
    end;
    eff_unfold; eff_simpl; auto 10.
Qed.

(** What a [start()] that returns has done to a strategy that was not
    running: it has scheduled the interval [h] and holds it; the strategy is
    running, unless it is a [DCAStrategy] whose remaining budget is below
    one [amount]. *)
Lemma strategy_start_spec (h : handle) (t : Z) (st : strategy) :
  strategy_isRunning st = false ->
  let o := strategy_start h t st in
  result o = inl tt ->
  strategy_timer (final o) = Some h /\
  In (SetInterval h) (trace o) /\
  count is_set_interval (trace o) = 1 /\
  (strategy_isRunning (final o) = true \/
   exists s, st = SDCA s /\ DCA.over_budget s = true /\
             strategy_isRunning (final o) = false).
Proof.
  destruct st as [s|s|s]; cbn [strategy_isRunning]; intros Hrun.
  - eff_unfold. rewrite Hrun. eff_simpl. auto 10.
  - eff_unfold. rewrite Hrun.
    destruct (Qgeb _ _); [discriminate|]. eff_simpl.
    destruct (DCA.over_budget (DCA.set_isRunning true s)) eqn:Hover; eff_unfold; eff_simpl.
    + destruct (DCA.timer s) eqn:Ht; eff_unfold; eff_simpl; intros _;
        (do 3 (split; [auto 10|])); right; exists s; auto.
    + auto 10.
  - cbv beta iota zeta delta
      [strategy_start on_variant Grid.start try_catch mbind eff_mbind eff_bind get].
    rewrite Hrun.
    destruct (Rlt_dec (Grid.toFixed2 (Grid.totalInvestment (Grid.config s) /
                                      INR (Grid.gridCount (Grid.config s)))) 1)
      as [Hsmall|Hok].
    + rewrite (initializeGrids_too_small s Hsmall). eff_unfold. discriminate.
    + rewrite (initializeGrids_ok s Hok). eff_unfold. eff_simpl. auto 10.
Qed.

(** X11.  For the three classes, [stop()] after a [start()] that returned
    clears exactly the interval that [start()] scheduled: [start()]
    schedules one interval and holds its handle, and [stop()] makes one
    timer call, [clearInterval] of that handle, and leaves the strategy not
    running with no timer. *)
Theorem start_then_stop_clears_timer (h : handle) (t : Z) (reason : string) (st : strategy) :
  strategy_isRunning st = false ->
  result (strategy_start h t st) = inl tt ->
  let o1 := strategy_start h t st in
  let o2 := strategy_stop reason (final o1) in
  count is_set_interval (trace o1) = 1 /\
  In (SetInterval h) (trace o1) /\
  strategy_timer (final o1) = Some h /\
  result o2 = inl tt /\
  In (ClearInterval h) (trace o2) /\
  count is_timer_call (trace o2) = 1 /\
  strategy_isRunning (final o2) = false /\
  strategy_timer (final o2) = None.
Proof.
  intros Hrun Hres. cbn zeta.
  destruct (strategy_start_spec h t st Hrun Hres) as (Htimer & Hset & Hone & _).
  pose proof (strategy_stop_spec reason (final (strategy_start h t st))) as Hstop.
  cbn zeta in Hstop. rewrite Htimer in Hstop.
  destruct Hstop as (Hres2 & Hrun2 & Htimer2 & _ & Hclear & Hcalls).
  auto 10.
Qed.

Lemma start_then_stop_clears_timer_witness :
  In (ClearInterval 6%positive)
     (trace (strategy_stop "user"
               (final (strategy_start 6%positive 0%Z (SDCA (DCA.new dca_sample)))))).
Proof.
  destruct (start_then_stop_clears_timer 6%positive 0%Z "user" (SDCA (DCA.new dca_sample))
              eq_refl eq_refl) as (_ & _ & _ & _ & Hclear & _).
  exact Hclear.
Defined.

End Contract_more.

(** ** BotRunner: starting, stopping and replacing strategies *)

Section Runner_more.

Import BotRunner.

Ltac eff_unfold :=
  cbv beta iota zeta delta
    [stopStrategy startStrategy registerStrategy registerTimer call try_catch mbind mret
     eff_mbind eff_mret eff_bind eff_ret emit modify get throw final trace result].

Ltac eff_simpl :=
  cbn [app count is_log is_timer_call Nat.add In objects strategies timers
       set_objects set_strategies set_timers].

(** X12.  [stopStrategy(id)] stops the registered strategy itself: the
    object is afterwards not running and holds no timer, the interval it
    held and the statistics timer registered for the id are both cleared,
    the stop is logged, and no other object is touched. *)
Theorem runner_stop_stops_strategy
    (botId reason : string) (r : state) (p : ref) (st : strategy) :
  strategies r !! botId = Some p ->
  objects r !! p = Some st ->
  let o := stopStrategy botId reason r in
  objects (final o) !! p = Some (final (strategy_stop reason st)) /\
  strategy_isRunning (final (strategy_stop reason st)) = false /\
  strategy_timer (final (strategy_stop reason st)) = None /\
  In (SysLog info (RunnerStopped botId reason)) (trace o) /\
  (forall h, strategy_timer st = Some h -> In (ClearInterval h) (trace o)) /\
  (forall t, timers r !! botId = Some t -> In (ClearInterval t) (trace o)) /\
  (forall q, q <> p -> objects (final o) !! q = objects r !! q).
Proof.
  intros Hp Hst.
  pose proof (strategy_stop_spec reason st) as Hstop. cbn zeta in Hstop.
  destruct Hstop as (Hres & Hrun & Htimer & _ & Hclear).
  destruct r as [objs strats tims]. cbn [strategies objects timers] in *.
  eff_unfold. eff_simpl. rewrite Hp. eff_unfold. eff_simpl. rewrite Hst.
  eff_unfold. eff_simpl. rewrite Hst.
  destruct (strategy_stop reason st) as [st' tr' res'].
  cbn [result final trace] in *. subst res'. eff_simpl.
  assert (Hown : forall h tr, strategy_timer st = Some h ->
                          In (ClearInterval h) ((tr' ++ tr))).
  { intros h tr Hh. rewrite Hh in Hclear. destruct Hclear as [Hin _].
    apply in_or_app. left. exact Hin. }
  destruct (tims !! botId) as [t0|] eqn:Ht; eff_unfold; eff_simpl;
    (split; [apply lookup_insert_eq|]); (split; [exact Hrun|]); (split; [exact Htimer|]);
    rewrite <- ?app_assoc;
    (split; [rewrite !in_app_iff; cbn [In]; auto 10|]);
    (split; [intros h Hh; by apply Hown|]);
    (split; [intros t; rewrite !in_app_iff; cbn [In]; intros [= <-]; auto 10 |]);
    intros q Hq; by apply lookup_insert_ne.
Qed.

Lemma runner_stop_stops_strategy_witness :
  In (ClearInterval 1%positive) (trace (stopStrategy "bot-1" "user" runner_sample)) /\
  In (ClearInterval 9%positive) (trace (stopStrategy "bot-1" "user" runner_sample)).
Proof.
  destruct (runner_stop_stops_strategy "bot-1" "user" runner_sample 1
              (SBuySell (bs_started bs_sample)) eq_refl eq_refl)
    as (_ & _ & _ & _ & Hown & Hstats & _).
  split; [exact (Hown 1%positive eq_refl) | exact (Hstats 9%positive eq_refl)].
Defined.

(** X13.  [startStrategy(id)] never changes the two maps.  For an id that
    holds no strategy it does nothing and returns [false].  Otherwise it
    calls [start()] on the object: when that returns, the runner logs the
    start and returns [true]; when that throws, the error reaches the
    caller as it is, the runner logs nothing of its own, and the id stays
    registered. *)
Theorem runner_start_propagates (botId : string) (h : handle) (t : Z) (r : state) :
  let o := startStrategy botId h t r in
  strategies (final o) = strategies r /\
  timers (final o) = timers r /\
  match getStrategy botId r with
  | None => final o = r /\ trace o = [] /\ result o = inl false
  | Some st =>
      let o' := strategy_start h t st in
      getStrategy botId (final o) = Some (final o') /\
      match result o' with
      | inl _ => result o = inl true /\
                 trace o = trace o' ++ [SysLog info (RunnerStarted botId)]
      | inr e => result o = inr e /\ trace o = trace o'
      end
  end.
Proof.
  destruct r as [objs strats tims]. unfold getStrategy.
  eff_unfold. eff_simpl.
  destruct (strats !! botId) as [p|] eqn:Hp; cbn [mbind option_bind];
    [|eff_unfold; auto].
  destruct (objs !! p) as [st|] eqn:Hst; eff_unfold; eff_simpl; [|auto].
  rewrite Hst.
  destruct (strategy_start h t st) as [st' tr' [[]|e]]; eff_simpl;
    rewrite Hp; cbn [mbind option_bind]; rewrite lookup_insert_eq;
    rewrite ?app_nil_r; auto.
Qed.

(** X14.  Registering a second strategy under an id that is taken replaces
    the entry without stopping the strategy that was there: a later
    [stopStrategy(id)] stops the new object, and the replaced one is left
    exactly as it was, with its running flag and its timer. *)
Theorem runner_replaced_strategy_keeps_running
    (botId reason : string) (r : state) (p1 p2 : ref) (st1 : strategy) :
  strategies r !! botId = Some p1 ->
  objects r !! p1 = Some st1 ->
  p1 <> p2 ->
  let o1 := registerStrategy botId p2 r in
  let o2 := stopStrategy botId reason (final o1) in
  result o1 = inl tt /\
  count is_timer_call (trace o1) = 0 /\
  getStrategy botId (final o1) = objects r !! p2 /\
  objects (final o1) !! p1 = Some st1 /\
  objects (final o2) !! p1 = Some st1 /\
  strategies (final o2) !! botId = None.
Proof.
  intros Hp1 Hst1 Hne.
  destruct r as [objs strats tims]. cbn [strategies objects timers] in *.
  unfold getStrategy. eff_unfold. eff_simpl. rewrite lookup_insert_eq.
  cbn [mbind option_bind]. eff_unfold. eff_simpl.
  destruct (objs !! p2) as [st2|] eqn:Hst2; eff_unfold; eff_simpl.
  - rewrite Hst2. pose proof (strategy_stop_returns reason st2) as Hres.
    destruct (strategy_stop reason st2) as [st' tr' res']. cbn [result] in Hres.
    subst res'. eff_simpl.
    destruct (tims !! botId); eff_unfold; eff_simpl;
      rewrite ?lookup_delete_eq, ?lookup_insert_ne by done; auto 10.
  - destruct (tims !! botId); eff_unfold; eff_simpl;
      rewrite ?lookup_delete_eq; auto 10.
Qed.

Lemma runner_replaced_strategy_keeps_running_witness :
  objects (final (stopStrategy "bot-1" "user"
                    (final (registerStrategy "bot-1" 2 runner_two))))
    !! 1 = Some (SBuySell (bs_started bs_sample)) /\
  strategy_isRunning (SBuySell (bs_started bs_sample)) = true.
Proof.
  assert (Hne : 1 <> 2) by discriminate.
  assert (Hp : strategies runner_two !! "bot-1" = Some 1) by (vm_compute; reflexivity).
  assert (Hst : objects runner_two !! 1 = Some (SBuySell (bs_started bs_sample)))
    by (vm_compute; reflexivity).
  destruct (runner_replaced_strategy_keeps_running "bot-1" "user" runner_two 1 2
              (SBuySell (bs_started bs_sample)) Hp Hst Hne)
    as (_ & _ & _ & _ & Hkept & _).
  split; [exact Hkept | reflexivity].
Defined.




End Runner_more.

(** ** BuySellStrategy: what it reports *)

Section Report_facts.

Import BuySell BuySellReport.

(** X16.  For a strategy started at [t0] and asked at a later instant [t],
    [getRunningTime] is the number of whole seconds elapsed, and the three
    numbers [formatTime] prints decompose it exactly: hours, minutes below
    60 and seconds below 60. *)
Theorem running_time_display (t t0 : Z) (s : state) :
  startTime s = Some t0 ->
  (0 < t0 <= t)%Z ->
  let seconds := getRunningTime t s in
  (1000 * seconds <= t - t0 < 1000 * seconds + 1000)%Z /\
  (0 <= (time_parts seconds).1.1)%Z /\
  (0 <= (time_parts seconds).1.2 < 60)%Z /\
  (0 <= (time_parts seconds).2 < 60)%Z /\
  ((time_parts seconds).1.1 * 3600 + (time_parts seconds).1.2 * 60 +
   (time_parts seconds).2 = seconds)%Z.
Proof.
  intros Hstart [Hpos Hle]. unfold getRunningTime. rewrite Hstart.
  destruct (t0 =? 0)%Z eqn:Hz; [apply Z.eqb_eq in Hz; lia|]. cbn zeta.
  assert (Hsec : (0 <= (t - t0) / 1000)%Z) by (apply Z.div_pos; lia).
  split; [pose proof (Z.div_mod (t - t0) 1000); pose proof (Z.mod_pos_bound (t - t0) 1000); lia|].
  generalize dependent ((t - t0) / 1000)%Z. intros seconds Hsec.
  unfold time_parts. cbn [fst snd].
  rewrite !Z.rem_mod_nonneg by lia.
  pose proof (Z.div_mod seconds 3600).
  pose proof (Z.mod_pos_bound seconds 3600).
  pose proof (Z.div_mod (seconds mod 3600) 60).
  pose proof (Z.mod_pos_bound (seconds mod 3600) 60).
  assert (Hmod : (seconds mod 60 = (seconds mod 3600) mod 60)%Z).
  { symmetry. apply Z.mod_mod_divide. exists 60%Z. reflexivity. }
  assert (0 <= seconds / 3600)%Z by (apply Z.div_pos; lia).
  assert (0 <= seconds mod 3600 / 60 < 60)%Z.
  { split; [apply Z.div_pos; lia | apply Z.div_lt_upper_bound; lia]. }
  rewrite Hmod. lia.
Qed.

Lemma running_time_display_witness :
  getRunningTime 3726500 (set_startTime (Some 1000%Z) (new bs_sample)) = 3725%Z /\
  time_parts 3725 = (1, 2, 5)%Z.
Proof.
  assert (Hle : (0 < 1000 <= 3726500)%Z) by lia.
  destruct (running_time_display 3726500 1000 (set_startTime (Some 1000%Z) (new bs_sample))
              eq_refl Hle) as (_ & _ & _ & _ & Hsum).
  split; reflexivity.
Defined.

(** X17.  The success rate of [getStats] is taken against the completed
    trades only: the failures are subtracted from, and divided by, the
    number of successful buys and sells.  With at least one completed trade
    the rate is printed as a text; the number behind it is 100 exactly when
    nothing failed and below 100 otherwise, 0 exactly when there are as many
    failures as completed trades, and negative exactly when the failures
    outnumber them. *)
Theorem success_rate_counts_failures (t : Z) (s : state) :
  let st := stats s in
  let total := totalBuyCount st + totalSellCount st in
  0 < total ->
  (exists txt : string, successRate (getStats t s) = inl txt) /\
  (successRatio st <= 100)%Q /\
  ((successRatio st == 100)%Q <-> failedTrades st = 0) /\
  ((successRatio st == 0)%Q <-> failedTrades st = total) /\
  ((successRatio st < 0)%Q <-> total < failedTrades st).
Proof.
  intros st total Hpos.
  assert (HT : (0 < inject_Z (Z.of_nat total))%Q).
  { change 0%Q with (inject_Z 0). rewrite <- Zlt_Qlt. lia. }
  split.
  { unfold getStats. cbn [successRate]. fold st. fold total.
    destruct (0 <? total) eqn:Hlt; [eauto|]. apply Nat.ltb_ge in Hlt. lia. }
  unfold successRatio. fold total.
  assert (Hzero : (inject_Z (Z.of_nat (failedTrades st)) == 0)%Q <-> failedTrades st = 0).
  { change 0%Q with (inject_Z 0). rewrite inject_Z_injective. lia. }
  assert (Hsame : (inject_Z (Z.of_nat (failedTrades st)) == inject_Z (Z.of_nat total))%Q <->
                  failedTrades st = total).
  { rewrite inject_Z_injective. lia. }
  assert (Hmore : (inject_Z (Z.of_nat total) < inject_Z (Z.of_nat (failedTrades st)))%Q <->
                  total < failedTrades st).
  { rewrite <- Zlt_Qlt. lia. }
  assert (HF : (0 <= inject_Z (Z.of_nat (failedTrades st)))%Q).
  { change 0%Q with (inject_Z 0). rewrite <- Zle_Qle. lia. }
  rewrite <- Hzero, <- Hsame, <- Hmore. clear Hzero Hsame Hmore.
  set (T := inject_Z (Z.of_nat total)) in *.
  set (F := inject_Z (Z.of_nat (failedTrades st))) in *.
  clearbody T F.
  assert (Hnz : ~ (T == 0)%Q) by (apply Qnot_eq_sym, Qlt_not_eq; exact HT).
  assert (Hratio : ((T - F) / T * 100 == 100 - 100 * (F / T))%Q) by (field; exact Hnz).
  assert (Hback : (F / T * T == F)%Q) by (field; exact Hnz).
  rewrite Hratio. set (q := (F / T)%Q) in *. clearbody q.
  assert (Hle : forall c : Q, (q <= c)%Q <-> (F <= c * T)%Q).
  { intros c. rewrite <- Hback. symmetry. apply Qmult_le_r. exact HT. }
  assert (Hlt : forall c : Q, (c < q)%Q <-> (c * T < F)%Q).
  { intros c. rewrite <- Hback. symmetry. apply Qmult_lt_r. exact HT. }
  assert (Hq0 : (0 <= q)%Q).
  { apply Qnot_lt_le. intros Hneg.
    assert (H : (q * T < 0 * T)%Q) by (apply Qmult_lt_r; assumption).
    rewrite Hback in H. Lqa.lra. }
  split; [Lqa.lra|]. split; [|split].
  - split; intros H.
    + assert (H0 : (q <= 0)%Q) by Lqa.lra. apply Hle in H0. Lqa.lra.
    + assert (H0 : (q <= 0)%Q) by (apply Hle; Lqa.lra). Lqa.lra.
  - assert (Hge : (1 <= q)%Q <-> (1 * T <= F)%Q).
    { rewrite <- Hback. symmetry. apply Qmult_le_r. exact HT. }
    split; intros H.
    + assert (H1 : (q <= 1)%Q) by Lqa.lra. apply Hle in H1.
      assert (H2 : (1 <= q)%Q) by Lqa.lra. apply Hge in H2. Lqa.lra.
    + assert (H1 : (q <= 1)%Q) by (apply Hle; Lqa.lra).
      assert (H2 : (1 <= q)%Q) by (apply Hge; Lqa.lra). Lqa.lra.
  - split; intros H.
    + assert (H1 : (1 < q)%Q) by Lqa.lra. apply Hlt in H1. Lqa.lra.
    + assert (H1 : (1 < q)%Q) by (apply Hlt; Lqa.lra). Lqa.lra.
Qed.

Lemma success_rate_counts_failures_witness :
  (successRatio (stats (set_stats (fun _ => bs_unlucky) (new bs_sample))) < 0)%Q.
Proof.
  assert (Hpos : 0 < totalBuyCount (stats (set_stats (fun _ => bs_unlucky) (new bs_sample))) +
                     totalSellCount (stats (set_stats (fun _ => bs_unlucky) (new bs_sample))))
    by (cbn; lia).
  destruct (success_rate_counts_failures 0 (set_stats (fun _ => bs_unlucky) (new bs_sample))
              Hpos) as (_ & _ & _ & _ & Hneg).
  apply Hneg. cbn. lia.
Defined.

End Report_facts.

(** ** The log store and the trade history *)

Section Store_facts.

Import Logger.

Lemma MAX_LOGS_pos : 1 <= MAX_LOGS.
Proof. unfold MAX_LOGS. lia. Qed.

(** X18.  Retention of the log store.  When the write is accepted, a call
    of [addLogInternal] leaves on its channel the earlier entries in their
    order, less the oldest ones beyond the cap, followed by the new entry:
    the channel holds [min (n + 1) MAX_LOGS] entries after a call that found
    [n], the newest is last, and the other channel is untouched.  A stored
    text that does not parse counts as no entry. *)
Theorem log_retention (w : world) (lv : level) (msg : string) (d : option string)
    (ty : log_type) (silent : bool) (ls : gmap string (item (list log))) :
  writable w = true ->
  let r := addLogInternal w lv msg d ty silent ls in
  let entry := r.1.1 in
  let ls' := r.1.2 in
  let old := getLogs ty ls in
  let other := match ty with TRADE => SYSTEM | SYSTEM => TRADE end in
  getLogs ty ls' = drop (length old + 1 - MAX_LOGS) old ++ [entry] /\
  length (getLogs ty ls') = min (length old + 1) MAX_LOGS /\
  last (getLogs ty ls') = Some entry /\
  getLogs other ls' = getLogs other ls /\
  lvl entry = lv /\ type entry = ty /\ text entry = msg /\ timestamp entry = now w.
Proof.
  intros Hw. cbn zeta. pose proof MAX_LOGS_pos as Hmax.
  unfold addLogInternal, saveToStorage. rewrite Hw. cbn [fst snd].
  set (entry := Entry _ _ _ _ _ _).
  assert (Hnew : forall old,
             (if MAX_LOGS <? length (old ++ [entry])
              then drop (length (old ++ [entry]) - MAX_LOGS) (old ++ [entry])
              else old ++ [entry]) =
             drop (length old + 1 - MAX_LOGS) old ++ [entry]).
  { intros old. rewrite length_app. cbn [length].
    destruct (MAX_LOGS <? length old + 1) eqn:Hlt.
    - apply Nat.ltb_lt in Hlt. rewrite drop_app_le by lia. reflexivity.
    - apply Nat.ltb_ge in Hlt.
      replace (length old + 1 - MAX_LOGS) with 0 by lia. reflexivity. }
  assert (Hget : forall k (v : list log) (m : gmap string (item (list log))),
             getFromStorage k [] (<[k := Json v]> m) = v).
  { intros k v m. unfold getFromStorage. by rewrite lookup_insert_eq. }
  assert (Hother : forall k k' (v : list log) (m : gmap string (item (list log))),
             k <> k' -> getFromStorage k' [] (<[k := Json v]> m) = getFromStorage k' [] m).
  { intros k k' v m Hne. unfold getFromStorage. by rewrite lookup_insert_ne. }
  destruct ty; cbn [getLogs]; rewrite Hget, Hnew, Hother by discriminate;
    (split; [reflexivity|]);
    (split; [rewrite length_app, length_drop; cbn [length]; lia|]);
    (split; [apply last_snoc|]);
    (split; [reflexivity|]);
    auto.
Qed.

Lemma log_retention_witness :
  length (getLogs TRADE (addLogInternal (World 5 (1 # 2) true) info "tick" None TRADE true
                           (<[TRADE_LOG_KEY := Garbage]> ∅)).1.2) = 1.
Proof.
  destruct (log_retention (World 5 (1 # 2) true) info "tick" None TRADE true
              (<[TRADE_LOG_KEY := Garbage]> ∅) eq_refl) as (_ & Hlen & _).
  rewrite Hlen. vm_compute. reflexivity.
Defined.

(** X19.  A log call whose write is refused (quota exceeded) still returns
    its entry and leaves the store exactly as it was: the entry is lost
    without an error reaching the caller. *)
Theorem log_lost_when_store_full (w : world) (lv : level) (msg : string)
    (d : option string) (ty : log_type) (silent : bool)
    (ls : gmap string (item (list log))) :
  writable w = false ->
  let r := addLogInternal w lv msg d ty silent ls in
  r.1.2 = ls /\ text r.1.1 = msg /\ lvl r.1.1 = lv /\
  r.2 = (if silent then None
         else Some match lv with
                   | error => console_error
                   | warning => console_warn
                   | _ => console_log
                   end).
Proof.
  intros Hw. unfold addLogInternal, saveToStorage. rewrite Hw. cbn. auto.
Qed.

Lemma log_lost_when_store_full_witness :
  (addLogInternal (World 5 (1 # 2) false) error "failed" None TRADE false ∅).1.2 = ∅.
Proof.
  destruct (log_lost_when_store_full (World 5 (1 # 2) false) error "failed" None TRADE false
              ∅ eq_refl) as (Hsame & _).
  exact Hsame.
Defined.

(** X20.  The trade history is append-only and unbounded: trades saved one
    after the other (writes accepted) leave the earlier records in their
    order, followed by one record per saved trade, in the order of the
    calls, each stamped with the instant of its call. *)
Theorem trades_append_only (stamped : list (Z * trade))
    (ls : gmap string (item (list Storage.stored_trade))) :
  Storage.getTrades (saveTrades stamped ls) =
  Storage.getTrades ls ++ map (fun '(t, td) => Storage.Stored td t t) stamped.
Proof.
  revert ls. induction stamped as [|[t td] rest IH]; intros ls.
  - cbn. by rewrite app_nil_r.
  - cbn [saveTrades map]. rewrite IH.
    unfold Storage.saveTrade, saveToStorage. cbn [snd].
    unfold Storage.getTrades at 1, getFromStorage at 1.
    rewrite lookup_insert_eq. by rewrite <- app_assoc.
Qed.

End Store_facts.

(** ** GridStrategy: the tick *)

Section Grid_ticks.

Import Grid GridStrategy.
Local Open Scope R_scope.

Lemma set_grids_same (s : state) : set_grids (grids s) s = s.
Proof. by destruct s. Qed.

Lemma set_grids_twice (a b : list grid) (s : state) :
  set_grids a (set_grids b s) = set_grids a s.
Proof. by destruct s. Qed.

(** The buy test of iteration [i], on a list that has a level [i]. *)
Lemma buy_check_eq (w : world) (i : nat) (s : state) (g : grid) :
  grids s !! i = Some g ->
  buy_check w i s =
  (set_grids (<[i := (buy_part w (currentPrice s) i g).1]> (grids s)) s,
   (buy_part w (currentPrice s) i g).2).
Proof.
  intros Hg. unfold buy_check, buy_part. rewrite Hg.
  destruct (Rle_dec (currentPrice s) (price g)); [destruct (status g)|];
    try (cbn [fst snd skip]; rewrite (list_insert_id _ _ _ Hg), set_grids_same; reflexivity).
  unfold executeBuy, on_level. rewrite Hg. by destruct (buying w i g).
Qed.

(** The sell test of iteration [j + 1]. *)
Lemma sell_check_eq (w : world) (j : nat) (s : state) (g prevGrid : grid) :
  grids s !! S j = Some g -> grids s !! j = Some prevGrid ->
  sell_check w (S j) s =
  (set_grids (<[j := (sell_part w (currentPrice s) (price g) j prevGrid).1]> (grids s)) s,
   (sell_part w (currentPrice s) (price g) j prevGrid).2).
Proof.
  intros Hg Hprev. unfold sell_check, sell_part. rewrite Hg, Hprev.
  destruct (Rge_dec (currentPrice s) (price g)); [destruct (status prevGrid)|];
    try (cbn [fst snd skip]; rewrite (list_insert_id _ _ _ Hprev), set_grids_same; reflexivity).
  unfold executeSell, on_level. rewrite Hprev. by destruct (selling w j prevGrid).
Qed.

Lemma buy_part_price (w : world) (p : R) (i : nat) (g : grid) :
  price (buy_part w p i g).1 = price g.
Proof.
  unfold buy_part, buying.
  destruct (Rle_dec p (price g)); [destruct (status g)|]; try reflexivity.
  by destruct (buyAnswer w i).
Qed.

Lemma buy_part_forward (w : world) (p : R) (i : nat) (g : grid) :
  forward g (buy_part w p i g).1 /\ (status g = bought -> (buy_part w p i g).1 = g).
Proof.
  unfold forward, buy_part, buying.
  destruct (Rle_dec p (price g)); [destruct (status g) eqn:Hst|]; cbn [fst]; auto.
  destruct (buyAnswer w i); cbn; repeat split; auto; congruence.
Qed.

Lemma sell_part_forward (w : world) (p up : R) (j : nat) (g : grid) :
  forward g (sell_part w p up j g).1.
Proof.
  unfold forward, sell_part, selling.
  destruct (Rge_dec p up); [destruct (status g) eqn:Hst|]; cbn [fst]; auto.
  destruct (sellAnswer w j); cbn; repeat split; auto; congruence.
Qed.

Lemma forward_refl (g : grid) : forward g g.
Proof. unfold forward. auto. Qed.

Lemma forward_trans (a b c : grid) : forward a b -> forward b c -> forward a c.
Proof.
  unfold forward. intros (Hp & Ha & Hs & Hf) (Hp' & Ha' & Hs' & Hf').
  repeat split; [congruence | congruence | |].
  - intros H. specialize (Hs H). subst b. auto.
  - intros H. specialize (Hf' H). subst c. auto.
Qed.

(** The only timeout the sell test sets is that of the level it sold. *)
Lemma sell_part_timeouts (w : world) (p up : R) (j i : nat) (g : grid) :
  SetTimeout i ∈ (sell_part w p up j g).2 -> i = j.
Proof.
  unfold sell_part, selling.
  destruct (Rge_dec p up); [destruct (status g)|]; cbn [snd];
    try (intros H; by apply elem_of_nil in H).
  destruct (sellAnswer w j); cbn [snd]; rewrite !elem_of_cons, elem_of_nil;
    intros H; repeat (destruct H as [H|H]; try discriminate); try contradiction.
  by injection H.
Qed.

Lemma buy_part_timeouts (w : world) (p : R) (j i : nat) (g : grid) :
  ~ SetTimeout i ∈ (buy_part w p j g).2.
Proof.
  unfold buy_part, buying.
  destruct (Rle_dec p (price g)); [destruct (status g)|]; cbn [snd];
    try apply not_elem_of_nil.
  destruct (buyAnswer w j); cbn [snd]; rewrite !elem_of_cons, elem_of_nil;
    intros H; repeat (destruct H as [H|H]; try discriminate); contradiction.
Qed.

(** One iteration, whatever the prices: the instance it leaves. *)
Lemma visit_eq (w : world) (i : nat) (s : state) (g : grid) :
  grids s !! i = Some g ->
  let p := currentPrice s in
  let b := (buy_part w p i g).1 in
  and_then (buy_check w i) (sell_check w i) s =
  match i with
  | O => (set_grids (<[i := b]> (grids s)) s, (buy_part w p i g).2)
  | S j =>
      match grids s !! j with
      | Some prevGrid =>
          (set_grids (<[j := (sell_part w p (price g) j prevGrid).1]> (<[i := b]> (grids s))) s,
           (buy_part w p i g).2 ++ (sell_part w p (price g) j prevGrid).2)
      | None => (set_grids (<[i := b]> (grids s)) s, (buy_part w p i g).2)
      end
  end.
Proof.
  intros Hg p b. unfold and_then. rewrite (buy_check_eq w i s g Hg). fold p. fold b.
  assert (Hi : (i < length (grids s))%nat) by (apply lookup_lt_is_Some; eauto).
  destruct i as [|j].
  { cbn [sell_check skip]. by rewrite app_nil_r. }
  destruct (grids s !! j) as [prevGrid|] eqn:Hprev.
  - assert (Hb : grids (set_grids (<[S j := b]> (grids s)) s) !! S j = Some b).
    { destruct s; cbn. by apply list_lookup_insert_eq. }
    assert (Hp : grids (set_grids (<[S j := b]> (grids s)) s) !! j = Some prevGrid).
    { destruct s; cbn. rewrite list_lookup_insert_ne by lia. exact Hprev. }
    rewrite (sell_check_eq w j _ b prevGrid Hb Hp).
    assert (Hcp : currentPrice (set_grids (<[S j := b]> (grids s)) s) = p) by (by destruct s).
    assert (Hpb : price b = price g) by apply buy_part_price.
    rewrite Hcp, Hpb, set_grids_twice.
    assert (Hgr : grids (set_grids (<[S j := b]> (grids s)) s) = <[S j := b]> (grids s))
      by (by destruct s).
    rewrite Hgr. reflexivity.
  - apply lookup_ge_None in Hprev. lia.
Qed.

Lemma steady_trans (s s1 s2 : state) (tr1 tr2 : list effect) :
  steady s s1 tr1 -> steady s1 s2 tr2 -> steady s s2 (tr1 ++ tr2).
Proof.
  intros (Hc & Hr & Ht & Ha & Hp & Hlen & Hlv & Hto)
         (Hc' & Hr' & Ht' & Ha' & Hp' & Hlen' & Hlv' & Hto').
  unfold steady. repeat (split; [congruence|]). split.
  - intros j g Hg. destruct (Hlv j g Hg) as (g1 & Hg1 & Hf1 & Htop1).
    destruct (Hlv' j g1 Hg1) as (g2 & Hg2 & Hf2 & Htop2).
    exists g2. split; [exact Hg2|]. split; [by eapply forward_trans|].
    intros Hj Hst. specialize (Htop1 Hj Hst). subst g1.
    apply Htop2; [congruence | exact Hst].
  - intros i. rewrite elem_of_app. intros [H|H]; [by apply Hto|].
    rewrite <- Hlen. by apply Hto'.
Qed.

Lemma steady_refl (s : state) : steady s s [].
Proof.
  unfold steady. repeat (split; [reflexivity|]). split.
  - intros j g Hg. exists g. split; [exact Hg|]. split; [apply forward_refl | auto].
  - intros i H. by apply elem_of_nil in H.
Qed.

(** One iteration keeps the instance steady. *)
Lemma visit_steady (w : world) (i : nat) (s : state) :
  (i < length (grids s))%nat ->
  steady s (and_then (buy_check w i) (sell_check w i) s).1
           (and_then (buy_check w i) (sell_check w i) s).2.
Proof.
  intros Hi. destruct (lookup_lt_is_Some_2 _ _ Hi) as [g Hg].
  pose proof (visit_eq w i s g Hg) as Heq. cbv zeta in Heq.
  destruct (buy_part_forward w (currentPrice s) i g) as [Hfb Htopb].
  set (b := (buy_part w (currentPrice s) i g).1) in *.
  assert (Hbuy : steady s (set_grids (<[i := b]> (grids s)) s)
                        (buy_part w (currentPrice s) i g).2).
  { unfold steady. destruct s as [c r gs cp t a]; cbn in *.
    repeat (split; [reflexivity|]). split; [by rewrite length_insert|]. split.
    - intros j g0 Hg0. destruct (decide (i = j)) as [->|Hne].
      + rewrite list_lookup_insert_eq by exact Hi. exists b.
        assert (g0 = g) by congruence. subst g0. auto.
      + rewrite list_lookup_insert_ne by exact Hne. exists g0.
        split; [exact Hg0|]. split; [apply forward_refl | auto].
    - intros i0 H. by apply buy_part_timeouts in H. }
  destruct i as [|j]; [rewrite Heq; exact Hbuy|].
  destruct (grids s !! j) as [prevGrid|] eqn:Hprev; [|rewrite Heq; exact Hbuy].
  rewrite Heq. cbn [fst snd].
  pose proof (sell_part_forward w (currentPrice s) (price g) j prevGrid) as Hfs.
  set (sl := (sell_part w (currentPrice s) (price g) j prevGrid).1) in *.
  unfold steady. destruct s as [c r gs cp t a]; cbn in *.
  repeat (split; [reflexivity|]). split; [by rewrite !length_insert|]. split.
  - intros x g0 Hg0. destruct (decide (j = x)) as [->|Hne].
    + rewrite list_lookup_insert_eq by (rewrite length_insert; lia). exists sl.
      assert (g0 = prevGrid) by congruence. subst g0.
      split; [reflexivity|]. split; [exact Hfs | lia].
    + rewrite list_lookup_insert_ne by exact Hne.
      destruct (decide (S j = x)) as [<-|Hne'].
      * rewrite list_lookup_insert_eq by exact Hi. exists b.
        assert (g0 = g) by congruence. subst g0. auto.
      * rewrite list_lookup_insert_ne by exact Hne'. exists g0.
        split; [exact Hg0|]. split; [apply forward_refl | auto].
  - intros i0. rewrite elem_of_app. intros [H|H].
    + by apply buy_part_timeouts in H.
    + apply sell_part_timeouts in H. subst i0. exact Hi.
Qed.

Lemma loop_cons (w : world) (i : nat) (l : list nat) (s : state) :
  loop w (i :: l) s =
  match and_then (buy_check w i) (sell_check w i) s with
  | (s1, tr1) =>
      match loop w l s1 with
      | (s2, tr2) => (s2, tr1 ++ tr2)
      end
  end.
Proof. reflexivity. Qed.

(** The loop keeps the instance steady. *)
Lemma loop_steady (w : world) (l : list nat) (s : state) :
  (forall i : nat, i ∈ l -> (i < length (grids s))%nat) ->
  steady s (loop w l s).1 (loop w l s).2.
Proof.
  revert s. induction l as [|i l IH]; intros s Hl.
  - cbn [loop skip fst snd]. apply steady_refl.
  - rewrite loop_cons.
    assert (Hi : (i < length (grids s))%nat) by (apply Hl; left).
    pose proof (visit_steady w i s Hi) as Hv.
    destruct (and_then (buy_check w i) (sell_check w i) s) as [s1 tr1]. cbn [fst snd] in Hv.
    assert (Hl1 : forall x : nat, x ∈ l -> (x < length (grids s1))%nat).
    { intros x Hx. destruct Hv as (_ & _ & _ & _ & _ & Hlen & _). rewrite Hlen.
      apply Hl. by right. }
    specialize (IH s1 Hl1).
    destruct (loop w l s1) as [s2 tr2]. cbn [fst snd] in *.
    by eapply steady_trans.
Qed.

(** A tick that gets a price: the loop ran from the instance with that
    price recorded. *)
Lemma checkAndTrade_priced (w : world) (s : state) (p : R) :
  priceAnswer w = inr p ->
  exists tr : list effect,
    (checkAndTrade w s).2 = GetWXOCPrice (inr p) :: tr /\
    steady (set_currentPrice p s) (checkAndTrade w s).1 tr.
Proof.
  intros Hp. unfold checkAndTrade. rewrite Hp.
  assert (Hl : forall i : nat, i ∈ seq 0 (length (grids s)) ->
                 (i < length (grids (set_currentPrice p s)))%nat).
  { intros i Hi. apply elem_of_seq in Hi. destruct s; cbn in *. lia. }
  pose proof (loop_steady w _ _ Hl) as Hst.
  destruct (loop w (seq 0 (length (grids s))) (set_currentPrice p s)) as [s' tr].
  exists tr. split; [reflexivity | exact Hst].
Qed.

Lemma checkAndTrade_unpriced (w : world) (s : state) (e : exn) :
  priceAnswer w = inl e ->
  checkAndTrade w s = (s, [GetWXOCPrice (inl e); TradeLog error (GridCheckFailed e)]).
Proof. intros He. unfold checkAndTrade. by rewrite He. Qed.

(** X21.  What a tick of the grid strategy can do to the instance.  It
    leaves the configuration, the running flag, the timer and the per-grid
    amount alone, and the level list keeps its length; every level keeps
    its price and its amount, a level that is sold stays as it is, and a
    level that is free after the tick was not touched: within a tick a
    level only moves from free to held to sold.  When the price cannot be
    fetched nothing changes at all and no swap is asked for. *)
Theorem grid_tick_moves_forward (w : world) (s : state) :
  let r := checkAndTrade w s in
  config r.1 = config s /\ isRunning r.1 = isRunning s /\ timer r.1 = timer s /\
  amountPerGrid r.1 = amountPerGrid s /\
  Forall2 forward (grids s) (grids r.1) /\
  (forall e : exn, priceAnswer w = inl e ->
     r.1 = s /\ tally is_grid_buy r.2 = 0%nat /\ tally is_grid_sell r.2 = 0%nat).
Proof.
  cbv zeta. destruct (priceAnswer w) as [e|p] eqn:Hp.
  - rewrite (checkAndTrade_unpriced w s e Hp). cbn [fst snd].
    repeat (split; [reflexivity|]). split.
    + apply Forall2_same_length_lookup_2; [reflexivity|].
      intros i x y Hx Hy. assert (y = x) by congruence. subst y. apply forward_refl.
    + intros e' _. auto.
  - destruct (checkAndTrade_priced w s p Hp)
      as (tr & _ & Hc & Hr & Ht & Ha & _ & Hlen & Hlv & _).
    destruct s as [c r gs cp t a]; cbn in *.
    repeat (split; [assumption|]). split; [|intros e'; discriminate].
    apply Forall2_same_length_lookup_2; [by rewrite Hlen|].
    intros i x y Hx Hy. destruct (Hlv i x Hx) as (g' & Hg' & Hf & _).
    assert (y = g') by congruence. by subst y.
Qed.

Lemma elem_of_scheduled (i : nat) (tr : list effect) :
  i ∈ scheduled tr <-> SetTimeout i ∈ tr.
Proof.
  unfold scheduled. rewrite list_elem_of_omap. split.
  - intros (c & Hc & Hi). destruct c; try discriminate. by injection Hi as ->.
  - intros H. by exists (SetTimeout i).
Qed.

(** A tick or a timeout leaves a held top level as it is, and sets no
    timeout for it. *)
Lemma act_keeps_top (a : action) (s : state) (q : list nat) :
  Forall (fun i => (S i < length (grids s))%nat) q ->
  let r := (act a (s, q)).1 in
  Forall (fun i => (S i < length (grids r.1))%nat) r.2 /\
  (forall top : grid, last (grids s) = Some top -> status top = bought ->
     last (grids r.1) = Some top).
Proof.
  intros Hq. destruct a as [w|]; cbn [act fst snd].
  - destruct (priceAnswer w) as [e|p] eqn:Hp.
    + rewrite (checkAndTrade_unpriced w s e Hp). cbn. rewrite app_nil_r. auto.
    + destruct (checkAndTrade_priced w s p Hp)
        as (tr & Htr & _ & _ & _ & _ & _ & Hlen & Hlv & Hto).
      destruct (checkAndTrade w s) as [s' tr0]. cbn [fst snd] in *. subst tr0.
      assert (Hgs : grids (set_currentPrice p s) = grids s) by (by destruct s).
      rewrite Hgs in *. split.
      * rewrite Hlen. apply Forall_app. split; [exact Hq|].
        apply Forall_forall. intros i Hi. apply elem_of_scheduled in Hi.
        apply elem_of_cons in Hi as [Hi|Hi]; [discriminate | by apply Hto].
      * intros top Htop Hst. rewrite last_lookup in *. rewrite Hlen.
        destruct (Hlv _ _ Htop) as (g' & Hg' & _ & Hkeep). rewrite Hg'. f_equal.
        apply Hkeep; [|exact Hst].
        apply lookup_lt_Some in Htop. lia.
  - destruct q as [|i q]; cbn [fst snd]; [auto|].
    unfold resetLevel. cbn [fst snd].
    apply Forall_cons in Hq as [Hi Hq].
    assert (Hgs : grids (set_grids (alter freed i (grids s)) s) = alter freed i (grids s))
      by (by destruct s).
    rewrite Hgs, length_alter. split; [exact Hq|].
    intros top Htop _. rewrite last_lookup in *. rewrite length_alter.
    rewrite list_lookup_alter_ne by lia. exact Htop.
Qed.

Lemma run_keeps_top (acts : list action) (s : state) (q : list nat) (top : grid) :
  Forall (fun i => (S i < length (grids s))%nat) q ->
  last (grids s) = Some top -> status top = bought ->
  last (grids (run acts (s, q)).1) = Some top.
Proof.
  revert s q. induction acts as [|a acts IH]; intros s q Hq Htop Hst; [exact Htop|].
  cbn [run]. destruct (act_keeps_top a s q Hq) as [Hq' Hkeep].
  destruct (act a (s, q)).1 as [s' q']. cbn [fst snd] in *.
  apply IH; auto.
Qed.

(** X22.  The top level is never sold.  [executeSell] is only ever called
    for the level below the one the loop is at, so once the level at the
    upper price is held it stays held, with its purchase hash, through any
    sequence of ticks and cooldown timeouts, whatever the prices and the
    answers of the exchange. *)
Theorem grid_top_level_stays_bought (acts : list action) (s : state) (top : grid) :
  last (grids s) = Some top -> status top = bought ->
  last (grids (run acts (s, [])).1) = Some top.
Proof. intros Htop Hst. by apply run_keeps_top. Qed.

Lemma grid_top_level_stays_bought_witness :
  last (grids (run [Tick (all_fill 2); Timeout; Tick (all_fill 3)] (grid_held, [])).1) =
  Some (Level 2 bought 20 (Some "0xb1") None).
Proof.
  apply (grid_top_level_stays_bought [Tick (all_fill 2); Timeout; Tick (all_fill 3)] grid_held
           (Level 2 bought 20 (Some "0xb1") None));
    reflexivity.
Defined.

(** A tick keeps the running flag and the timer. *)
Lemma grid_tick_shape (w : world) (s : state) :
  isRunning (checkAndTrade w s).1 = isRunning s /\ timer (checkAndTrade w s).1 = timer s.
Proof.
  destruct (priceAnswer w) as [e|p] eqn:Hp.
  - rewrite (checkAndTrade_unpriced w s e Hp). auto.
  - destruct (checkAndTrade_priced w s p Hp) as (tr & _ & _ & Hr & Ht & _).
    destruct s; cbn in *. auto.
Qed.

(** One iteration reads the level list and the price, nothing else. *)
Lemma visit_reads_levels (w : world) (i : nat) (s1 s2 : state) :
  (i < length (grids s1))%nat ->
  grids s1 = grids s2 -> currentPrice s1 = currentPrice s2 ->
  exists (gs : list grid) (tr : list effect),
    and_then (buy_check w i) (sell_check w i) s1 = (set_grids gs s1, tr) /\
    and_then (buy_check w i) (sell_check w i) s2 = (set_grids gs s2, tr) /\
    length gs = length (grids s1).
Proof.
  intros Hi Hgs Hcp. destruct (lookup_lt_is_Some_2 _ _ Hi) as [g Hg].
  assert (Hg2 : grids s2 !! i = Some g) by (by rewrite <- Hgs).
  rewrite (visit_eq w i s1 g Hg), (visit_eq w i s2 g Hg2). cbv zeta.
  rewrite <- Hgs, <- Hcp.
  destruct i as [|j]; [|destruct (grids s1 !! j)]; eexists _, _;
    (split; [reflexivity|]); (split; [reflexivity|]); by rewrite ?length_insert.
Qed.

Lemma loop_reads_levels (w : world) (l : list nat) (s1 s2 : state) :
  (forall i : nat, i ∈ l -> (i < length (grids s1))%nat) ->
  grids s1 = grids s2 -> currentPrice s1 = currentPrice s2 ->
  (loop w l s1).2 = (loop w l s2).2 /\
  grids (loop w l s1).1 = grids (loop w l s2).1.
Proof.
  revert s1 s2. induction l as [|i l IH]; intros s1 s2 Hl Hgs Hcp; [by cbn|].
  rewrite !loop_cons.
  destruct (visit_reads_levels w i s1 s2 (Hl i ltac:(left)) Hgs Hcp)
    as (gs & tr & -> & -> & Hlen).
  assert (Hl' : forall x : nat, x ∈ l -> (x < length (grids (set_grids gs s1)))%nat).
  { intros x Hx. destruct s1; cbn in *. rewrite Hlen. apply Hl. by right. }
  assert (Hgs' : grids (set_grids gs s1) = grids (set_grids gs s2))
    by (by destruct s1, s2).
  assert (Hcp' : currentPrice (set_grids gs s1) = currentPrice (set_grids gs s2))
    by (by destruct s1, s2).
  destruct (IH _ _ Hl' Hgs' Hcp') as [Htr Hfin].
  destruct (loop w l (set_grids gs s1)), (loop w l (set_grids gs s2)).
  cbn [fst snd] in *. by subst.
Qed.

(** X23.  A tick does not look at the running flag nor at the timer: on an
    instance with the same levels it makes the same calls and leaves the
    same levels, whether the strategy is running or stopped.  [stop()]
    cancels the ticks to come, not the trades of a tick it does not
    cancel. *)
Theorem grid_tick_ignores_running_flag (w : world) (s : state) (b : bool)
    (t : option handle) :
  let s0 := State (config s) b (grids s) (currentPrice s) t (amountPerGrid s) in
  (checkAndTrade w s0).2 = (checkAndTrade w s).2 /\
  grids (checkAndTrade w s0).1 = grids (checkAndTrade w s).1 /\
  isRunning (checkAndTrade w s0).1 = b /\ timer (checkAndTrade w s0).1 = t.
Proof.
  cbv zeta. set (s0 := State (config s) b (grids s) (currentPrice s) t (amountPerGrid s)).
  destruct (grid_tick_shape w s0) as (Hr & Ht).
  split; [|split; [|split; [exact Hr | exact Ht]]];
    unfold checkAndTrade; destruct (priceAnswer w) as [e|p]; try reflexivity.
  - assert (Hl : forall i : nat, i ∈ seq 0 (length (grids s0)) ->
                   (i < length (grids (set_currentPrice p s0)))%nat).
    { intros i Hi. apply elem_of_seq in Hi. cbn in *. lia. }
    destruct (loop_reads_levels w _ (set_currentPrice p s0) (set_currentPrice p s) Hl)
      as [Htr _]; [by destruct s | by destruct s |].
    change (grids s0) with (grids s) in *.
    destruct (loop w _ (set_currentPrice p s0)), (loop w _ (set_currentPrice p s)).
    cbn [snd] in *. by f_equal.
  - assert (Hl : forall i : nat, i ∈ seq 0 (length (grids s0)) ->
                   (i < length (grids (set_currentPrice p s0)))%nat).
    { intros i Hi. apply elem_of_seq in Hi. cbn in *. lia. }
    destruct (loop_reads_levels w _ (set_currentPrice p s0) (set_currentPrice p s) Hl)
      as [_ Hfin]; [by destruct s | by destruct s |].
    change (grids s0) with (grids s) in *.
    destruct (loop w _ (set_currentPrice p s0)), (loop w _ (set_currentPrice p s)).
    exact Hfin.
Qed.

(** With the level above priced higher, the sell test after the buy test
    does to a level what [level_after] says, and calls what it would have
    called on the level as it was. *)
Lemma level_sorted (w : world) (p : R) (gs : list grid) (j : nat) (g above : grid) :
  gs !! S j = Some above -> price g < price above ->
  sell_part w p (price above) j (buy_part w p j g).1 =
  (level_after w p gs j g, (sell_part w p (price above) j g).2).
Proof.
  intros Hup Hlt. unfold level_after. rewrite Hup. unfold sell_part, buy_part, buying.
  destruct (status g) eqn:Hst.
  - destruct (Rle_dec p (price g)) as [Hle|Hgt]; cbn [fst snd].
    + destruct (buyAnswer w j); cbn [fst snd status price];
        destruct (Rge_dec p (price above)); try lra; rewrite ?Hst; reflexivity.
    + rewrite Hst. by destruct (Rge_dec p (price above)).
  - destruct (Rle_dec p (price g)); cbn [fst]; rewrite Hst;
      destruct (Rge_dec p (price above)); try reflexivity; by destruct (selling w j g).
  - destruct (Rle_dec p (price g)); cbn [fst]; rewrite Hst;
      by destruct (Rge_dec p (price above)).
Qed.

Lemma level_during_0 (w : world) (p : R) (gs : list grid) :
  imap (level_during w p gs 0) gs = gs.
Proof.
  apply list_eq. intros i. rewrite list_lookup_imap.
  destruct (gs !! i); [|reflexivity]. cbn. unfold level_during.
  repeat case_decide; try lia. reflexivity.
Qed.

Lemma level_during_all (w : world) (p : R) (gs : list grid) :
  imap (level_during w p gs (length gs)) gs = imap (level_after w p gs) gs.
Proof.
  apply imap_ext. intros i g Hg. unfold level_during.
  pose proof (lookup_lt_Some _ _ _ Hg) as Hi.
  repeat case_decide; try lia; [reflexivity|].
  unfold level_after. rewrite (lookup_ge_None_2 gs (S i)) by lia.
  destruct (status g) eqn:Hst; [reflexivity| |];
    unfold buy_part; rewrite Hst; by destruct (Rle_dec p (price g)).
Qed.

(** One iteration over ascending prices. *)
Lemma visit_sorted (w : world) (p : R) (gs : list grid) (k : nat) (s : state) :
  ascending gs -> (k < length gs)%nat ->
  currentPrice s = p -> grids s = imap (level_during w p gs k) gs ->
  and_then (buy_check w k) (sell_check w k) s =
  (set_grids (imap (level_during w p gs (S k)) gs) s, calls_at w p gs k).
Proof.
  intros Hasc Hk Hp Hgs.
  destruct (lookup_lt_is_Some_2 _ _ Hk) as [g Hg].
  assert (Hat : forall (x : nat) (y : grid), gs !! x = Some y ->
                  grids s !! x = Some (level_during w p gs k x y)).
  { intros x y Hy. by rewrite Hgs, list_lookup_imap, Hy. }
  assert (Hsk : grids s !! k = Some g).
  { rewrite (Hat k g Hg). f_equal. unfold level_during. repeat case_decide; try lia. done. }
  rewrite (visit_eq w k s g Hsk). cbv zeta. rewrite Hp. unfold calls_at. rewrite Hg.
  destruct k as [|j].
  - rewrite app_nil_r. f_equal. f_equal.
    apply list_eq. intros x. rewrite Hgs, list_lookup_imap.
    destruct (decide (0%nat = x)) as [<-|Hne].
    + rewrite list_lookup_insert_eq by (rewrite length_imap; lia).
      rewrite Hg. cbn. unfold level_during. repeat case_decide; try lia. reflexivity.
    + rewrite list_lookup_insert_ne, list_lookup_imap by exact Hne.
      destruct (gs !! x); [|reflexivity]. cbn. unfold level_during.
      repeat case_decide; try lia; reflexivity.
  - assert (Hj : (j < length gs)%nat) by lia.
    destruct (lookup_lt_is_Some_2 _ _ Hj) as [gj Hgj]. rewrite Hgj.
    assert (Hsj : grids s !! j = Some (buy_part w p j gj).1).
    { rewrite (Hat j gj Hgj). f_equal. unfold level_during.
      repeat case_decide; try lia. reflexivity. }
    rewrite Hsj.
    assert (Hlt : price gj < price g) by (apply (Hasc j (S j)); [lia | done | done]).
    rewrite (level_sorted w p gs j gj g Hg Hlt). cbn [fst snd].
    f_equal. f_equal.
    apply list_eq. intros x. rewrite Hgs, list_lookup_imap.
    destruct (decide (j = x)) as [<-|Hne].
    + rewrite list_lookup_insert_eq by (rewrite length_insert, length_imap; lia).
      rewrite Hgj. cbn. unfold level_during. repeat case_decide; try lia. reflexivity.
    + rewrite list_lookup_insert_ne by exact Hne.
      destruct (decide (S j = x)) as [<-|Hne'].
      * rewrite list_lookup_insert_eq by (rewrite length_imap; lia).
        rewrite Hg. cbn. unfold level_during. repeat case_decide; try lia. reflexivity.
      * rewrite list_lookup_insert_ne, list_lookup_imap by exact Hne'.
        destruct (gs !! x); [|reflexivity]. cbn. unfold level_during.
        repeat case_decide; try lia; reflexivity.
Qed.

(** The loop over ascending prices, from iteration [k] on. *)
Lemma loop_sorted (w : world) (p : R) (gs : list grid) (m k : nat) (s : state) :
  ascending gs -> (k + m = length gs)%nat ->
  currentPrice s = p -> grids s = imap (level_during w p gs k) gs ->
  loop w (seq k m) s =
  (set_grids (imap (level_during w p gs (k + m)) gs) s,
   flat_map (calls_at w p gs) (seq k m)).
Proof.
  intros Hasc. revert k s. induction m as [|m IH]; intros k s Hkm Hp Hgs.
  - cbn [seq loop skip flat_map]. rewrite Nat.add_0_r, <- Hgs, set_grids_same. reflexivity.
  - cbn [seq flat_map]. rewrite loop_cons.
    rewrite (visit_sorted w p gs k s Hasc ltac:(lia) Hp Hgs).
    rewrite (IH (S k) (set_grids (imap (level_during w p gs (S k)) gs) s));
      [| lia | by destruct s | by destruct s].
    rewrite set_grids_twice. by replace (S k + m)%nat with (k + S m)%nat by lia.
Qed.

(** A tick over ascending prices. *)
Lemma checkAndTrade_sorted (w : world) (p : R) (s : state) :
  priceAnswer w = inr p -> ascending (grids s) ->
  checkAndTrade w s =
  (set_grids (imap (level_after w p (grids s)) (grids s)) (set_currentPrice p s),
   GetWXOCPrice (inr p) :: flat_map (calls_at w p (grids s)) (seq 0 (length (grids s)))).
Proof.
  intros Hp Hasc. unfold checkAndTrade. rewrite Hp.
  rewrite (loop_sorted w p (grids s) (length (grids s)) 0 (set_currentPrice p s) Hasc);
    [| lia | by destruct s | destruct s; cbn; by rewrite level_during_0].
  cbn [Nat.add]. by rewrite level_during_all.
Qed.

Lemma grid_held_ascending : ascending (grids grid_held).
Proof.
  intros i j a b Hij Ha Hb. cbn in Ha, Hb.
  destruct i as [|[|i]], j as [|[|j]]; try lia; try discriminate.
  injection Ha as <-. injection Hb as <-. cbn. lra.
Qed.

Lemma grid_free_ascending : ascending (grids grid_free).
Proof.
  intros i j a b Hij Ha Hb. cbn in Ha, Hb.
  destruct i as [|[|i]], j as [|[|j]]; try lia; try discriminate.
  injection Ha as <-. injection Hb as <-. cbn. lra.
Qed.

(** X24.  How a level is bought.  Over ascending prices, a tick that finds
    a free level at or above the price it fetched asks the exchange for
    that level's amount in USDT.  When the swap succeeds the level is held
    after the tick, with the hash of the purchase, and the purchase is
    saved with the level's price; the level is not sold again by the same
    tick.  When the swap fails the level stays as it was and the failure
    is logged.  The tick is taken on its own: no other tick of the strategy
    runs between its swaps. *)
Theorem grid_free_level_is_bought (w : world) (p : R) (s : state) (j : nat) (g : grid) :
  priceAnswer w = inr p -> ascending (grids s) ->
  grids s !! j = Some g -> status g = pending -> p <= price g ->
  let r := checkAndTrade w s in
  match buyAnswer w j with
  | inr hash =>
      grids r.1 !! j = Some (Level (price g) bought (amount g) (Some hash) (sellTxHash g)) /\
      GridBuy (amount g) (inr hash) ∈ r.2 /\
      GridSave BUY (amount g) (amount g / price g) (price g) hash ∈ r.2
  | inl e =>
      grids r.1 !! j = Some g /\
      GridBuy (amount g) (inl e) ∈ r.2 /\
      TradeLog error (GridBuyFailed j e) ∈ r.2
  end.
Proof.
  intros Hp Hasc Hg Hst Hle. cbv zeta.
  rewrite (checkAndTrade_sorted w p s Hp Hasc). cbn [fst snd].
  assert (Hgr : forall (x : list grid) (y : state), grids (set_grids x y) = x)
    by (intros x y; by destruct y).
  rewrite Hgr, list_lookup_imap, Hg. cbn [fmap option_fmap option_map].
  assert (Hin : forall c : effect,
            c ∈ (buy_part w p j g).2 ->
            c ∈ GetWXOCPrice (inr p) ::
                flat_map (calls_at w p (grids s)) (seq 0 (length (grids s)))).
  { intros c Hc. right. apply list_elem_of_In, in_flat_map. exists j. split.
    - apply in_seq. apply lookup_lt_Some in Hg. lia.
    - apply list_elem_of_In. unfold calls_at. rewrite Hg. apply elem_of_app. by left. }
  unfold level_after. rewrite Hst.
  revert Hin. unfold buy_part, buying.
  destruct (Rle_dec p (price g)) as [_|Hn]; [|contradiction].
  rewrite Hst. destruct (buyAnswer w j) as [e|hash]; cbn [fst snd]; intros Hin.
  - split; [reflexivity|]. split; apply Hin.
    + right. left.
    + do 2 right. left.
  - split; [reflexivity|]. split; apply Hin.
    + right. left.
    + do 2 right. left.
Qed.

Lemma grid_free_level_is_bought_witness :
  grids (checkAndTrade (all_fill 1) grid_free).1 !! 0%nat =
  Some (Level 1 bought 20 (Some "0xb") None).
Proof.
  assert (Hle : 1 <= 1) by lra.
  pose proof (grid_free_level_is_bought (all_fill 1) 1 grid_free 0
                (Level 1 pending 20 None None) eq_refl grid_free_ascending
                eq_refl eq_refl Hle) as H.
  cbv zeta in H. cbn [all_fill buyAnswer] in H.
  destruct H as (Hbought & _). exact Hbought.
Defined.






(** The timeouts of a queue, fired one after the other. *)
Lemma run_timeouts (q : list nat) (s : state) :
  run (replicate (length q) Timeout) (s, q) =
  (set_grids (foldl (fun gs i => alter freed i gs) (grids s) q) s, []).
Proof.
  revert s. induction q as [|i q IH]; intros s.
  - cbn. by rewrite set_grids_same.
  - cbn [length replicate run act fst snd resetLevel]. rewrite IH.
    destruct s; reflexivity.
Qed.

Lemma lookup_freed_all (q : list nat) (gs : list grid) (j : nat) :
  foldl (fun gs i => alter freed i gs) gs q !! j =
  if decide (j ∈ q) then freed <$> gs !! j else gs !! j.
Proof.
  revert gs. induction q as [|i q IH]; intros gs.
  - cbn [foldl]. case_decide as H; [by apply elem_of_nil in H | reflexivity].
  - cbn [foldl]. rewrite IH. destruct (decide (i = j)) as [->|Hne].
    + rewrite list_lookup_alter_eq. rewrite (decide_True (P := j ∈ j :: q)) by left.
      case_decide; [|reflexivity]. by destruct (gs !! j).
    + rewrite list_lookup_alter_ne by exact Hne.
      destruct (decide (j ∈ q)) as [Hin|Hout].
      * by rewrite (decide_True (P := j ∈ i :: q)) by (by right).
      * rewrite (decide_False (P := j ∈ i :: q)); [reflexivity|].
        intros H. apply elem_of_cons in H as [H|H]; [congruence | contradiction].
Qed.

(** X26.  The cycle of a level ends where it began.  Over ascending prices,
    a held level is sold by the tick whose price has reached the level
    above it, when the swap succeeds: it is then marked sold with the hash
    of the sale and its reset is scheduled.  Once the timeouts of that tick
    have fired the level is free again, without hashes, exactly as
    [pushGrid] created it. *)
Theorem grid_sold_level_is_freed (w : world) (p : R) (s : state) (j : nat)
    (g above : grid) (hash : txhash) :
  priceAnswer w = inr p -> ascending (grids s) ->
  grids s !! j = Some g -> status g = bought ->
  grids s !! S j = Some above -> price above <= p ->
  sellAnswer w j = inr hash ->
  let r := (act (Tick w) (s, [])).1 in
  grids r.1 !! j = Some (Level (price g) sold (amount g) (buyTxHash g) (Some hash)) /\
  j ∈ r.2 /\
  grids (run (replicate (length r.2) Timeout) r).1 !! j = Some (freed g).
Proof.
  intros Hp Hasc Hg Hst Hup Hle Hsell. cbv zeta.
  cbn [act fst snd app]. rewrite (checkAndTrade_sorted w p s Hp Hasc).
  cbn [fst snd app].
  set (gs := grids s) in *.
  assert (Hj : level_after w p gs j g =
               Level (price g) sold (amount g) (buyTxHash g) (Some hash)).
  { unfold level_after. rewrite Hst, Hup. unfold sell_part, selling.
    destruct (Rge_dec p (price above)) as [_|Hn]; [|lra].
    by rewrite Hst, Hsell. }
  assert (Hsold : grids (set_grids (imap (level_after w p gs) gs) (set_currentPrice p s)) !! j
                  = Some (Level (price g) sold (amount g) (buyTxHash g) (Some hash))).
  { destruct s; cbn in *. by rewrite list_lookup_imap, Hg, <- Hj. }
  assert (Hq : j ∈ scheduled (GetWXOCPrice (inr p) ::
                                flat_map (calls_at w p gs) (seq 0 (length gs)))).
  { apply elem_of_scheduled. right.
    apply list_elem_of_In, in_flat_map. exists (S j). split.
    - apply in_seq. apply lookup_lt_Some in Hup. lia.
    - apply list_elem_of_In. unfold calls_at. rewrite Hup, Hg.
      apply elem_of_app. right. unfold sell_part, selling.
      destruct (Rge_dec p (price above)) as [_|Hn]; [|lra].
      rewrite Hst, Hsell. cbn [snd]. do 4 right. left. }
  split; [exact Hsold|]. split; [exact Hq|].
  rewrite run_timeouts. cbn [fst].
  assert (Hgr : forall (x : list grid) (y : state), grids (set_grids x y) = x)
    by (intros x y; by destruct y).
  rewrite Hgr, lookup_freed_all, (decide_True _ _ Hq). rewrite Hsold. reflexivity.
Qed.

Lemma grid_sold_level_is_freed_witness :
  grids (run [Timeout] (act (Tick (all_fill 2)) (grid_held, [])).1).1 !! 0%nat =
  Some (Level 1 pending 20 None None).
Proof.
  assert (Hle : 2 <= 2) by lra.
  destruct (grid_sold_level_is_freed (all_fill 2) 2 grid_held 0
              (Level 1 bought 20 (Some "0xb0") None) (Level 2 bought 20 (Some "0xb1") None)
              "0xs" eq_refl grid_held_ascending eq_refl eq_refl eq_refl Hle eq_refl)
    as (_ & _ & Hfreed).
  assert (Hone : length (act (Tick (all_fill 2)) (grid_held, [])).1.2 = 1%nat).
  { cbn [act fst snd app]. rewrite (checkAndTrade_sorted (all_fill 2) 2 grid_held eq_refl
                                      grid_held_ascending).
    cbn. unfold sell_part, buy_part. cbn.
    destruct (Rge_dec 2 2) as [_|Hn]; [|lra].
    destruct (Rle_dec 2 1) as [Hn|_]; [lra|].
    destruct (Rle_dec 2 2) as [_|Hn]; [|lra].
    reflexivity. }
  rewrite Hone in Hfreed. exact Hfreed.
Defined.

End Grid_ticks.

(** ** Resetting a strategy *)

Section Reset_facts.

(** X27.  [DCAStrategy.reset()] brings the instance back to what the
    constructor made of its configuration: stopped, nothing spent, nothing
    executed, no timer; the interval it held is cleared and the reset is
    the last thing logged.  With a positive budget, [start()] is accepted
    again afterwards, also on a strategy that had used its budget up. *)
Theorem dca_reset_restarts (h : handle) (s : DCA.state) :
  (0 < DCA.totalBudget (DCA.config s))%Q ->
  let r := DCAStrategy.reset s in
  r.1 = DCA.new (DCA.config s) /\
  (forall t : handle, DCA.timer s = Some t -> Earlier (ClearInterval t) ∈ r.2) /\
  last r.2 = Some (TradeLog info DCAWasReset) /\
  result (DCA.start h r.1) = inl tt.
Proof.
  intros Hpos. cbv zeta.
  assert (Hreset : (DCAStrategy.reset s).1 = DCA.new (DCA.config s)).
  { destruct s as [c r sp n [t|]]; reflexivity. }
  split; [exact Hreset|]. split; [|split].
  - intros t Ht. destruct s as [c r sp n [t'|]]; [|discriminate].
    injection Ht as ->. cbn. left.
  - destruct s as [c r sp n [t|]]; reflexivity.
  - rewrite Hreset. destruct s as [c r sp n t]. cbn [DCA.config] in *.
    assert (Hge : Qgeb 0 (DCA.totalBudget c) = false).
    { destruct (Qgeb 0 (DCA.totalBudget c)) eqn:Hge; [|reflexivity].
      apply Qgeb_true in Hge. exfalso. by apply (Qlt_not_le _ _ Hpos). }
    cbv beta iota zeta delta
      [DCA.start DCA.new DCA.stop mbind mret eff_mbind eff_mret eff_bind eff_ret emit
       modify get throw].
    cbn [DCA.isRunning DCA.totalSpent DCA.config DCA.timer DCA.set_isRunning DCA.set_timer].
    rewrite Hge.
    destruct (DCA.over_budget _); reflexivity.
Qed.

Lemma dca_reset_restarts_witness :
  (DCAStrategy.reset dca_spent_running).1 = DCA.new (DCA.Config 10%Q 60%Q 20%Q None) /\
  result (DCA.start 2%positive (DCAStrategy.reset dca_spent_running).1) = inl tt.
Proof.
  assert (Hpos : (0 < DCA.totalBudget (DCA.config dca_spent_running))%Q) by reflexivity.
  destruct (dca_reset_restarts 2%positive dca_spent_running Hpos) as (Hnew & _ & _ & Hstart).
  split; [exact Hnew | exact Hstart].
Defined.

(** X28.  [GridStrategy.reset()] stops the strategy and drops every level:
    what was held is forgotten, and the interval the strategy held is
    cleared.  A tick that still runs afterwards asks for no swap, and a later
    [start()] proceeds exactly as on a new instance of the same
    configuration. *)
Theorem grid_reset_forgets (h : handle) (w : GridStrategy.world) (s : Grid.state) :
  let r := GridStrategy.reset s in
  r.1 = Grid.State (Grid.config s) false [] 0%R None (Grid.amountPerGrid s) /\
  (forall t : handle, Grid.timer s = Some t -> Earlier (ClearInterval t) ∈ r.2) /\
  GridStrategy.tally GridStrategy.is_grid_buy (GridStrategy.checkAndTrade w r.1).2 = 0 /\
  GridStrategy.tally GridStrategy.is_grid_sell (GridStrategy.checkAndTrade w r.1).2 = 0 /\
  Grid.start h r.1 = Grid.start h (Grid.new (Grid.config s)).
Proof.
  cbv zeta.
  assert (Hreset : (GridStrategy.reset s).1 =
                   Grid.State (Grid.config s) false [] 0%R None (Grid.amountPerGrid s)).
  { destruct s as [c r gs cp [t|] a]; reflexivity. }
  split; [exact Hreset|]. split.
  { intros t Ht. destruct s as [c r gs cp [t'|] a]; [|discriminate].
    injection Ht as ->. cbn. left. }
  rewrite Hreset. unfold GridStrategy.checkAndTrade. cbn [Grid.grids length seq].
  split; [by destruct (GridStrategy.priceAnswer w)|].
  split; [by destruct (GridStrategy.priceAnswer w)|].
  cbv beta iota zeta delta
    [Grid.start Grid.new Grid.initializeGrids Grid.isRunning Grid.config
     Grid.set_amountPerGrid Grid.amountPerGrid Grid.grids Grid.currentPrice Grid.timer
     try_catch mbind eff_mbind eff_bind get modify].
  reflexivity.
Qed.

End Reset_facts.

(** ** BotRunner: the listing and the final cleanup *)

Section Runner_all.

Import BotRunner Runner.

Lemma set_objects_id (r : state) : set_objects (fun objs => objs) r = r.
Proof. by destruct r. Qed.

(** One step of the first loop of [cleanupAll]. *)
Lemma stop_entry_eq (reason botId : string) (r : state) :
  exists tr : list event,
    stop_entry reason botId r =
    Outcome (set_objects
               (fun objs =>
                  match strategies r !! botId with
                  | Some p =>
                      match objs !! p with
                      | Some st => <[p := final (strategy_stop reason st)]> objs
                      | None => objs
                      end
                  | None => objs
                  end) r)
            tr (inl tt).
Proof.
  destruct r as [objs strats tims].
  cbv beta iota zeta delta [stop_entry call mbind mret eff_mbind eff_mret eff_bind eff_ret get].
  unfold set_objects. cbn [objects strategies timers].
  destruct (strats !! botId) as [p|]; cbn [objects strategies timers]; [|by exists []].
  destruct (objs !! p) as [st|] eqn:Hst; [|by exists []].
  pose proof (strategy_stop_returns reason st) as Hres.
  destruct (strategy_stop reason st) as [st' tr res]. cbn [final trace result] in *.
  subst res. by exists tr.
Qed.

Lemma for_each_cons {S A} (a : A) (l : list A) (body : A -> Eff S unit) (s : S) :
  for_each (a :: l) body s =
  match body a s with
  | Outcome s1 tr1 (inl _) =>
      match for_each l body s1 with
      | Outcome s2 tr2 res => Outcome s2 (tr1 ++ tr2) res
      end
  | Outcome s1 tr1 (inr e) => Outcome s1 tr1 (inr e)
  end.
Proof. reflexivity. Qed.

(** The first loop: it stops every object an id of [ids] refers to, keeps
    stopped what was stopped, and touches nothing else. *)
Lemma stop_entries_spec (reason : string) (ids : list string) (r : state) :
  let o := for_each ids (stop_entry reason) r in
  result o = inl tt /\ strategies (final o) = strategies r /\ timers (final o) = timers r /\
  (forall (p : ref) (st : strategy), objects r !! p = Some st ->
     exists st', objects (final o) !! p = Some st' /\
       (strategy_isRunning st = false /\ strategy_timer st = None ->
        strategy_isRunning st' = false /\ strategy_timer st' = None) /\
       ((exists b : string, b ∈ ids /\ strategies r !! b = Some p) ->
        strategy_isRunning st' = false /\ strategy_timer st' = None)) /\
  (forall p : ref, (forall b : string, b ∈ ids -> strategies r !! b <> Some p) ->
     objects (final o) !! p = objects r !! p).
Proof.
  cbv zeta. revert r. induction ids as [|b ids IH]; intros r.
  - cbn. repeat (split; [reflexivity|]). split; [|reflexivity].
    intros p st Hst. exists st. split; [exact Hst|]. split; [auto|].
    intros (b & Hb & _). by apply elem_of_nil in Hb.
  - rewrite for_each_cons. destruct (stop_entry_eq reason b r) as [tr1 ->].
    set (r1 := set_objects _ r).
    assert (Hs1 : strategies r1 = strategies r) by (by destruct r).
    assert (Ht1 : timers r1 = timers r) by (by destruct r).
    assert (Ho1 : objects r1 =
                  match strategies r !! b with
                  | Some p =>
                      match objects r !! p with
                      | Some st => <[p := final (strategy_stop reason st)]> (objects r)
                      | None => objects r
                      end
                  | None => objects r
                  end) by (by destruct r).
    clearbody r1.
    destruct (IH r1) as (Hres & Hs & Ht & Hstop & Hkeep).
    destruct (for_each ids (stop_entry reason) r1) as [r2 tr2 res2].
    cbn [final trace result] in *.
    split; [exact Hres|]. split; [congruence|]. split; [congruence|]. split.
    + intros p st Hst.
      assert (Hmid : exists st1, objects r1 !! p = Some st1 /\
                (strategy_isRunning st = false /\ strategy_timer st = None ->
                 strategy_isRunning st1 = false /\ strategy_timer st1 = None) /\
                (strategies r !! b = Some p ->
                 strategy_isRunning st1 = false /\ strategy_timer st1 = None)).
      { rewrite Ho1. destruct (strategies r !! b) as [pb|] eqn:Hb.
        - destruct (objects r !! pb) as [stb|] eqn:Hstb.
          + destruct (decide (pb = p)) as [->|Hne].
            * rewrite lookup_insert_eq. eexists. split; [reflexivity|].
              destruct (strategy_stop_spec reason stb) as (_ & Hrun & Htim & _).
              auto.
            * rewrite lookup_insert_ne by exact Hne. exists st.
              split; [exact Hst|]. split; [auto|]. congruence.
          + exists st. split; [exact Hst|]. split; [auto|]. congruence.
        - exists st. split; [exact Hst|]. split; [auto|]. discriminate. }
      destruct Hmid as (st1 & Hst1 & Hwas & Hnow).
      destruct (Hstop p st1 Hst1) as (st' & Hst' & Hwas' & Hnow').
      exists st'. split; [exact Hst'|]. split; [auto|].
      intros (b' & Hb' & Hp'). apply elem_of_cons in Hb' as [->|Hb'].
      * auto.
      * apply Hnow'. exists b'. split; [exact Hb' | congruence].
    + intros p Hp. rewrite Hkeep.
      * rewrite Ho1. destruct (strategies r !! b) as [pb|] eqn:Hb; [|reflexivity].
        destruct (objects r !! pb); [|reflexivity].
        apply lookup_insert_ne. intros ->. by apply (Hp b ltac:(left)).
      * intros b' Hb'. rewrite Hs1. apply Hp. by right.
Qed.

(** The second loop clears the timers of the ids of [ids], in order. *)
Lemma clear_entries_eq (ids : list string) (r : state) :
  for_each ids clear_entry r =
  Outcome r (omap (fun b => ClearInterval <$> timers r !! b) ids) (inl tt).
Proof.
  induction ids as [|b ids IH]; [reflexivity|].
  assert (Hone : clear_entry b r =
                 Outcome r (match timers r !! b with
                            | Some t => [ClearInterval t]
                            | None => []
                            end) (inl tt)).
  { cbv beta iota zeta delta
      [clear_entry mbind mret eff_mbind eff_mret eff_bind eff_ret get emit].
    by destruct (timers r !! b). }
  rewrite for_each_cons, Hone, IH. cbn [omap list_omap].
  by destruct (timers r !! b).
Qed.

Lemma getRunningStrategies_none (ids : list string) (r : state) :
  strategies r = ∅ -> getRunningStrategies ids r = [].
Proof.
  intros Hempty. unfold getRunningStrategies, getStrategy. rewrite Hempty.
  induction ids as [|b ids IH]; [reflexivity|].
  cbn [omap list_omap]. by rewrite lookup_empty.
Qed.

(** X29.  [cleanupAll(reason)] stops everything the registry holds.  Given
    the key orders of the two maps, it never throws, leaves both maps
    empty, leaves every registered strategy object stopped and without
    timer, clears every statistics timer, and logs its warning first.
    Nothing is listed as running afterwards.  An object no id refers to any
    more (a strategy that was replaced under its id) is not touched. *)
Theorem runner_cleanup_stops_everything (reason : string) (ids timer_ids : list string)
    (r : state) :
  (forall b : string, is_Some (strategies r !! b) -> b ∈ ids) ->
  (forall b : string, is_Some (timers r !! b) -> b ∈ timer_ids) ->
  let o := cleanupAll reason ids timer_ids r in
  o.2 = inl tt /\ strategies o.1.1 = ∅ /\ timers o.1.1 = ∅ /\
  head o.1.2 = Some (SystemLog warning (RunnerCleanup reason (size (strategies r)))) /\
  (forall (b : string) (p : ref) (st : strategy),
     strategies r !! b = Some p -> objects r !! p = Some st ->
     exists st', objects o.1.1 !! p = Some st' /\
                 strategy_isRunning st' = false /\ strategy_timer st' = None) /\
  (forall (b : string) (t : handle),
     timers r !! b = Some t -> Earlier (ClearInterval t) ∈ o.1.2) /\
  (forall p : ref, (forall b : string, strategies r !! b <> Some p) ->
     objects o.1.1 !! p = objects r !! p) /\
  (forall any : list string, getRunningStrategies any o.1.1 = []).
Proof.
  intros Hids Htids. cbv zeta.
  pose proof (stop_entries_spec reason ids r) as Hloop. cbv zeta in Hloop.
  destruct Hloop as (Hres & Hs & Ht & Hstop & Hkeep).
  unfold cleanupAll, sweep.
  cbv beta iota zeta delta [mbind eff_mbind eff_bind].
  destruct (for_each ids (stop_entry reason) r) as [r1 tr1 res1].
  cbn [final trace result] in *. subst res1.
  cbv beta iota zeta delta [modify].
  rewrite clear_entries_eq.
  cbn [fst snd head].
  assert (Hobjs : forall f g, objects (set_timers f (set_strategies g r1)) = objects r1)
    by (intros f g; by destruct r1).
  assert (Hstr : forall f, strategies (set_timers f (set_strategies (fun _ => ∅) r1)) = ∅)
    by (intros f; by destruct r1).
  assert (Htim : forall g, timers (set_timers (fun _ => ∅) (set_strategies g r1)) = ∅)
    by (intros g; by destruct r1).
  assert (Htim' : forall g, timers (set_strategies g r1) = timers r1)
    by (intros g; by destruct r1).
  rewrite Hobjs, Hstr, Htim, Htim'.
  repeat (split; [reflexivity|]). split; [|split; [|split]].
  - intros b p st Hb Hst. destruct (Hstop p st Hst) as (st' & Hst' & _ & Hnow).
    exists st'. split; [exact Hst'|]. apply Hnow. exists b. split; [|exact Hb].
    apply Hids. by rewrite Hb.
  - intros b t Hb. right. apply list_elem_of_fmap. exists (ClearInterval t).
    split; [reflexivity|]. rewrite !app_nil_r. apply elem_of_app. right.
    apply list_elem_of_omap. exists b. split; [apply Htids; by rewrite Hb|].
    by rewrite Ht, Hb.
  - intros p Hp. apply Hkeep. intros b _. apply Hp.
  - intros any. apply getRunningStrategies_none. apply Hstr.
Qed.

Lemma runner_cleanup_stops_everything_witness :
  exists st' : strategy,
    objects (cleanupAll "exit" ["bot-1"] ["bot-1"] runner_sample).1.1 !! 1 = Some st' /\
    strategy_isRunning st' = false /\ strategy_timer st' = None.
Proof.
  assert (Hids : forall b : string, is_Some (strategies runner_sample !! b) -> b ∈ ["bot-1"]).
  { intros b [p Hb]. unfold runner_sample in Hb. cbn [strategies] in Hb.
    apply lookup_singleton_Some in Hb as [<- _]. left. }
  assert (Htids : forall b : string, is_Some (timers runner_sample !! b) -> b ∈ ["bot-1"]).
  { intros b [t Hb]. unfold runner_sample in Hb. cbn [timers] in Hb.
    apply lookup_singleton_Some in Hb as [<- _]. left. }
  destruct (runner_cleanup_stops_everything "exit" ["bot-1"] ["bot-1"] runner_sample
              Hids Htids) as (_ & _ & _ & _ & Hstop & _).
  exact (Hstop "bot-1" 1 (SBuySell (bs_started bs_sample)) eq_refl eq_refl).
Defined.

(** X30.  [getRunningStrategies()] lists exactly the registered ids whose
    object has its running flag set.  Every id that [isStrategyRunning]
    reports as running is listed, with an object that holds a timer; the
    listing itself does not ask for a timer. *)
Theorem runner_listing_covers_running (ids : list string) (r : state) (botId : string) :
  botId ∈ ids ->
  ((exists st : strategy, (botId, st) ∈ getRunningStrategies ids r) <->
   (exists st : strategy, getStrategy botId r = Some st /\ strategy_isRunning st = true)) /\
  (truthy (isStrategyRunning botId r) = true ->
   exists st : strategy, (botId, st) ∈ getRunningStrategies ids r /\
                         is_Some (strategy_timer st)).
Proof.
  intros Hin.
  assert (Hlist : forall st : strategy,
            (botId, st) ∈ getRunningStrategies ids r <->
            getStrategy botId r = Some st /\ strategy_isRunning st = true).
  { intros st. unfold getRunningStrategies. rewrite list_elem_of_omap. split.
    - intros (b & _ & Hb). destruct (getStrategy b r) as [st0|] eqn:Hst0; [|discriminate].
      cbn in Hb. destruct (strategy_isRunning st0) eqn:Hrun; [|discriminate].
      injection Hb as -> ->. auto.
    - intros [Hst Hrun]. exists botId. split; [exact Hin|].
      rewrite Hst. cbn. by rewrite Hrun. }
  split.
  - split; intros [st H]; exists st; by apply Hlist.
  - unfold isStrategyRunning. destruct (getStrategy botId r) as [st|] eqn:Hst; [|discriminate].
    destruct (strategy_isRunning st) eqn:Hrun; [|discriminate].
    destruct (strategy_timer st) as [t|] eqn:Ht; [|discriminate].
    intros _. exists st. split; [|by rewrite Ht]. apply Hlist.
    rewrite <- Hst. auto.
Qed.

Lemma runner_listing_covers_running_witness :
  exists st : strategy, ("bot-1", st) ∈ Runner.getRunningStrategies ["bot-1"] runner_sample.
Proof.
  assert (Hin : "bot-1" ∈ ["bot-1"]) by left.
  destruct (runner_listing_covers_running ["bot-1"] runner_sample "bot-1" Hin) as [_ Hrun].
  destruct (Hrun eq_refl) as (st & Hst & _).
  by exists st.
Defined.

End Runner_all.
